(** * DS3231 real-time-clock driver: register codec, date validator and
      character-device protocol.

    Shallow embedding of [src/ds3231.c].  C integers are modelled as [Z]
    with the conversions of the source written out ([u8], [u32], [s32]);
    the chip behind the I2C bus and the trace of lock operations and bus
    transfers are threaded through the driver by a small state monad.
    What a function finds in an uninitialised local, in the memory after a
    buffer, or as the outcome of a user-space copy is an argument of its
    model. *)

From Stdlib Require Import ZArith List Bool Lia String Ascii.
Import ListNotations.
Open Scope Z_scope.

(** ** Machine integers *)

Definition u8 (x : Z) : Z := x mod 256.
Definition u32 (x : Z) : Z := x mod 4294967296.
Definition s32 (x : Z) : Z := (x + 2147483648) mod 4294967296 - 2147483648.

(** Error numbers of [asm/errno.h]. *)
Definition EIO : Z := 5.
Definition EFAULT : Z := 14.
Definition EINVAL : Z := 22.

(** ** Register map (the [#define]s at the head of the source) *)

Definition DS3231_REG_SECONDS : Z := 0x00.
Definition DS3231_REG_MINUTES : Z := 0x01.
Definition DS3231_REG_HOURS : Z := 0x02.
Definition DS3231_BIT_12H : Z := 0x40.
Definition DS3231_BIT_nAM : Z := 0x20.
Definition DS3231_REG_DAY : Z := 0x03.
Definition DS3231_REG_DATE : Z := 0x04.
Definition DS3231_REG_MONTH : Z := 0x05.
Definition DS3231_BIT_CENTURY : Z := 0x80.
Definition DS3231_REG_YEAR : Z := 0x06.

(** ** Packed BCD *)

(** Modelled from the spec: the helpers of [linux/bcd.h] are not part of
    the repository.  A BCD byte holds one decimal digit per nibble and is
    decoded by nibble-pair expansion, [hi*10+lo]; the encoder packs
    [val/10] and [val%10] and returns an [unsigned char]. *)
Definition bcd2bin (val : Z) : Z := Z.land val 0x0f + Z.shiftr val 4 * 10.

Definition bin2bcd (val : Z) : Z := u8 (Z.shiftl (val / 10) 4 + val mod 10).

(** ** [struct rtc_time] *)

Record rtc_time := mk_rtc_time {
  tm_sec : Z;
  tm_min : Z;
  tm_hour : Z;
  tm_mday : Z;
  tm_mon : Z;
  tm_year : Z;
  tm_wday : Z;
  tm_yday : Z;
  tm_isdst : Z
}.

Definition set_tm_sec (v : Z) (d : rtc_time) : rtc_time :=
  mk_rtc_time v (tm_min d) (tm_hour d) (tm_mday d) (tm_mon d) (tm_year d)
              (tm_wday d) (tm_yday d) (tm_isdst d).
Definition set_tm_min (v : Z) (d : rtc_time) : rtc_time :=
  mk_rtc_time (tm_sec d) v (tm_hour d) (tm_mday d) (tm_mon d) (tm_year d)
              (tm_wday d) (tm_yday d) (tm_isdst d).
Definition set_tm_hour (v : Z) (d : rtc_time) : rtc_time :=
  mk_rtc_time (tm_sec d) (tm_min d) v (tm_mday d) (tm_mon d) (tm_year d)
              (tm_wday d) (tm_yday d) (tm_isdst d).
Definition set_tm_mday (v : Z) (d : rtc_time) : rtc_time :=
  mk_rtc_time (tm_sec d) (tm_min d) (tm_hour d) v (tm_mon d) (tm_year d)
              (tm_wday d) (tm_yday d) (tm_isdst d).
Definition set_tm_mon (v : Z) (d : rtc_time) : rtc_time :=
  mk_rtc_time (tm_sec d) (tm_min d) (tm_hour d) (tm_mday d) v (tm_year d)
              (tm_wday d) (tm_yday d) (tm_isdst d).
Definition set_tm_year (v : Z) (d : rtc_time) : rtc_time :=
  mk_rtc_time (tm_sec d) (tm_min d) (tm_hour d) (tm_mday d) (tm_mon d) v
              (tm_wday d) (tm_yday d) (tm_isdst d).

(** [memset(&date, 0, sizeof(struct rtc_time))]. *)
Definition zero_time : rtc_time := mk_rtc_time 0 0 0 0 0 0 0 0 0.

(** ** Register blocks ([u8 regs[7]]) *)

Definition reg (regs : list Z) (i : Z) : Z := nth (Z.to_nat i) regs 0.

Fixpoint upd_nat (i : nat) (v : Z) (regs : list Z) : list Z :=
  match regs with
  | [] => []
  | r :: rest =>
      match i with
      | O => v :: rest
      | S j => r :: upd_nat j v rest
      end
  end.

Definition upd (i : Z) (v : Z) (regs : list Z) : list Z :=
  upd_nat (Z.to_nat i) v regs.

(** A raw register block: exactly seven bytes. *)
Definition is_block (regs : list Z) : Prop :=
  List.length regs = 7%nat /\ Forall (fun b => 0 <= b < 256) regs.

(** ** The codec part of [ds3231_read_date] (lines 106 to 139)

    The result is the return value together with the caller's
    [struct rtc_time] as the function leaves it: the day of month is
    already stored when the century test returns. *)
Definition decode (regs : list Z) (date : rtc_time) : Z * rtc_time :=
  let hour_pm := 0 in
  let date := set_tm_mday (bcd2bin (reg regs DS3231_REG_DATE)) date in
  if negb (Z.land (reg regs DS3231_REG_MONTH) DS3231_BIT_CENTURY =? 0) then
    (EINVAL, date)
  else
    let date := set_tm_mon (bcd2bin (reg regs DS3231_REG_MONTH) - 1) date in
    let date := set_tm_year (bcd2bin (reg regs DS3231_REG_YEAR) + 100) date in
    let '(regs, hour_pm) :=
      if negb (Z.land (reg regs DS3231_REG_HOURS) DS3231_BIT_12H =? 0) then
        let regs :=
          upd DS3231_REG_HOURS
              (u8 (Z.land (reg regs DS3231_REG_HOURS) (Z.lnot DS3231_BIT_12H)))
              regs in
        if negb (Z.land (reg regs DS3231_REG_HOURS) DS3231_BIT_nAM =? 0) then
          (upd DS3231_REG_HOURS
               (u8 (Z.land (reg regs DS3231_REG_HOURS) (Z.lnot DS3231_BIT_nAM)))
               regs, 12)
        else (regs, hour_pm)
      else (regs, hour_pm) in
    let date := set_tm_hour (bcd2bin (reg regs DS3231_REG_HOURS) + hour_pm) date in
    let date := set_tm_min (bcd2bin (reg regs DS3231_REG_MINUTES)) date in
    let date := set_tm_sec (bcd2bin (reg regs DS3231_REG_SECONDS)) date in
    (0, date).

(** ** The codec part of [ds3231_write_date] (lines 159 to 200)

    [regs] is the block just read from the chip; the hour-format bit and
    the bits the masks leave alone are taken from it. *)
Definition encode (regs : list Z) (date : rtc_time) : list Z :=
  let hour := tm_hour date in
  let regs :=
    upd DS3231_REG_DATE (bin2bcd (Z.land (u8 (tm_mday date)) 0x3f)) regs in
  let regs :=
    upd DS3231_REG_MONTH
        (u8 (Z.land (reg regs DS3231_REG_MONTH) (Z.lnot 0x9f))) regs in
  let regs :=
    upd DS3231_REG_MONTH
        (u8 (Z.lor (reg regs DS3231_REG_MONTH)
                   (bin2bcd (Z.land (u8 (tm_mon date + 1)) 0x1f)))) regs in
  let regs :=
    if 199 <? tm_year date then
      upd DS3231_REG_MONTH (u8 (Z.lor (reg regs DS3231_REG_MONTH) 0x80)) regs
    else regs in
  let regs :=
    upd DS3231_REG_YEAR
        (bin2bcd (Z.land (u8 (Z.rem (tm_year date) 100)) 0xff)) regs in
  let regs :=
    if negb (Z.land (reg regs DS3231_REG_HOURS) DS3231_BIT_12H =? 0) then
      let '(regs, hour) :=
        if 12 <=? hour then
          (upd DS3231_REG_HOURS
               (u8 (Z.lor (reg regs DS3231_REG_HOURS) DS3231_BIT_nAM)) regs,
           hour - 12)
        else
          (upd DS3231_REG_HOURS
               (u8 (Z.land (reg regs DS3231_REG_HOURS) (Z.lnot DS3231_BIT_nAM)))
               regs,
           hour) in
      let regs :=
        upd DS3231_REG_HOURS
            (u8 (Z.land (reg regs DS3231_REG_HOURS) (Z.lnot 0x1f))) regs in
      upd DS3231_REG_HOURS
          (u8 (Z.lor (reg regs DS3231_REG_HOURS)
                     (bin2bcd (Z.land (u8 hour) 0x1f)))) regs
    else
      let regs :=
        upd DS3231_REG_HOURS
            (u8 (Z.land (reg regs DS3231_REG_HOURS) (Z.lnot 0x3f))) regs in
      upd DS3231_REG_HOURS
          (u8 (Z.lor (reg regs DS3231_REG_HOURS)
                     (bin2bcd (Z.land (u8 hour) 0x3f)))) regs in
  let regs := upd DS3231_REG_MINUTES (bin2bcd (u8 (tm_min date))) regs in
  let regs := upd DS3231_REG_SECONDS (bin2bcd (u8 (tm_sec date))) regs in
  regs.

(** ** [ds3231_check_date]

    The function is declared [u32]: the failure value is [-EINVAL]
    converted to unsigned. *)
Definition ds3231_check_date (date : rtc_time) : Z :=
  let curr_year := u32 (tm_year date + 1900) in
  let check_fail := u32 (- EINVAL) in
  let mday_in (hi : Z) : Z :=
    if (tm_mday date <? 1) || (hi <? tm_mday date) then check_fail else 0 in
  if (tm_sec date <? 0) || (59 <? tm_sec date) then check_fail
  else if (tm_min date <? 0) || (59 <? tm_min date) then check_fail
  else if (tm_hour date <? 0) || (23 <? tm_hour date) then check_fail
  else if (tm_year date <? 100) || (299 <? tm_year date) then check_fail
  else
    match tm_mon date with
    | 0 | 2 | 4 | 6 | 7 | 9 | 11 => mday_in 31
    | 3 | 5 | 8 | 10 => mday_in 30
    | 1 =>
        if ((curr_year mod 4 =? 0) && negb (curr_year mod 100 =? 0))
           || (curr_year mod 400 =? 0)
        then mday_in 29
        else mday_in 28
    | _ => check_fail
    end.

(** ** The I2C bus, the mutex and the state the driver runs against *)

Inductive event :=
| EvLock
| EvUnlock
| EvRead (command : Z) (result : Z)
| EvWrite (command : Z) (value : Z) (result : Z).

(** [regfile] is the chip's register file, indexed by register address;
    [plan] gives the outcome of the coming bus transfers, one entry per
    transfer (a negative entry is the errno the transfer fails with, and
    an exhausted plan means success); [trace] records every lock operation
    and every transfer in program order. *)
Record chip := mk_chip {
  regfile : list Z;
  plan : list Z;
  trace : list event
}.

Definition M (A : Type) : Type := chip -> A * chip.

Definition ret {A : Type} (a : A) : M A := fun s => (a, s).

Definition bind {A B : Type} (m : M A) (k : A -> M B) : M B :=
  fun s => let '(a, s') := m s in k a s'.

Declare Scope drv_scope.
Delimit Scope drv_scope with drv.
Notation "x <- m ;; k" := (bind m (fun x => k))
  (at level 61, m at next level, right associativity) : drv_scope.
Notation "m ;; k" := (bind m (fun _ => k))
  (at level 61, right associativity) : drv_scope.
Open Scope drv_scope.

Definition log (e : event) : M unit :=
  fun s => (tt, mk_chip (regfile s) (plan s) (trace s ++ [e])).

Definition mutex_lock : M unit := log EvLock.
Definition mutex_unlock : M unit := log EvUnlock.

Definition next_outcome (s : chip) : Z * list Z :=
  match plan s with
  | [] => (0, [])
  | c :: rest => (c, rest)
  end.

(** Modelled from the spec: the Register Transport is an external
    collaborator (the kernel's SMBus layer).  It reads or writes one byte
    at a chip register address and reports failure per attempted byte as a
    negative errno; a failed write leaves the register as it was. *)
Definition i2c_smbus_read_byte_data (command : Z) : M Z :=
  fun s =>
    let '(code, rest) := next_outcome s in
    let result := if code <? 0 then code else u8 (reg (regfile s) command) in
    (result, mk_chip (regfile s) rest (trace s ++ [EvRead command result])).

Definition i2c_smbus_write_byte_data (command value : Z) : M Z :=
  fun s =>
    let '(code, rest) := next_outcome s in
    if code <? 0 then
      (code, mk_chip (regfile s) rest (trace s ++ [EvWrite command value code]))
    else
      (0, mk_chip (upd command value (regfile s)) rest
                  (trace s ++ [EvWrite command value 0])).

(** ** [ds3231_read_block_data], [ds3231_write_block_data]

    [n] counts the iterations the [for] loop still has to make. *)
Fixpoint read_block_loop (n : nat) (r i : Z) (buf : list Z) : M (Z * list Z) :=
  match n with
  | O => ret (i, buf)
  | S n' =>
      data <- i2c_smbus_read_byte_data (u8 (r + i)) ;;
      if data <? 0 then ret (data, buf)
      else read_block_loop n' r (i + 1) (upd i (u8 data) buf)
  end.

Definition ds3231_read_block_data (r len : Z) (buf : list Z) : M (Z * list Z) :=
  read_block_loop (Z.to_nat len) r 0 buf.

Fixpoint write_block_loop (n : nat) (r i : Z) (buf : list Z) : M Z :=
  match n with
  | O => ret 0
  | S n' =>
      err <- i2c_smbus_write_byte_data (u8 (r + i)) (reg buf i) ;;
      if err <? 0 then ret err
      else write_block_loop n' r (i + 1) buf
  end.

Definition ds3231_write_block_data (r len : Z) (buf : list Z) : M Z :=
  write_block_loop (Z.to_nat len) r 0 buf.

(** The local [u8 regs[7]] before the block read.  Its contents are never
    observed: a failed read returns before [regs] is used and a successful
    one overwrites all seven bytes. *)
Definition regs_local : list Z := [0; 0; 0; 0; 0; 0; 0].

(** ** [ds3231_read_date]: the result is the return value and the caller's
    [struct rtc_time] after the call. *)
Definition ds3231_read_date (date : rtc_time) : M (Z * rtc_time) :=
  mutex_lock ;;
  r <- ds3231_read_block_data DS3231_REG_SECONDS 7 regs_local ;;
  mutex_unlock ;;
  if fst r <? 0 then ret (fst r, date)
  else ret (decode (snd r) date).

(** ** [ds3231_write_date] *)
Definition ds3231_write_date (date : rtc_time) : M Z :=
  mutex_lock ;;
  r <- ds3231_read_block_data DS3231_REG_SECONDS 7 regs_local ;;
  mutex_unlock ;;
  let ret_ := fst r in
  if ret_ <? 0 then ret ret_
  else
    let regs := encode (snd r) date in
    mutex_lock ;;
    ds3231_write_block_data DS3231_REG_SECONDS 7 regs ;;
    mutex_unlock ;;
    if ret_ <? 0 then ret ret_
    else ret 0.

(** ** Text formatting ([scnprintf]) *)

Definition LF : ascii := ascii_of_nat 10.

Definition digit_char (d : Z) : ascii := ascii_of_nat (48 + Z.to_nat d).

(** Decimal digits of a non-negative number, most significant first; ten
    rounds cover every [int]. *)
Fixpoint decimal_aux (fuel : nat) (v : Z) (acc : string) : string :=
  match fuel with
  | O => acc
  | S f =>
      let acc' := String (digit_char (v mod 10)) acc in
      if v / 10 =? 0 then acc' else decimal_aux f (v / 10) acc'
  end.

Definition decimal (v : Z) : string := decimal_aux 10 v EmptyString.

Fixpoint zeros (n : nat) : string :=
  match n with
  | O => EmptyString
  | S k => String "0" (zeros k)
  end.

(** Modelled from the spec: the kernel's [scnprintf] is not part of the
    repository.  A [%0Nd] conversion prints the sign, if any, then zeros up
    to the field width [N], then the decimal digits. *)
Definition fmt_0d (width : nat) (v : Z) : string :=
  let ds := decimal (Z.abs v) in
  let sign := if v <? 0 then "-"%string else EmptyString in
  (sign ++ zeros (width - String.length sign - String.length ds) ++ ds)%string.

(** [scnprintf(date_str, sizeof(date_str), "%02d.%02d.%04d %02d:%02d:%02d\n", ...)]
    with [char date_str[64]]: at most 63 characters are kept.  The
    arguments [date.tm_mon + 1] and [date.tm_year + 1900] are [int]
    additions, which wrap. *)
Definition format_date (date : rtc_time) : string :=
  substring 0 63
    (fmt_0d 2 (tm_mday date) ++ "." ++
     fmt_0d 2 (s32 (tm_mon date + 1)) ++ "." ++
     fmt_0d 4 (s32 (tm_year date + 1900)) ++ " " ++
     fmt_0d 2 (tm_hour date) ++ ":" ++
     fmt_0d 2 (tm_min date) ++ ":" ++
     fmt_0d 2 (tm_sec date) ++ String LF EmptyString)%string.

(** ** Text parsing ([sscanf]) *)

Definition isdigit (c : ascii) : bool :=
  let n := nat_of_ascii c in (48 <=? n)%nat && (n <=? 57)%nat.

Definition isspace (c : ascii) : bool :=
  let n := nat_of_ascii c in
  ((9 <=? n)%nat && (n <=? 13)%nat) || (n =? 32)%nat || (n =? 160)%nat.

Definition digit_val (c : ascii) : Z := Z.of_nat (nat_of_ascii c) - 48.

(** A C string ends at its first NUL byte. *)
Fixpoint c_string (m : string) : string :=
  match m with
  | EmptyString => EmptyString
  | String c rest =>
      if (nat_of_ascii c =? 0)%nat then EmptyString else String c (c_string rest)
  end.

Fixpoint skip_spaces (s : string) : string :=
  match s with
  | EmptyString => EmptyString
  | String c rest => if isspace c then skip_spaces rest else s
  end.

Definition width_left (w : option nat) : bool :=
  match w with
  | Some O => false
  | _ => true
  end.

Definition width_pred (w : option nat) : option nat :=
  match w with
  | Some n => Some (Nat.pred n)
  | None => None
  end.

(** Digits are consumed while the field width, when there is one, lasts. *)
Fixpoint parse_digits (w : option nat) (s : string) (acc : Z) : Z * string :=
  match s with
  | EmptyString => (acc, s)
  | String c rest =>
      if isdigit c && width_left w
      then parse_digits (width_pred w) rest (acc * 10 + digit_val c)
      else (acc, s)
  end.

Definition simple_strntoll (s : string) (w : option nat) : Z * string :=
  match s with
  | String "-" rest =>
      if width_left w then
        let '(v, next) := parse_digits (width_pred w) rest 0 in (- v, next)
      else parse_digits w s 0
  | _ => parse_digits w s 0
  end.

Inductive directive :=
| DInt (width : option nat)
| DChar (c : ascii)
| DSpace.

Definition first_char (s : string) : option ascii :=
  match s with
  | EmptyString => None
  | String c _ => Some c
  end.

(** Modelled from the spec: the kernel's [sscanf] is not part of the
    repository.  The numeric fields are parsed positionally: white space
    in the format skips any white space of the input, any other literal
    must match exactly, and [%d] skips white space and reads an optionally
    signed run of decimal digits no longer than the field width, stored in
    an [int].  Scanning stops at the first directive that does not match;
    the result lists the values converted so far. *)
Fixpoint vsscanf (str : string) (fmt : list directive) : list Z :=
  match fmt with
  | [] => []
  | DSpace :: fmt' => vsscanf (skip_spaces str) fmt'
  | DChar c :: fmt' =>
      match str with
      | String c' rest => if Ascii.eqb c c' then vsscanf rest fmt' else []
      | EmptyString => []
      end
  | DInt w :: fmt' =>
      match str with
      | EmptyString => []
      | _ =>
          let str := skip_spaces str in
          let digit :=
            match str with
            | String "-" rest =>
                match w with
                | Some 1%nat => None
                | _ => first_char rest
                end
            | _ => first_char str
            end in
          match digit with
          | Some d =>
              if isdigit d then
                let '(v, next) := simple_strntoll str w in
                s32 v :: vsscanf next fmt'
              else []
          | None => []
          end
      end
  end.

(** ["%04d-%02d-%d %d:%d:%d"] *)
Definition date_fmt : list directive :=
  [DInt (Some 4%nat); DChar "-"; DInt (Some 2%nat); DChar "-"; DInt None;
   DSpace; DInt None; DChar ":"; DInt None; DChar ":"; DInt None].

(** The six destinations in argument order; a field the scan does not
    reach keeps what the uninitialised local held. *)
Fixpoint store_fields (dst : list (Z -> rtc_time -> rtc_time)) (vals : list Z)
         (date : rtc_time) : rtc_time :=
  match dst, vals with
  | f :: dst', v :: vals' => store_fields dst' vals' (f v date)
  | _, _ => date
  end.

Definition sscanf_date (date_str : string) (date : rtc_time) : rtc_time :=
  store_fields
    [set_tm_year; set_tm_mon; set_tm_mday; set_tm_hour; set_tm_min; set_tm_sec]
    (vsscanf (c_string date_str) date_fmt) date.

(** ** Callbacks of the device file *)

(** [ds3231_dev_open] and [ds3231_dev_close] only log.  The file position
    that [ds3231_dev_read] receives belongs to the open file: the kernel
    creates it at zero when the file is opened. *)
Definition ds3231_dev_open : M Z := ret 0.
Definition ds3231_dev_close : M Z := ret 0.
Definition fresh_offset : Z := 0.

(** [ds3231_dev_read].  [count] is the size of the user buffer, [offset]
    the file position on entry, [stack] what the uninitialised local
    [date] holds and [uok] whether [copy_to_user] succeeds.  The result is
    the return value, the file position on exit and the bytes copied to
    the user buffer. *)
Definition ds3231_dev_read (count : nat) (offset : Z) (stack : rtc_time)
           (uok : bool) : M (Z * Z * string) :=
  if negb (offset =? 0) then ret (0, 0, EmptyString)
  else
    r <- ds3231_read_date stack ;;
    if fst r <? 0 then ret (- EIO, offset, EmptyString)
    else
      let date := snd r in
      let date_str := format_date date in
      let written := String.length date_str in
      let written := if (count <? written)%nat then count else written in
      if negb uok then ret (- EFAULT, offset, EmptyString)
      else ret (Z.of_nat written, 1, substring 0 written date_str).

(** The delimiter test of [ds3231_dev_write].  [date_str] has [count]
    elements; the kernel memory that follows it is part of what the test
    can see, so the memory is modelled as the bytes of the buffer followed
    by the adjacent bytes (and NUL after those). *)
Definition peek (m : string) (i : nat) : ascii :=
  match get i m with
  | Some c => c
  | None => zero
  end.

Definition layout : list (nat * ascii) :=
  [(4%nat, "-"%char); (7%nat, "-"%char); (10%nat, " "%char);
   (13%nat, ":"%char); (16%nat, ":"%char)].

(** The [&&] chain, evaluated left to right up to the first comparison
    that fails; the second component lists the indices of [date_str] it
    reads. *)
Fixpoint layout_check (m : string) (l : list (nat * ascii)) : bool * list nat :=
  match l with
  | [] => (true, [])
  | (i, c) :: rest =>
      if Ascii.eqb (peek m i) c then
        let '(b, acc) := layout_check m rest in (b, i :: acc)
      else (false, [i])
  end.

(** The date [ds3231_dev_write] hands to the validator: [date.tm_mon--]
    and [date.tm_year -= 1900] are [int] operations, which wrap. *)
Definition parse_date (mem : string) (stack : rtc_time) : rtc_time :=
  let date := sscanf_date mem stack in
  let date := set_tm_mon (s32 (tm_mon date - 1)) date in
  set_tm_year (s32 (tm_year date - 1900)) date.

(** [ds3231_dev_write] from line 356 on, that is once the array
    [char date_str[count]] of line 354 is on the kernel stack (the
    allocation itself is in [ds3231_dev_write_call] below).  [buf] holds
    the [count] bytes the caller supplies, [adjacent] the kernel memory
    after [date_str], [stack] what the uninitialised local [date] holds
    and [uok] whether [copy_from_user] succeeds. *)
Definition ds3231_dev_write (buf adjacent : string) (stack : rtc_time)
           (uok : bool) : M Z :=
  let count := String.length buf in
  if (20 <? count)%nat then ret (- EINVAL)
  else if negb uok then ret (- EINVAL)
  else
    let date_str := (buf ++ adjacent)%string in
    if negb (fst (layout_check date_str layout)) then ret (- EINVAL)
    else
      let date := parse_date date_str stack in
      let ret_ := s32 (ds3231_check_date date) in
      if negb (ret_ =? 0) then ret ret_
      else
        ret_ <- ds3231_write_date date ;;
        if negb (ret_ =? 0) then ret ret_
        else ret (Z.of_nat count).

(** How a call of a callback ends: it returns, or it runs over the end of
    the kernel stack. *)
Inductive call_end (A : Type) :=
| Returned (r : A * chip)
| StackOverrun.

Arguments Returned {A} r.
Arguments StackOverrun {A}.

(** A call of [ds3231_dev_write].  The array [char date_str[count]] is
    allocated on entry, before [count] is compared with 20: [room] is the
    number of bytes the kernel stack has left for it, and a [count] beyond
    that overruns the stack instead of returning. *)
Definition ds3231_dev_write_call (room : nat) (buf adjacent : string)
           (stack : rtc_time) (uok : bool) (s : chip) : call_end Z :=
  if (room <? String.length buf)%nat then StackOverrun
  else Returned (ds3231_dev_write buf adjacent stack uok s).

Inductive ioctl_cmd :=
| RTC_RD_TIME
| RTC_SET_TIME
| RTC_UIE_ON
| RTC_UIE_OFF
| RTC_OTHER (cmd : Z).

(** [ds3231_dev_ioctl].  [arg] is the caller's [struct rtc_time] and [uok]
    whether the copy from or to user space succeeds; the result is the
    return value and the caller's structure after the call. *)
Definition ds3231_dev_ioctl (cmd : ioctl_cmd) (arg : rtc_time) (uok : bool)
  : M (Z * rtc_time) :=
  match cmd with
  | RTC_RD_TIME =>
      let date := zero_time in
      r <- ds3231_read_date date ;;
      if fst r <? 0 then ret (- EIO, arg)
      else if negb uok then ret (- EINVAL, arg)
      else ret (0, snd r)
  | RTC_SET_TIME =>
      if negb uok then ret (- EINVAL, arg)
      else
        let date := arg in
        let ret_ := s32 (ds3231_check_date date) in
        if negb (ret_ =? 0) then ret (ret_, arg)
        else
          ret_ <- ds3231_write_date date ;;
          if negb (ret_ =? 0) then ret (ret_, arg)
          else ret (0, arg)
  | RTC_UIE_ON | RTC_UIE_OFF => ret (0, arg)
  | RTC_OTHER _ => ret (-1, arg)
  end.

(** Consecutive reads on one open file: each request is the size of the
    user buffer; the file position is threaded from one call to the next.
    The result lists the return values. *)
Fixpoint read_session (reqs : list nat) (offset : Z) (stack : rtc_time)
  : M (list Z) :=
  match reqs with
  | [] => ret []
  | count :: reqs' =>
      r <- ds3231_dev_read count offset stack true ;;
      rs <- read_session reqs' (snd (fst r)) stack ;;
      ret (fst (fst r) :: rs)
  end.

(** ** Sample data *)

(** A chip in 24-hour mode showing 05.07.2023 09:02:07, with no transfer
    planned to fail. *)
Definition chip0 : chip :=
  mk_chip [0x07; 0x02; 0x09; 0x03; 0x05; 0x07; 0x23; 0; 0; 0; 0; 0; 0; 0;
           0x1c; 0x88; 0; 0; 0] [] [].

(** 15 March 2024, 12:30:45. *)
Definition sample_time : rtc_time := mk_rtc_time 45 30 12 15 2 124 0 0 0.

Definition sample_text : string :=
  ("2024-03-15 12:30:45" ++ String LF EmptyString)%string.

(** ** The validator in the words of the specification

    Calendar month and year are [tm_mon + 1] and [tm_year + 1900]. *)

Definition leap_year (year : Z) : bool :=
  ((year mod 4 =? 0) && negb (year mod 100 =? 0)) || (year mod 400 =? 0).

Definition days_in_month (month year : Z) : Z :=
  if existsb (Z.eqb month) [1; 3; 5; 7; 8; 10; 12] then 31
  else if existsb (Z.eqb month) [4; 6; 9; 11] then 30
  else if leap_year year then 29 else 28.

Definition calendar_valid (d : rtc_time) : Prop :=
  0 <= tm_sec d <= 59 /\
  0 <= tm_min d <= 59 /\
  0 <= tm_hour d <= 23 /\
  2000 <= tm_year d + 1900 <= 2199 /\
  1 <= tm_mon d + 1 <= 12 /\
  1 <= tm_mday d <= days_in_month (tm_mon d + 1) (tm_year d + 1900).

(** ** Auxiliary definitions of the development *)

Definition range (n : nat) : list Z := map Z.of_nat (seq 0 n).

(** The hours register after [encode], as a function of the register
    read from the chip and the hour to store. *)
Definition hours_reg (old hour : Z) : Z :=
  reg (encode [0; 0; old; 0; 0; 0; 0] (mk_rtc_time 0 0 hour 1 0 100 0 0 0))
      DS3231_REG_HOURS.

Definition month_reg (old mon year : Z) : Z :=
  reg (encode [0; 0; 0; 0; 0; old; 0] (mk_rtc_time 0 0 0 1 mon year 0 0 0))
      DS3231_REG_MONTH.

(** The hour [decode] reads from an hours register. *)
Definition decoded_hour (h : Z) : Z :=
  tm_hour (snd (decode [0; 0; h; 0; 1; 1; 0] zero_time)).

Definition two_digits (v : Z) : string :=
  String (digit_char (v / 10)) (String (digit_char (v mod 10)) EmptyString).

Definition four_digits (v : Z) : string :=
  String (digit_char (v / 1000))
         (String (digit_char (v / 100 mod 10)) (two_digits (v mod 100))).

(** [DD.MM.YYYY HH:MM:SS] and a line feed. *)
Definition calendar_text (d : rtc_time) : string :=
  (two_digits (tm_mday d) ++ "." ++ two_digits (tm_mon d + 1) ++ "." ++
   four_digits (tm_year d + 1900) ++ " " ++
   two_digits (tm_hour d) ++ ":" ++ two_digits (tm_min d) ++ ":" ++
   two_digits (tm_sec d) ++ String LF EmptyString)%string.

(** Two-digit fields and a four-digit year.  Every calendar time of the
    data model (second and minute 0..59, hour 0..23, day 1..31, month
    1..12, four-digit year) is of this kind, and so is every time decoded
    from registers that hold packed BCD. *)
Definition two_digit_fields (d : rtc_time) : Prop :=
  0 <= tm_sec d <= 99 /\ 0 <= tm_min d <= 99 /\ 0 <= tm_hour d <= 99 /\
  0 <= tm_mday d <= 99 /\ 0 <= tm_mon d + 1 <= 99 /\
  1000 <= tm_year d + 1900 <= 9999.

Definition is_read (e : event) : bool :=
  match e with
  | EvRead _ _ => true
  | _ => false
  end.

Definition is_write (e : event) : bool :=
  match e with
  | EvWrite _ _ _ => true
  | _ => false
  end.

Definition is_transfer (e : event) : bool := is_read e || is_write e.

(** In the words of the specification: the lock is taken, every transfer
    of the transaction is made, and the lock is released. *)
Definition one_critical_section (evs : list event) : bool :=
  match evs with
  | EvLock :: rest =>
      match rev rest with
      | EvUnlock :: body => forallb is_transfer body
      | _ => false
      end
  | _ => false
  end.

(** The chip of [chip0] on a bus whose eighth transfer, the first write of
    a set-time transaction, fails with [-EIO]. *)
Definition chip_write_fault : chip :=
  mk_chip (regfile chip0) [0; 0; 0; 0; 0; 0; 0; - EIO] [].

(** The chip of [chip0] with the century bit set in the month register. *)
Definition chip_century : chip :=
  mk_chip [0x07; 0x02; 0x09; 0x03; 0x05; 0x87; 0x23; 0; 0; 0; 0; 0; 0; 0;
           0x1c; 0x88; 0; 0; 0] [] [].

(** ** Start-up: [ds3231_probe], [ds3231_remove], module init and exit *)

Definition ENODEV : Z := 19.

Definition DS3231_REG_CONTROL : Z := 0x0e.
Definition DS3231_BIT_nEOSC : Z := 0x80.
Definition DS3231_BIT_INTCN : Z := 0x04.
Definition DS3231_BIT_A2IE : Z := 0x02.
Definition DS3231_BIT_A1IE : Z := 0x01.
Definition DS3231_REG_STATUS : Z := 0x0f.
Definition DS3231_BIT_OSF : Z := 0x80.

(** What the driver obtains from the kernel, and the calls that obtain
    and give back each of them. *)
Inductive resource :=
| ChrdevRegion
| Cdev
| DeviceClass
| Device
| I2cClient
| I2cDriver.

Inductive kcall :=
| Acquire (r : resource)
| Release (r : resource).

(** A pointer returned by the kernel: [NULL], an error pointer
    ([ERR_PTR]) or a pointer to the object asked for.  [class_create] and
    [device_create] report failure with an error pointer. *)
Inductive kpointer :=
| KNull
| KErr (errno : Z)
| KValid.

Definition is_null (p : kpointer) : bool :=
  match p with
  | KNull => true
  | _ => false
  end.

Definition is_valid (p : kpointer) : bool :=
  match p with
  | KValid => true
  | _ => false
  end.

(** The outcomes of the kernel calls of [ds3231_probe]: the return values
    of [alloc_chrdev_region] and [cdev_add], and the pointers
    [class_create] and [device_create] return. *)
Record probe_outcomes := mk_probe_outcomes {
  alloc_chrdev_region_ret : Z;
  cdev_add_ret : Z;
  class_create_ret : kpointer;
  device_create_ret : kpointer
}.

(** Lines 542 to 582 of [ds3231_probe]: the character device is set up
    step by step, and the labels at the end release what was obtained, the
    latest first.  The code compares the pointers of [class_create] and
    [device_create] with [NULL] only, so an error pointer is taken for
    success; an object is obtained only when the pointer is valid.  The
    result is the return value and the kernel calls made, in order. *)
Definition register_chardev (k : probe_outcomes) : Z * list kcall :=
  let ret_ := alloc_chrdev_region_ret k in
  if ret_ <? 0 then (ret_, [])
  else
    let ret_ := cdev_add_ret k in
    if ret_ <? 0 then
      (- EIO, [Acquire ChrdevRegion; Release ChrdevRegion])
    else
      let class := if is_valid (class_create_ret k)
                   then [Acquire DeviceClass] else [] in
      if is_null (class_create_ret k) then
        (- EIO, [Acquire ChrdevRegion; Acquire Cdev;
                 Release Cdev; Release ChrdevRegion])
      else
        let device := if is_valid (device_create_ret k)
                      then [Acquire Device] else [] in
        if is_null (device_create_ret k) then
          (- EIO, [Acquire ChrdevRegion; Acquire Cdev] ++ class ++
                  [Release DeviceClass; Release Cdev; Release ChrdevRegion])
        else
          (0, [Acquire ChrdevRegion; Acquire Cdev] ++ class ++ device).

(** [ds3231_probe]: the control and status registers are read and
    normalised on the bus (without the mutex), then the character device
    is set up. *)
Definition ds3231_probe (k : probe_outcomes) : M (Z * list kcall) :=
  reg0 <- i2c_smbus_read_byte_data DS3231_REG_CONTROL ;;
  reg1 <- i2c_smbus_read_byte_data DS3231_REG_STATUS ;;
  if (reg0 <? 0) || (reg1 <? 0) then ret (- ENODEV, [])
  else
    let reg_cnt := u8 reg0 in
    let reg_sts := u8 reg1 in
    let reg_cnt :=
      if negb (Z.land reg_cnt DS3231_BIT_nEOSC =? 0)
      then u8 (Z.land reg_cnt (Z.lnot DS3231_BIT_nEOSC))
      else reg_cnt in
    let reg_cnt :=
      u8 (Z.land reg_cnt
                 (Z.lnot (Z.lor (Z.lor DS3231_BIT_INTCN DS3231_BIT_A2IE)
                                DS3231_BIT_A1IE))) in
    i2c_smbus_write_byte_data DS3231_REG_CONTROL reg_cnt ;;
    (if negb (Z.land reg_sts DS3231_BIT_OSF =? 0)
     then i2c_smbus_write_byte_data DS3231_REG_STATUS
            (u8 (Z.land reg_sts (Z.lnot DS3231_BIT_OSF)))
     else ret 0) ;;
    ret (register_chardev k).


(** [ds3231_module_init].  [adapter_null] and [client_null] tell whether
    [i2c_get_adapter] and [i2c_new_device] return [NULL], [add_ret] is the
    return value of [i2c_add_driver].  The result is the return value,
    whether the global [ds3231_client] is set afterwards, and the kernel
    calls made. *)
Definition ds3231_module_init (adapter_null client_null : bool) (add_ret : Z)
  : Z * bool * list kcall :=
  let ds3231_client := false in
  if adapter_null then (- ENODEV, ds3231_client, [])
  else
    let ds3231_client := negb client_null in
    if negb ds3231_client then (- ENODEV, ds3231_client, [])
    else
      let ret_ := add_ret in
      if ret_ <? 0 then
        (ret_, false, [Acquire I2cClient; Release I2cClient])
      else (ret_, ds3231_client, [Acquire I2cClient; Acquire I2cDriver]).

(** [ds3231_module_exit], given whether [ds3231_client] is set. *)
Definition ds3231_module_exit (ds3231_client : bool) : list kcall :=
  if ds3231_client then [Release I2cDriver; Release I2cClient] else [].

Definition resource_eqb (a b : resource) : bool :=
  match a, b with
  | ChrdevRegion, ChrdevRegion | Cdev, Cdev | DeviceClass, DeviceClass
  | Device, Device | I2cClient, I2cClient | I2cDriver, I2cDriver => true
  | _, _ => false
  end.

Fixpoint release (r : resource) (h : list resource) : list resource :=
  match h with
  | [] => []
  | x :: rest => if resource_eqb r x then rest else x :: release r rest
  end.

(** The resources still held after a sequence of kernel calls, the latest
    first. *)
Definition held (calls : list kcall) : list resource :=
  fold_left (fun h c =>
               match c with
               | Acquire r => r :: h
               | Release r => release r h
               end) calls [].

(** ** Bus outcomes *)

(** None of the next [n] transfers is planned to fail. *)
Definition transfers_ok (n : nat) (s : chip) : Prop :=
  Forall (fun c => 0 <= c) (firstn n (plan s)).

(** After [k] transfers that succeed, the next one fails with [e]. *)
Definition fails_at (k : nat) (e : Z) (s : chip) : Prop :=
  exists ok rest,
    plan s = ok ++ e :: rest /\ List.length ok = k /\
    Forall (fun c => 0 <= c) ok /\ e < 0.

(** The registers of a chip are bytes. *)
Definition byte_regs (s : chip) : Prop :=
  Forall (fun b => 0 <= b < 256) (regfile s).

(** The text [YYYY-MM-DD HH:MM:SS] and a line feed for a time. *)
Definition write_text (d : rtc_time) : string :=
  (four_digits (tm_year d + 1900) ++ "-" ++ two_digits (tm_mon d + 1) ++ "-" ++
   two_digits (tm_mday d) ++ " " ++ two_digits (tm_hour d) ++ ":" ++
   two_digits (tm_min d) ++ ":" ++ two_digits (tm_sec d) ++
   String LF EmptyString)%string.

(** The six calendar fields of two times agree. *)
Definition same_fields (a b : rtc_time) : Prop :=
  tm_sec a = tm_sec b /\ tm_min a = tm_min b /\ tm_hour a = tm_hour b /\
  tm_mday a = tm_mday b /\ tm_mon a = tm_mon b /\ tm_year a = tm_year b.

(** ** Sessions and lock discipline *)

(** The return values of consecutive reads on one open file when the
    text has [len] bytes: a read that finds the read-done state clear
    ([data]) returns the text cut to the buffer, the next one returns
    end-of-stream. *)
Fixpoint session_pattern (len : nat) (data : bool) (reqs : list nat) : list Z :=
  match reqs with
  | [] => []
  | count :: rest =>
      if data then Z.of_nat (Nat.min count len) :: session_pattern len false rest
      else 0 :: session_pattern len true rest
  end.

(** Replay of the mutex over a trace, from the state [held].  The replay
    fails where the lock is taken while held, released while free, or a
    transfer is made without it; otherwise it gives the state of the lock
    at the end. *)
Fixpoint lock_replay (held : bool) (evs : list event) : option bool :=
  match evs with
  | [] => Some held
  | EvLock :: rest => if held then None else lock_replay true rest
  | EvUnlock :: rest => if held then lock_replay false rest else None
  | _ :: rest => if held then lock_replay true rest else None
  end.

(** The seven reads of the time registers of a register file, and the
    seven writes of a block, as they appear in the trace when no transfer
    fails. *)
Definition time_registers : list Z := [0; 1; 2; 3; 4; 5; 6].

Definition read_events (rf : list Z) : list event :=
  map (fun j => EvRead j (reg rf j)) time_registers.

Definition write_events (block : list Z) : list event :=
  map (fun j => EvWrite j (reg block j) 0) time_registers.

(** A chip whose seconds register holds the nibbles 10 and 0, which is
    not packed BCD. *)
Definition chip_seconds_a0 : chip :=
  mk_chip [0xa0; 0x02; 0x09; 0x03; 0x05; 0x07; 0x23; 0; 0; 0; 0; 0; 0; 0;
           0x1c; 0x88; 0; 0; 0] [] [].

(** * Properties *)

(** ** Date validator *)

Lemma check_date_values (d : rtc_time) :
  ds3231_check_date d = 0 \/ ds3231_check_date d = 4294967274.
Proof.
  unfold ds3231_check_date.
  repeat match goal with
         | |- context [if ?b then _ else _] => destruct b
         | |- context [match ?z with Z0 => _ | Zpos _ => _ | Zneg _ => _ end] =>
             destruct z
         | |- context [match ?p with xH => _ | xO _ => _ | xI _ => _ end] =>
             destruct p
         end; auto.
Qed.

Lemma month_cases (m : Z) :
  m = 0 \/ m = 1 \/ m = 2 \/ m = 3 \/ m = 4 \/ m = 5 \/ m = 6 \/ m = 7 \/
  m = 8 \/ m = 9 \/ m = 10 \/ m = 11 \/ m < 0 \/ 11 < m.
Proof. lia. Qed.

Lemma check_date_spec (d : rtc_time) :
  ds3231_check_date d = 0 <-> calendar_valid d.
Proof.
  unfold calendar_valid, ds3231_check_date, days_in_month, leap_year, u32, EINVAL.
  destruct d as [sec mi hr md mo yr wd yd dst]; cbn [tm_sec tm_min tm_hour tm_mday tm_mon tm_year].
  destruct (Z.ltb_spec sec 0); [cbn; split; [discriminate | lia] |].
  destruct (Z.ltb_spec 59 sec); [cbn; split; [discriminate | lia] |].
  destruct (Z.ltb_spec mi 0); [cbn; split; [discriminate | lia] |].
  destruct (Z.ltb_spec 59 mi); [cbn; split; [discriminate | lia] |].
  destruct (Z.ltb_spec hr 0); [cbn; split; [discriminate | lia] |].
  destruct (Z.ltb_spec 23 hr); [cbn; split; [discriminate | lia] |].
  destruct (Z.ltb_spec yr 100); [cbn; split; [discriminate | lia] |].
  destruct (Z.ltb_spec 299 yr); [cbn; split; [discriminate | lia] |].
  cbn [orb].
  rewrite (Z.mod_small (yr + 1900)) by lia.
  destruct (month_cases mo) as
    [-> | [-> | [-> | [-> | [-> | [-> | [-> | [-> | [-> | [-> | [-> | [-> | Hout]]]]]]]]]]]];
    cbn [Z.add Pos.add Pos.succ existsb Z.eqb Pos.eqb orb];
    try (match goal with
         | |- context [if ?c then 29 else 28] => destruct c
         | _ => idtac
         end;
         (destruct (Z.ltb_spec md 1);
          [cbn; split; [discriminate | lia] |]);
         cbn [orb];
         match goal with
         | |- context [?hi <? md] =>
             destruct (Z.ltb_spec hi md); split; intros; try discriminate; lia
         end).
  split; [| intros Hv; exfalso; lia].
  intros Hc. exfalso.
  destruct mo as [| p | p]; try lia.
  - do 4 (try destruct p as [p | p |]); try discriminate; lia.
  - discriminate.
Qed.

(** C4: the validator returns success exactly for the calendar values
    the specification lists: second and minute in 0..59, hour in 0..23,
    year in 2000..2199, month in 1..12 and day between 1 and the number of
    days of the month, with the Gregorian leap-year rule for February. *)
Theorem check_date_iff_calendar_valid (d : rtc_time) :
  ds3231_check_date d = 0 <-> calendar_valid d.
Proof. exact (check_date_spec d). Qed.

(** ** Register codec *)

Lemma range_forallb (P : Z -> bool) (n : nat) :
  forallb P (range n) = true ->
  forall z, 0 <= z < Z.of_nat n -> P z = true.
Proof.
  intros Hall z Hz.
  rewrite forallb_forall in Hall.
  apply Hall. unfold range. apply in_map_iff.
  exists (Z.to_nat z). split; [lia |].
  apply in_seq. lia.
Qed.

Lemma bcd_roundtrip (v : Z) :
  0 <= v <= 99 -> bcd2bin (bin2bcd v) = v.
Proof.
  intros Hv. unfold bcd2bin, bin2bcd, u8.
  change 0x0f with (Z.ones 4).
  rewrite Z.land_ones, Z.shiftr_div_pow2, Z.shiftl_mul_pow2 by lia.
  change (2 ^ 4) with 16.
  assert (Hq : 0 <= v / 10 <= 9) by (Z.to_euclidean_division_equations; lia).
  assert (Hr : 0 <= v mod 10 < 10) by (apply Z.mod_pos_bound; lia).
  assert (Hv' : v = 10 * (v / 10) + v mod 10) by (apply Z.div_mod; lia).
  rewrite (Z.mod_small (v / 10 * 16 + v mod 10)) by lia.
  replace (v / 10 * 16 + v mod 10) with (v mod 10 + (v / 10) * 16) by lia.
  rewrite Z.mod_add, Z.div_add by lia.
  rewrite (Z.mod_small (v mod 10)), (Z.div_small (v mod 10)) by lia.
  lia.
Qed.

Lemma encode_regs (r0 r1 r2 r3 r4 r5 r6 : Z) (t : rtc_time) :
  encode [r0; r1; r2; r3; r4; r5; r6] t =
  [bin2bcd (u8 (tm_sec t)); bin2bcd (u8 (tm_min t));
   hours_reg r2 (tm_hour t); r3;
   bin2bcd (Z.land (u8 (tm_mday t)) 0x3f);
   month_reg r5 (tm_mon t) (tm_year t);
   bin2bcd (Z.land (u8 (Z.rem (tm_year t) 100)) 0xff)].
Proof.
  unfold hours_reg, month_reg.
  cbv - [bin2bcd u8 Z.land Z.lor Z.lnot Z.rem Z.ltb Z.leb Z.eqb Z.sub Z.add negb
         tm_sec tm_min tm_hour tm_mday tm_mon tm_year].
  cbn [tm_sec tm_min tm_hour tm_mday tm_mon tm_year].
  change (199 <? 100) with false. cbv iota.
  destruct (199 <? tm_year t);
    destruct (negb (Z.land r2 64 =? 0));
    destruct (12 <=? tm_hour t); reflexivity.
Qed.

Lemma decode_regs (b0 b1 b2 b3 b4 b5 b6 : Z) (d0 : rtc_time) :
  Z.land b5 DS3231_BIT_CENTURY = 0 ->
  decode [b0; b1; b2; b3; b4; b5; b6] d0 =
  (0, mk_rtc_time (bcd2bin b0) (bcd2bin b1) (decoded_hour b2) (bcd2bin b4)
                  (bcd2bin b5 - 1) (bcd2bin b6 + 100)
                  (tm_wday d0) (tm_yday d0) (tm_isdst d0)).
Proof.
  intros Hc. unfold decoded_hour, decode.
  unfold DS3231_REG_SECONDS, DS3231_REG_MINUTES, DS3231_REG_HOURS,
    DS3231_REG_DATE, DS3231_REG_MONTH, DS3231_REG_YEAR.
  change (reg [b0; b1; b2; b3; b4; b5; b6] 5) with b5.
  change (reg [0; 0; b2; 0; 1; 1; 0] 5) with 1.
  rewrite Hc.
  change (negb (Z.land 1 DS3231_BIT_CENTURY =? 0)) with false.
  change (negb (0 =? 0)) with false. cbv iota.
  change (reg [b0; b1; b2; b3; b4; b5; b6] 2) with b2.
  change (reg [0; 0; b2; 0; 1; 1; 0] 2) with b2.
  destruct (negb (Z.land b2 DS3231_BIT_12H =? 0)).
  - change (reg (upd 2 ?v [b0; b1; b2; b3; b4; b5; b6]) 2) with v.
    set (h1 := u8 (Z.land b2 (Z.lnot DS3231_BIT_12H))).
    change (reg (upd 2 h1 [b0; b1; b2; b3; b4; b5; b6]) 2) with h1.
    change (reg (upd 2 h1 [0; 0; b2; 0; 1; 1; 0]) 2) with h1.
    destruct (negb (Z.land h1 DS3231_BIT_nAM =? 0)); reflexivity.
  - reflexivity.
Qed.

Lemma month_reg_this_century (old mon year : Z) :
  year <= 199 -> month_reg old mon year = month_reg old mon 100.
Proof.
  intros Hy. unfold month_reg, encode.
  cbn [tm_sec tm_min tm_hour tm_mday tm_mon tm_year].
  replace (199 <? year) with false by (symmetry; apply Z.ltb_ge; lia).
  reflexivity.
Qed.

Lemma hours_roundtrip (old hour : Z) :
  0 <= old < 256 -> 0 <= hour <= 23 -> Z.land old 0x80 = 0 ->
  decoded_hour (hours_reg old hour) = hour.
Proof.
  intros Ho Hh Hb.
  pose (P := fun o =>
    forallb (fun h => implb (Z.land o 0x80 =? 0)
                            (decoded_hour (hours_reg o h) =? h)) (range 24)).
  assert (HP : P old = true)
    by (apply (range_forallb P 256); [vm_compute; reflexivity | lia]).
  unfold P in HP.
  pose proof (range_forallb _ 24 HP hour ltac:(lia)) as Hq.
  cbv beta in Hq. rewrite Hb in Hq. cbn [Z.eqb implb] in Hq.
  now apply Z.eqb_eq.
Qed.

Lemma month_roundtrip (old mon : Z) :
  0 <= old < 256 -> 0 <= mon <= 11 -> Z.land old 0x60 = 0 ->
  Z.land (month_reg old mon 100) DS3231_BIT_CENTURY = 0 /\
  bcd2bin (month_reg old mon 100) - 1 = mon.
Proof.
  intros Ho Hm Hb.
  pose (P := fun o =>
    forallb (fun m => implb (Z.land o 0x60 =? 0)
                            ((Z.land (month_reg o m 100) DS3231_BIT_CENTURY =? 0)
                             && (bcd2bin (month_reg o m 100) - 1 =? m)))
            (range 12)).
  assert (HP : P old = true)
    by (apply (range_forallb P 256); [vm_compute; reflexivity | lia]).
  unfold P in HP.
  pose proof (range_forallb _ 12 HP mon ltac:(lia)) as Hq.
  cbv beta in Hq. rewrite Hb in Hq. cbn [Z.eqb implb] in Hq.
  apply andb_true_iff in Hq. destruct Hq as [H1 H2].
  split; now apply Z.eqb_eq.
Qed.

Lemma byte_roundtrip (v : Z) :
  0 <= v <= 99 -> bcd2bin (bin2bcd (u8 v)) = v.
Proof.
  intros Hv. unfold u8. rewrite Z.mod_small by lia.
  now apply bcd_roundtrip.
Qed.

Lemma mday_roundtrip (v : Z) :
  0 <= v <= 63 -> bcd2bin (bin2bcd (Z.land (u8 v) 0x3f)) = v.
Proof.
  intros Hv. unfold u8. rewrite Z.mod_small by lia.
  change 0x3f with (Z.ones 6). rewrite Z.land_ones by lia.
  change (2 ^ 6) with 64. rewrite Z.mod_small by lia.
  apply bcd_roundtrip. lia.
Qed.

(** C3 (as amended): for every valid calendar time with year in
    2000..2099 and every existing register block whose reserved bits (bit
    7 of the hours register, bits 5 and 6 of the month register) are
    clear, decoding the block produced by encoding reproduces seconds,
    minutes, hour, day, month and year when the block is in 24-hour mode,
    and reproduces the 24-hour hour when it is in 12-hour mode. *)
Theorem codec_roundtrip (existing : list Z) (t d0 : rtc_time) :
  is_block existing ->
  Z.land (reg existing DS3231_REG_HOURS) 0x80 = 0 ->
  Z.land (reg existing DS3231_REG_MONTH) 0x60 = 0 ->
  ds3231_check_date t = 0 ->
  tm_year t + 1900 <= 2099 ->
  let r := decode (encode existing t) d0 in
  fst r = 0 /\
  (Z.land (reg existing DS3231_REG_HOURS) DS3231_BIT_12H = 0 ->
   tm_sec (snd r) = tm_sec t /\ tm_min (snd r) = tm_min t /\
   tm_hour (snd r) = tm_hour t /\ tm_mday (snd r) = tm_mday t /\
   tm_mon (snd r) = tm_mon t /\ tm_year (snd r) = tm_year t) /\
  (Z.land (reg existing DS3231_REG_HOURS) DS3231_BIT_12H <> 0 ->
   tm_hour (snd r) = tm_hour t).
Proof.
  intros [Hlen Hbytes] Hh Hm Hvalid Hyear.
  apply check_date_spec in Hvalid.
  destruct Hvalid as (Hsec & Hmin & Hhour & Hyr & Hmon & Hday).
  assert (Hday' : 1 <= tm_mday t <= 31).
  { unfold days_in_month in Hday.
    repeat match type of Hday with
           | context [if ?c then _ else _] => destruct c
           end; lia. }
  destruct existing as [| r0 [| r1 [| r2 [| r3 [| r4 [| r5 [| r6 [| ? ?]]]]]]]];
    try discriminate Hlen.
  change (reg [r0; r1; r2; r3; r4; r5; r6] DS3231_REG_HOURS) with r2 in *.
  change (reg [r0; r1; r2; r3; r4; r5; r6] DS3231_REG_MONTH) with r5 in *.
  assert (Hr2 : 0 <= r2 < 256)
    by (repeat match goal with H : Forall _ (_ :: _) |- _ => inversion H; clear H; subst end; assumption).
  assert (Hr5 : 0 <= r5 < 256)
    by (repeat match goal with H : Forall _ (_ :: _) |- _ => inversion H; clear H; subst end; assumption).
  rewrite encode_regs.
  rewrite (month_reg_this_century r5 (tm_mon t) (tm_year t)) by lia.
  destruct (month_roundtrip r5 (tm_mon t) Hr5 ltac:(lia) Hm) as [Hcent Hmonth].
  rewrite decode_regs by exact Hcent.
  cbn [fst snd tm_sec tm_min tm_hour tm_mday tm_mon tm_year].
  rewrite !byte_roundtrip by lia.
  rewrite mday_roundtrip by lia.
  rewrite hours_roundtrip by (assumption || lia).
  rewrite Hmonth.
  assert (Hy : bcd2bin (bin2bcd (Z.land (u8 (Z.rem (tm_year t) 100)) 0xff)) + 100
               = tm_year t).
  { rewrite Z.rem_mod_nonneg by lia.
    assert (Hmod : tm_year t mod 100 = tm_year t - 100)
      by (Z.to_euclidean_division_equations; lia).
    rewrite Hmod. unfold u8. rewrite Z.mod_small by lia.
    change 0xff with (Z.ones 8). rewrite Z.land_ones by lia.
    change (2 ^ 8) with 256. rewrite Z.mod_small by lia.
    rewrite bcd_roundtrip by lia. lia. }
  rewrite Hy. auto 10.
Qed.

Lemma codec_roundtrip_witness :
  let r := decode (encode [0x07; 0x02; 0x09; 0x03; 0x05; 0x07; 0x23] sample_time)
                  zero_time in
  fst r = 0 /\
  tm_sec (snd r) = 45 /\ tm_min (snd r) = 30 /\ tm_hour (snd r) = 12 /\
  tm_mday (snd r) = 15 /\ tm_mon (snd r) = 2 /\ tm_year (snd r) = 124.
Proof.
  assert (Hb : is_block [0x07; 0x02; 0x09; 0x03; 0x05; 0x07; 0x23])
    by (split; [reflexivity | repeat constructor; lia]).
  destruct (codec_roundtrip [0x07; 0x02; 0x09; 0x03; 0x05; 0x07; 0x23]
              sample_time zero_time Hb eq_refl eq_refl eq_refl ltac:(cbn; lia))
    as (H0 & H24 & _).
  split; [exact H0 | exact (H24 eq_refl)].
Defined.

(** C3, counterexample: with bit 7 of the existing hours register set the
    hour does not survive, in 24-hour mode and in 12-hour mode alike, and
    with bit 5 of the existing month register set the month does not. *)
Lemma roundtrip_breaks_on_reserved_bits :
  is_block [0; 0; 0x80; 0; 0; 0; 0] /\
  is_block [0; 0; 0xc0; 0; 0; 0; 0] /\
  is_block [0; 0; 0; 0; 0; 0x20; 0] /\
  ds3231_check_date sample_time = 0 /\
  tm_year sample_time + 1900 <= 2099 /\
  Z.land (reg [0; 0; 0x80; 0; 0; 0; 0] DS3231_REG_HOURS) DS3231_BIT_12H = 0 /\
  tm_hour (snd (decode (encode [0; 0; 0x80; 0; 0; 0; 0] sample_time) zero_time))
    <> tm_hour sample_time /\
  Z.land (reg [0; 0; 0xc0; 0; 0; 0; 0] DS3231_REG_HOURS) DS3231_BIT_12H <> 0 /\
  tm_hour (snd (decode (encode [0; 0; 0xc0; 0; 0; 0; 0] sample_time) zero_time))
    <> tm_hour sample_time /\
  Z.land (reg [0; 0; 0; 0; 0; 0x20; 0] DS3231_REG_HOURS) DS3231_BIT_12H = 0 /\
  tm_mon (snd (decode (encode [0; 0; 0; 0; 0; 0x20; 0] sample_time) zero_time))
    <> tm_mon sample_time.
Proof.
  repeat split; try (repeat constructor; lia); try reflexivity;
    vm_compute; discriminate.
Qed.

(** ** Text write and structured set *)

Lemma s32_check_date (d : rtc_time) :
  ds3231_check_date d <> 0 -> s32 (ds3231_check_date d) = - EINVAL.
Proof.
  intros Hne. destruct (check_date_values d) as [H | H]; [contradiction |].
  rewrite H. reflexivity.
Qed.

Lemma get_in_bounds (s : string) (i : nat) :
  (i < String.length s)%nat -> exists c, get i s = Some c.
Proof.
  revert i. induction s as [| a s IH]; intros i Hi; cbn in Hi; [lia |].
  destruct i as [| j]; cbn; [eauto |]. apply IH. lia.
Qed.

Lemma peek_app (buf adjacent : string) (i : nat) :
  (i < String.length buf)%nat -> get i buf = Some (peek (buf ++ adjacent) i).
Proof.
  intros Hi. unfold peek.
  rewrite <- (append_correct1 buf adjacent i Hi).
  destruct (get_in_bounds buf i Hi) as [c ->]. reflexivity.
Qed.

Lemma layout_check_true (m : string) :
  fst (layout_check m layout) = true ->
  peek m 4 = "-"%char /\ peek m 7 = "-"%char /\ peek m 10 = " "%char /\
  peek m 13 = ":"%char /\ peek m 16 = ":"%char.
Proof.
  unfold layout. cbn [layout_check].
  repeat match goal with
         | |- context [Ascii.eqb ?a ?b] => destruct (Ascii.eqb_spec a b)
         end; cbn; intros; try discriminate; auto.
Qed.

(** C5: a candidate that fails validation is refused with the validation
    error before any bus transfer: text write and structured set return
    [-EINVAL] and leave the chip, the plan and the trace as they were, so
    a following read of the time sees what it would have seen before. *)
Theorem invalid_date_no_io (buf adjacent : string) (stack arg d0 : rtc_time)
        (uok : bool) (s : chip) :
  (ds3231_check_date (parse_date (buf ++ adjacent) stack) <> 0 ->
   ds3231_dev_write buf adjacent stack uok s = (- EINVAL, s) /\
   ds3231_read_date d0 (snd (ds3231_dev_write buf adjacent stack uok s)) =
   ds3231_read_date d0 s) /\
  (ds3231_check_date arg <> 0 ->
   ds3231_dev_ioctl RTC_SET_TIME arg uok s = ((- EINVAL, arg), s) /\
   ds3231_read_date d0 (snd (ds3231_dev_ioctl RTC_SET_TIME arg uok s)) =
   ds3231_read_date d0 s).
Proof.
  split; intros Hbad.
  - assert (Hw : ds3231_dev_write buf adjacent stack uok s = (- EINVAL, s)).
    { unfold ds3231_dev_write.
      destruct (20 <? String.length buf)%nat; [reflexivity |].
      destruct uok; [| reflexivity]. cbn [negb].
      destruct (fst (layout_check (buf ++ adjacent) layout)); [| reflexivity].
      cbn [negb]. rewrite (s32_check_date _ Hbad). reflexivity. }
    rewrite Hw. split; reflexivity.
  - assert (Hi : ds3231_dev_ioctl RTC_SET_TIME arg uok s = ((- EINVAL, arg), s)).
    { unfold ds3231_dev_ioctl.
      destruct uok; [| reflexivity]. cbn [negb].
      rewrite (s32_check_date _ Hbad). reflexivity. }
    rewrite Hi. split; reflexivity.
Qed.

Lemma invalid_date_no_io_witness :
  ds3231_dev_write ("2024-02-30 12:30:45" ++ String LF EmptyString)
                   EmptyString zero_time true chip0 = (- EINVAL, chip0) /\
  ds3231_dev_ioctl RTC_SET_TIME (mk_rtc_time 45 30 12 30 1 124 0 0 0) true chip0 =
  ((- EINVAL, mk_rtc_time 45 30 12 30 1 124 0 0 0), chip0).
Proof.
  destruct (invalid_date_no_io
              ("2024-02-30 12:30:45" ++ String LF EmptyString) EmptyString
              zero_time (mk_rtc_time 45 30 12 30 1 124 0 0 0) zero_time true chip0)
    as [Hw Hi].
  split.
  - apply Hw. vm_compute. discriminate.
  - apply Hi. vm_compute. discriminate.
Defined.

Lemma parse_sample_text (adjacent : string) (stack : rtc_time) :
  parse_date (sample_text ++ adjacent) stack =
  mk_rtc_time 45 30 12 15 2 124 (tm_wday stack) (tm_yday stack) (tm_isdst stack).
Proof. reflexivity. Qed.

(** The 20-byte input [2024-03-15 12:30:45] followed by a line feed
    passes the length and layout tests and the date handed on is year
    2024 ([tm_year] 124), month 3 ([tm_mon] 2), day 15, 12:30:45. *)
Lemma text_write_sample (adjacent : string) (stack : rtc_time) (s : chip) :
  String.length sample_text = 20%nat /\
  fst (layout_check (sample_text ++ adjacent) layout) = true /\
  ds3231_dev_write sample_text adjacent stack true s =
  (let '(r, s') := ds3231_write_date (parse_date (sample_text ++ adjacent) stack) s in
   (if negb (r =? 0) then r else 20, s')).
Proof.
  split; [reflexivity |]. split; [reflexivity |].
  unfold ds3231_dev_write.
  change (20 <? String.length sample_text)%nat with false.
  change (fst (layout_check (sample_text ++ adjacent) layout)) with true.
  cbn [negb]. rewrite parse_sample_text.
  change (s32 (ds3231_check_date
                 (mk_rtc_time 45 30 12 15 2 124 (tm_wday stack) (tm_yday stack)
                              (tm_isdst stack)))) with 0.
  cbn [Z.eqb negb]. unfold bind.
  destruct (ds3231_write_date _ s) as [r s'].
  destruct (negb (r =? 0)); reflexivity.
Qed.

(** An input that has bytes at all five positions 4, 7, 10, 13 and 16,
    one of which is not the delimiter, is refused with [-EINVAL] and no
    bus transfer, once the call has got past the allocation of
    [date_str]. *)
Lemma text_write_layout_refused (buf adjacent : string) (stack : rtc_time)
      (uok : bool) (s : chip) :
  (17 <= String.length buf)%nat ->
  ~ (get 4 buf = Some "-"%char /\ get 7 buf = Some "-"%char /\
     get 10 buf = Some " "%char /\ get 13 buf = Some ":"%char /\
     get 16 buf = Some ":"%char) ->
  ds3231_dev_write buf adjacent stack uok s = (- EINVAL, s).
Proof.
  intros Hlen Hbad. unfold ds3231_dev_write.
  destruct (20 <? String.length buf)%nat; [reflexivity |].
  destruct uok; [| reflexivity]. cbn [negb].
  destruct (fst (layout_check (buf ++ adjacent) layout)) eqn:Hl; [| reflexivity].
  exfalso. apply Hbad.
  destruct (layout_check_true _ Hl) as (H4 & H7 & H10 & H13 & H16).
  repeat split;
    [rewrite <- H4 | rewrite <- H7 | rewrite <- H10 | rewrite <- H13
     | rewrite <- H16]; apply peek_app; lia.
Qed.

Lemma length_zeros (n : nat) : String.length (zeros n) = n.
Proof. induction n as [| n IH]; cbn; [reflexivity | now rewrite IH]. Qed.

(** C6: the two rejections of the claim that the code does not make.
    The 15-byte input [2024-03-15 12:3] has no byte at position 16, so
    its bytes at the five positions are not the five delimiters; with
    [0:45] in the kernel memory after [date_str] the delimiter test
    passes, the call returns 15 after seven register reads and seven
    register writes, and the chip holds 12:30:45 on 15 March 2024.  And
    an input longer than 20 bytes is not always refused: the array
    [date_str] is allocated with the length of the input before the
    length is tested, so whatever room the kernel stack has left, some
    input of more than 20 bytes overruns it and the call does not return
    [-EINVAL]. *)
Theorem text_write_length_not_enforced :
  let short := "2024-03-15 12:3"%string in
  let w := ds3231_dev_write short "0:45" zero_time true chip0 in
  (String.length short = 15%nat /\
   get 16 short = None /\
   ds3231_dev_write_call 15 short "0:45" zero_time true chip0 = Returned w /\
   fst w = 15 /\
   List.length (filter is_read (trace (snd w))) = 7%nat /\
   List.length (filter is_write (trace (snd w))) = 7%nat /\
   firstn 7 (regfile (snd w)) = [0x45; 0x30; 0x12; 0x03; 0x15; 0x03; 0x24]) /\
  (forall (room : nat) (adjacent : string) (stack : rtc_time) (uok : bool)
          (s : chip),
      exists buf : string,
        (20 < String.length buf)%nat /\
        ds3231_dev_write_call room buf adjacent stack uok s = StackOverrun).
Proof.
  split.
  - vm_compute. repeat split; reflexivity.
  - intros room adjacent stack uok s.
    exists (zeros (S (Nat.max room 20))).
    unfold ds3231_dev_write_call. rewrite length_zeros. split; [lia |].
    replace (room <? S (Nat.max room 20))%nat with true
      by (symmetry; apply Nat.ltb_lt; lia).
    reflexivity.
Qed.

(** ** Text read *)

Lemma fmt_two_digits (v : Z) :
  0 <= v <= 99 -> fmt_0d 2 v = two_digits v.
Proof.
  intros Hv.
  pose proof (range_forallb (fun z => String.eqb (fmt_0d 2 z) (two_digits z)) 100
                ltac:(vm_compute; reflexivity) v ltac:(lia)) as H.
  now apply String.eqb_eq.
Qed.

Lemma fmt_four_digits (v : Z) :
  1000 <= v <= 9999 -> fmt_0d 4 v = four_digits v.
Proof.
  intros Hv.
  pose proof (range_forallb
                (fun z => String.eqb (fmt_0d 4 (1000 + z)) (four_digits (1000 + z)))
                (90 * 100)%nat ltac:(vm_compute; reflexivity) (v - 1000)
                ltac:(lia)) as H.
  cbv beta in H. replace (1000 + (v - 1000)) with v in H by lia.
  now apply String.eqb_eq.
Qed.

Lemma s32_int (x : Z) : -2147483648 <= x < 2147483648 -> s32 x = x.
Proof. intros Hx. unfold s32. rewrite Z.mod_small by lia. lia. Qed.

Lemma format_date_calendar_text (d : rtc_time) :
  two_digit_fields d -> format_date d = calendar_text d.
Proof.
  intros (Hs & Hm & Hh & Hd & Hmo & Hy).
  unfold format_date. rewrite !s32_int by lia.
  rewrite !fmt_two_digits by lia. rewrite fmt_four_digits by lia.
  reflexivity.
Qed.

Lemma calendar_text_length (d : rtc_time) :
  String.length (calendar_text d) = 20%nat.
Proof. reflexivity. Qed.

(** ** Read-done state of an open file *)

(** C8, counterexample: three reads on one open file return 20 bytes,
    end-of-stream and 20 bytes again. *)
Lemma third_read_returns_data_again :
  fst (read_session [64; 64; 64]%nat fresh_offset zero_time chip0) = [20; 0; 20].
Proof. reflexivity. Qed.

(** ** Locking *)

(** The return value of [ds3231_write_date] is decided by the block read
    alone. *)
Lemma write_date_result (d : rtc_time) (s : chip) :
  let rd := fst (fst (ds3231_read_block_data DS3231_REG_SECONDS 7 regs_local
                                             (snd (mutex_lock s)))) in
  fst (ds3231_write_date d s) = if rd <? 0 then rd else 0.
Proof.
  unfold ds3231_write_date, bind.
  destruct (mutex_lock s) as [[] s1]. cbn [snd].
  destruct (ds3231_read_block_data DS3231_REG_SECONDS 7 regs_local s1)
    as [[rc regs] s2]. cbn [fst snd].
  destruct (mutex_unlock s2) as [[] s3].
  destruct (rc <? 0) eqn:Hrc; [reflexivity |].
  destruct (mutex_lock s3) as [[] s4].
  destruct (ds3231_write_block_data DS3231_REG_SECONDS 7 (encode regs d) s4)
    as [w s5].
  destruct (mutex_unlock s5) as [[] s6].
  reflexivity.
Qed.

(** C9, counterexample: the trace of one set-time transaction.  The lock
    is released after the seven reads and taken again before the seven
    writes, so the transaction is not one critical section. *)
Lemma set_time_is_two_critical_sections :
  trace (snd (ds3231_write_date sample_time chip0)) =
  [EvLock; EvRead 0 0x07; EvRead 1 0x02; EvRead 2 0x09; EvRead 3 0x03;
   EvRead 4 0x05; EvRead 5 0x07; EvRead 6 0x23; EvUnlock;
   EvLock; EvWrite 0 0x45 0; EvWrite 1 0x30 0; EvWrite 2 0x12 0;
   EvWrite 3 0x03 0; EvWrite 4 0x15 0; EvWrite 5 0x03 0; EvWrite 6 0x24 0;
   EvUnlock] /\
  one_critical_section (trace (snd (ds3231_write_date sample_time chip0))) = false.
Proof. split; reflexivity. Qed.

(** ** Failures of the transport and of the decoder *)

(** C1: a set-time transaction whose block write fails.  The write of
    register 0 fails with [-EIO], [ds3231_write_block_data] stops there
    and the chip keeps its old time, and yet [ds3231_write_date] returns
    0: text write reports all 20 bytes written and the structured set
    reports success. *)
Theorem write_failure_reported_as_success :
  ds3231_check_date sample_time = 0 /\
  trace (snd (ds3231_write_date sample_time chip_write_fault)) =
  [EvLock; EvRead 0 0x07; EvRead 1 0x02; EvRead 2 0x09; EvRead 3 0x03;
   EvRead 4 0x05; EvRead 5 0x07; EvRead 6 0x23; EvUnlock;
   EvLock; EvWrite 0 0x45 (- EIO); EvUnlock] /\
  regfile (snd (ds3231_write_date sample_time chip_write_fault)) =
  regfile chip_write_fault /\
  fst (ds3231_write_date sample_time chip_write_fault) = 0 /\
  fst (ds3231_dev_write sample_text EmptyString zero_time true chip_write_fault)
  = 20 /\
  fst (ds3231_dev_ioctl RTC_SET_TIME sample_time true chip_write_fault)
  = (0, sample_time).
Proof. repeat split; reflexivity. Qed.

Lemma decode_century_bit (regs : list Z) (d0 : rtc_time) :
  Z.land (reg regs DS3231_REG_MONTH) DS3231_BIT_CENTURY <> 0 ->
  fst (decode regs d0) = EINVAL.
Proof.
  intros Hc. unfold decode.
  replace (Z.land (reg regs DS3231_REG_MONTH) DS3231_BIT_CENTURY =? 0) with false
    by (symmetry; apply Z.eqb_neq; exact Hc).
  reflexivity.
Qed.

(** C2: a block with the century bit set.  [ds3231_read_date] returns
    the positive [EINVAL] with only the day of month stored; the callers
    test for a negative value, so text read returns 20 bytes formatted
    from the caller's otherwise untouched structure and the structured get
    returns 0 with a zeroed time. *)
Theorem century_bit_reported_as_success :
  Z.land (reg (regfile chip_century) DS3231_REG_MONTH) DS3231_BIT_CENTURY <> 0 /\
  fst (ds3231_read_date zero_time chip_century) = (EINVAL, set_tm_mday 5 zero_time) /\
  fst (ds3231_dev_read 64 fresh_offset zero_time true chip_century) =
  (20, 1, ("05.01.1900 00:00:00" ++ String LF EmptyString)%string) /\
  fst (ds3231_dev_ioctl RTC_RD_TIME sample_time true chip_century) =
  (0, set_tm_mday 5 zero_time).
Proof. repeat split; try reflexivity. vm_compute. discriminate. Qed.

(** ** Bounds of the delimiter test *)

(** C10: a four-byte input.  The first comparison of the delimiter test
    reads [date_str[4]], one past the end of the four bytes supplied, and
    what lies there decides the outcome: with a NUL behind the buffer the
    write is refused, with the rest of a date behind it the chip is set
    from bytes the caller never supplied. *)
Theorem layout_check_reads_past_short_buffer :
  (String.length "2024" <= 20)%nat /\
  snd (layout_check ("2024" ++ EmptyString) layout) = [4%nat] /\
  ~ (4 < String.length "2024")%nat /\
  ds3231_dev_write "2024" EmptyString zero_time true chip0 = (- EINVAL, chip0) /\
  fst (ds3231_dev_write "2024" "-03-15 12:30:45" zero_time true chip0) = 4 /\
  snd (layout_check ("2024" ++ "-03-15 12:30:45") layout) =
  [4%nat; 7%nat; 10%nat; 13%nat; 16%nat] /\
  regfile (snd (ds3231_dev_write "2024" "-03-15 12:30:45" zero_time true chip0)) =
  [0x45; 0x30; 0x12; 0x03; 0x15; 0x03; 0x24; 0; 0; 0; 0; 0; 0; 0;
   0x1c; 0x88; 0; 0; 0].
Proof. repeat split; try reflexivity; cbn; lia. Qed.

(** * Further properties of the driver *)

(** ** Register arrays *)

Lemma upd_nat_length (i : nat) (v : Z) (l : list Z) :
  List.length (upd_nat i v l) = List.length l.
Proof.
  revert i. induction l as [| a l IH]; intros [| i]; cbn; auto.
Qed.

Lemma nth_upd_nat_same (i : nat) (v : Z) (l : list Z) :
  (i < List.length l)%nat -> nth i (upd_nat i v l) 0 = v.
Proof.
  revert i. induction l as [| a l IH]; intros [| i] Hi; cbn in *; try lia; auto.
  apply IH. lia.
Qed.

Lemma nth_upd_nat_other (i j : nat) (v : Z) (l : list Z) :
  i <> j -> nth j (upd_nat i v l) 0 = nth j l 0.
Proof.
  revert i j. induction l as [| a l IH]; intros [| i] [| j] Hij; cbn; auto; try lia.
Qed.

Lemma upd_length (i v : Z) (l : list Z) :
  List.length (upd i v l) = List.length l.
Proof. apply upd_nat_length. Qed.

Lemma reg_upd_same (i v : Z) (l : list Z) :
  0 <= i < Z.of_nat (List.length l) -> reg (upd i v l) i = v.
Proof. intros Hi. apply nth_upd_nat_same. lia. Qed.

Lemma reg_upd_other (i j v : Z) (l : list Z) :
  0 <= i -> 0 <= j -> i <> j -> reg (upd i v l) j = reg l j.
Proof. intros Hi Hj Hij. apply nth_upd_nat_other. lia. Qed.

Lemma upd_bytes (i v : Z) (l : list Z) :
  0 <= v < 256 ->
  Forall (fun b => 0 <= b < 256) l -> Forall (fun b => 0 <= b < 256) (upd i v l).
Proof.
  intros Hv. unfold upd. generalize (Z.to_nat i) as n.
  induction l as [| a l IH]; intros n Hl; [destruct n; constructor |].
  inversion Hl; subst. destruct n; cbn; constructor; auto.
Qed.

Lemma reg_byte (l : list Z) (i : Z) :
  Forall (fun b => 0 <= b < 256) l -> 0 <= reg l i < 256.
Proof.
  intros Hl. unfold reg.
  destruct (Nat.lt_ge_cases (Z.to_nat i) (List.length l)) as [Hlt | Hge].
  - rewrite Forall_forall in Hl. apply Hl. now apply nth_In.
  - rewrite nth_overflow by exact Hge. lia.
Qed.

Lemma u8_range (x : Z) : 0 <= u8 x < 256.
Proof. unfold u8. apply Z.mod_pos_bound. lia. Qed.

Lemma u8_byte (x : Z) : 0 <= x < 256 -> u8 x = x.
Proof. intros Hx. unfold u8. now apply Z.mod_small. Qed.

(** ** Block transfers *)

Lemma transfers_ok_step (n : nat) (s : chip) :
  transfers_ok (S n) s ->
  0 <= fst (next_outcome s) /\
  forall rf tr, transfers_ok n (mk_chip rf (snd (next_outcome s)) tr).
Proof.
  unfold transfers_ok, next_outcome.
  destruct (plan s) as [| c p]; cbn [firstn fst snd plan].
  - intros _. split; [lia |]. intros. destruct n; constructor.
  - intros H. inversion H; subst. split; [assumption |]. intros. assumption.
Qed.

Lemma next_outcome_skip (s : chip) :
  snd (next_outcome s) = skipn 1 (plan s).
Proof. unfold next_outcome. destruct (plan s); reflexivity. Qed.

Lemma skipn_skipn_1 (n : nat) (p : list Z) :
  skipn n (skipn 1 p) = skipn (S n) p.
Proof. destruct p; cbn; [now rewrite skipn_nil | reflexivity]. Qed.

Lemma read_block_loop_ok (n : nat) :
  forall (r i : Z) (buf : list Z) (s : chip),
    0 <= i ->
    (Z.to_nat i + n <= List.length buf)%nat ->
    transfers_ok n s ->
    let res := read_block_loop n r i buf s in
    fst (fst res) = i + Z.of_nat n /\
    List.length (snd (fst res)) = List.length buf /\
    (forall j, 0 <= j < i -> reg (snd (fst res)) j = reg buf j) /\
    (forall j, i <= j < i + Z.of_nat n ->
               reg (snd (fst res)) j = u8 (reg (regfile s) (u8 (r + j)))) /\
    regfile (snd res) = regfile s /\
    plan (snd res) = skipn n (plan s).
Proof.
  induction n as [| n IH]; intros r i buf s Hi Hlen Hok.
  - cbn. repeat split; auto; try lia.
  - cbn [read_block_loop]. unfold bind, i2c_smbus_read_byte_data.
    destruct (transfers_ok_step n s Hok) as [Hc Hok'].
    pose proof (next_outcome_skip s) as Hskip.
    destruct (next_outcome s) as [code rest]. cbn [fst snd] in Hc, Hok', Hskip.
    replace (code <? 0) with false by (symmetry; apply Z.ltb_ge; lia).
    pose proof (u8_range (reg (regfile s) (u8 (r + i)))) as Hb.
    replace (u8 (reg (regfile s) (u8 (r + i))) <? 0) with false
      by (symmetry; apply Z.ltb_ge; lia).
    set (v := u8 (reg (regfile s) (u8 (r + i)))) in *.
    set (s1 := mk_chip (regfile s) rest (trace s ++ [EvRead (u8 (r + i)) v])).
    specialize (IH r (i + 1) (upd i (u8 v) buf) s1 ltac:(lia)
                   ltac:(rewrite upd_length; lia) (Hok' _ _)).
    cbv zeta in IH. destruct IH as (H1 & H2 & H3 & H4 & H5 & H6).
    repeat split.
    + rewrite H1. lia.
    + rewrite H2. apply upd_length.
    + intros j Hj. rewrite H3 by lia. apply reg_upd_other; lia.
    + intros j Hj. destruct (Z.eq_dec j i) as [-> | Hne].
      * rewrite H3 by lia. rewrite reg_upd_same by lia.
        unfold v. apply u8_byte, u8_range.
      * rewrite H4 by lia. reflexivity.
    + rewrite H5. reflexivity.
    + rewrite H6. subst s1. cbn [plan]. rewrite Hskip. apply skipn_skipn_1.
Qed.

Lemma read_block_loop_regfile (n : nat) :
  forall (r i : Z) (buf : list Z) (s : chip),
    regfile (snd (read_block_loop n r i buf s)) = regfile s.
Proof.
  induction n as [| n IH]; intros r i buf s; [reflexivity |].
  cbn [read_block_loop]. unfold bind, i2c_smbus_read_byte_data.
  destruct (next_outcome s) as [code rest].
  set (result := if code <? 0 then code else u8 (reg (regfile s) (u8 (r + i)))).
  destruct (result <? 0); [reflexivity |].
  rewrite IH. reflexivity.
Qed.

(** X1: when none of its [len] transfers fails, [ds3231_read_block_data]
    returns [len], leaves in [buf[j]] the byte of register [reg + j] for
    every [j < len], and changes no register of the chip. *)
Theorem read_block_data_success (r len : Z) (buf : list Z) (s : chip) :
  0 <= len <= Z.of_nat (List.length buf) ->
  transfers_ok (Z.to_nat len) s ->
  let res := ds3231_read_block_data r len buf s in
  fst (fst res) = len /\
  (forall j, 0 <= j < len ->
             reg (snd (fst res)) j = u8 (reg (regfile s) (u8 (r + j)))) /\
  regfile (snd res) = regfile s /\
  plan (snd res) = skipn (Z.to_nat len) (plan s).
Proof.
  intros Hlen Hok. unfold ds3231_read_block_data.
  destruct (read_block_loop_ok (Z.to_nat len) r 0 buf s ltac:(lia) ltac:(lia) Hok)
    as (H1 & _ & _ & H4 & H5 & H6).
  repeat split; auto.
  - rewrite H1. lia.
  - intros j Hj. apply H4. lia.
Qed.

Lemma read_block_data_success_witness :
  fst (fst (ds3231_read_block_data DS3231_REG_SECONDS 7 regs_local chip0)) = 7.
Proof.
  refine (proj1 (read_block_data_success DS3231_REG_SECONDS 7 regs_local chip0 _ _)).
  - cbn. lia.
  - constructor.
Defined.

Lemma fails_at_zero (e : Z) (s : chip) :
  fails_at 0 e s ->
  exists rest, next_outcome s = (e, rest) /\ plan s = e :: rest /\ e < 0.
Proof.
  intros (ok & rest & Hp & Hlen & _ & He).
  destruct ok; [| discriminate Hlen]. cbn in Hp.
  exists rest. unfold next_outcome. rewrite Hp. auto.
Qed.

Lemma fails_at_succ (k : nat) (e : Z) (s : chip) :
  fails_at (S k) e s ->
  exists c rest,
    next_outcome s = (c, rest) /\ 0 <= c /\
    forall rf tr, fails_at k e (mk_chip rf rest tr).
Proof.
  intros (ok & rest & Hp & Hlen & Hok & He).
  destruct ok as [| c ok]; [discriminate Hlen |].
  inversion Hok; subst. cbn in Hp.
  exists c, (ok ++ e :: rest). unfold next_outcome. rewrite Hp.
  repeat split; auto.
  intros rf tr. exists ok, rest. cbn. repeat split; auto.
Qed.

Lemma read_block_loop_fail (k : nat) :
  forall (n : nat) (r i : Z) (buf : list Z) (s : chip) (e : Z),
    fails_at k e s -> (k < n)%nat ->
    let res := read_block_loop n r i buf s in
    fst (fst res) = e /\
    regfile (snd res) = regfile s /\
    plan (snd res) = skipn (S k) (plan s).
Proof.
  induction k as [| k IH]; intros n r i buf s e Hf Hk;
    (destruct n as [| n]; [lia |]);
    cbn [read_block_loop]; unfold bind, i2c_smbus_read_byte_data.
  - destruct (fails_at_zero e s Hf) as (rest & Hn & Hp & He).
    rewrite Hn.
    replace (e <? 0) with true by (symmetry; apply Z.ltb_lt; exact He).
    replace (e <? 0) with true by (symmetry; apply Z.ltb_lt; exact He).
    cbn. rewrite Hp. auto.
  - destruct (fails_at_succ k e s Hf) as (c & rest & Hn & Hc & Hf').
    pose proof (next_outcome_skip s) as Hskip.
    rewrite Hn in *. cbn [snd] in Hskip.
    replace (c <? 0) with false by (symmetry; apply Z.ltb_ge; lia).
    pose proof (u8_range (reg (regfile s) (u8 (r + i)))) as Hb.
    replace (u8 (reg (regfile s) (u8 (r + i))) <? 0) with false
      by (symmetry; apply Z.ltb_ge; lia).
    match goal with
    | |- context [read_block_loop n r (i + 1) ?b ?s1] =>
        destruct (IH n r (i + 1) b s1 e (Hf' _ _) ltac:(lia)) as (H1 & H2 & H3)
    end.
    repeat split; auto.
    rewrite H3. cbn [plan]. rewrite Hskip. apply skipn_skipn_1.
Qed.

Lemma read_block_data_failure_aux (r len : Z) (buf : list Z) (s : chip)
      (k : nat) (e : Z) :
  fails_at k e s -> (k < Z.to_nat len)%nat ->
  let res := ds3231_read_block_data r len buf s in
  fst (fst res) = e /\
  regfile (snd res) = regfile s /\
  plan (snd res) = skipn (S k) (plan s).
Proof.
  intros Hf Hk. unfold ds3231_read_block_data.
  exact (read_block_loop_fail k (Z.to_nat len) r 0 buf s e Hf Hk).
Qed.

(** X2: when the transfer for register [reg + k] is the first to fail
    ([k < len]), [ds3231_read_block_data] returns the errno of that
    transfer, makes no further transfer (the plan is consumed up to and
    including the failing one) and changes no register. *)
Theorem read_block_data_failure (r len : Z) (buf : list Z) (s : chip)
        (k : nat) (e : Z) :
  fails_at k e s -> (k < Z.to_nat len)%nat ->
  let res := ds3231_read_block_data r len buf s in
  fst (fst res) = e /\
  regfile (snd res) = regfile s /\
  plan (snd res) = skipn (S k) (plan s).
Proof.
  exact (read_block_data_failure_aux r len buf s k e).
Qed.

Lemma read_block_data_failure_witness :
  fst (fst (ds3231_read_block_data DS3231_REG_SECONDS 7 regs_local
              (mk_chip (regfile chip0) [0; 0; - EIO; 0] []))) = - EIO.
Proof.
  refine (proj1 (read_block_data_failure DS3231_REG_SECONDS 7 regs_local
                   (mk_chip (regfile chip0) [0; 0; - EIO; 0] []) 2 (- EIO) _ _)).
  - exists [0; 0], [0]. cbn. repeat split; try lia. repeat constructor; lia.
  - cbn. lia.
Defined.

Lemma write_block_loop_ok (n : nat) :
  forall (r i : Z) (buf : list Z) (s : chip),
    0 <= r -> 0 <= i ->
    r + i + Z.of_nat n <= 256 ->
    r + i + Z.of_nat n <= Z.of_nat (List.length (regfile s)) ->
    transfers_ok n s ->
    let res := write_block_loop n r i buf s in
    fst res = 0 /\
    List.length (regfile (snd res)) = List.length (regfile s) /\
    (forall j, i <= j < i + Z.of_nat n ->
               reg (regfile (snd res)) (r + j) = reg buf j) /\
    (forall q, 0 <= q -> (q < r + i \/ r + i + Z.of_nat n <= q) ->
               reg (regfile (snd res)) q = reg (regfile s) q) /\
    plan (snd res) = skipn n (plan s).
Proof.
  induction n as [| n IH]; intros r i buf s Hr Hi Hwrap Hlen Hok.
  - cbn. repeat split; auto; try lia.
  - cbn [write_block_loop]. unfold bind, i2c_smbus_write_byte_data.
    destruct (transfers_ok_step n s Hok) as [Hc Hok'].
    pose proof (next_outcome_skip s) as Hskip.
    destruct (next_outcome s) as [code rest]. cbn [fst snd] in Hc, Hok', Hskip.
    replace (code <? 0) with false by (symmetry; apply Z.ltb_ge; lia).
    cbn [Z.ltb Z.compare].
    rewrite (u8_byte (r + i)) by lia.
    match goal with
    | |- context [write_block_loop n r (i + 1) buf ?s1] =>
        specialize (IH r (i + 1) buf s1 Hr ltac:(lia) ltac:(lia)
                       ltac:(cbn [regfile]; rewrite upd_length; lia) (Hok' _ _))
    end.
    cbv zeta in IH. cbn [regfile plan] in IH.
    destruct IH as (H1 & H2 & H3 & H4 & H5).
    repeat split.
    + exact H1.
    + rewrite H2. apply upd_length.
    + intros j Hj. destruct (Z.eq_dec j i) as [-> | Hne].
      * rewrite H4 by lia. apply reg_upd_same. lia.
      * apply H3. lia.
    + intros q Hq Hout. rewrite H4 by lia. apply reg_upd_other; lia.
    + rewrite H5, Hskip. apply skipn_skipn_1.
Qed.

Lemma write_block_loop_fail (k : nat) :
  forall (n : nat) (r i : Z) (buf : list Z) (s : chip) (e : Z),
    0 <= r -> 0 <= i ->
    r + i + Z.of_nat n <= 256 ->
    r + i + Z.of_nat n <= Z.of_nat (List.length (regfile s)) ->
    fails_at k e s -> (k < n)%nat ->
    let res := write_block_loop n r i buf s in
    fst res = e /\
    (forall j, i <= j < i + Z.of_nat k ->
               reg (regfile (snd res)) (r + j) = reg buf j) /\
    (forall q, 0 <= q -> (q < r + i \/ r + i + Z.of_nat k <= q) ->
               reg (regfile (snd res)) q = reg (regfile s) q) /\
    plan (snd res) = skipn (S k) (plan s).
Proof.
  induction k as [| k IH]; intros n r i buf s e Hr Hi Hwrap Hlen Hf Hk;
    (destruct n as [| n]; [lia |]);
    cbn [write_block_loop]; unfold bind, i2c_smbus_write_byte_data.
  - destruct (fails_at_zero e s Hf) as (rest & Hn & Hp & He).
    rewrite Hn.
    replace (e <? 0) with true by (symmetry; apply Z.ltb_lt; exact He).
    replace (e <? 0) with true by (symmetry; apply Z.ltb_lt; exact He).
    cbn [fst snd regfile plan]. rewrite Hp.
    repeat split; auto. intros j Hj. lia.
  - destruct (fails_at_succ k e s Hf) as (c & rest & Hn & Hc & Hf').
    pose proof (next_outcome_skip s) as Hskip.
    rewrite Hn in *. cbn [snd] in Hskip.
    replace (c <? 0) with false by (symmetry; apply Z.ltb_ge; lia).
    cbn [Z.ltb Z.compare].
    rewrite (u8_byte (r + i)) by lia.
    match goal with
    | |- context [write_block_loop n r (i + 1) buf ?s1] =>
        specialize (IH n r (i + 1) buf s1 e Hr ltac:(lia) ltac:(lia)
                       ltac:(cbn [regfile]; rewrite upd_length; lia)
                       (Hf' _ _) ltac:(lia))
    end.
    cbv zeta in IH. cbn [regfile plan] in IH.
    destruct IH as (H1 & H2 & H3 & H4).
    repeat split.
    + exact H1.
    + intros j Hj. destruct (Z.eq_dec j i) as [-> | Hne].
      * rewrite H3 by lia. apply reg_upd_same. lia.
      * apply H2. lia.
    + intros q Hq Hout. rewrite H3 by lia. apply reg_upd_other; lia.
    + rewrite H4, Hskip. apply skipn_skipn_1.
Qed.

(** X3: when none of its [len] transfers fails, [ds3231_write_block_data]
    returns 0, register [reg + j] of the chip holds [buf[j]] for every
    [j < len], and every other register is as before. *)
Theorem write_block_data_success (r len : Z) (buf : list Z) (s : chip) :
  0 <= r -> 0 <= len -> r + len <= 256 ->
  r + len <= Z.of_nat (List.length (regfile s)) ->
  transfers_ok (Z.to_nat len) s ->
  let res := ds3231_write_block_data r len buf s in
  fst res = 0 /\
  (forall j, 0 <= j < len -> reg (regfile (snd res)) (r + j) = reg buf j) /\
  (forall q, 0 <= q -> (q < r \/ r + len <= q) ->
             reg (regfile (snd res)) q = reg (regfile s) q).
Proof.
  intros Hr Hlen Hwrap Hrf Hok. unfold ds3231_write_block_data.
  destruct (write_block_loop_ok (Z.to_nat len) r 0 buf s Hr ltac:(lia) ltac:(lia)
                                ltac:(lia) Hok) as (H1 & _ & H3 & H4 & _).
  split; [exact H1 |]. split.
  - intros j Hj. apply H3. lia.
  - intros q Hq Hout. apply H4; lia.
Qed.

Lemma write_block_data_success_witness :
  fst (ds3231_write_block_data DS3231_REG_SECONDS 7
         [0x45; 0x30; 0x12; 0x03; 0x15; 0x03; 0x24] chip0) = 0.
Proof.
  refine (proj1 (write_block_data_success DS3231_REG_SECONDS 7
                   [0x45; 0x30; 0x12; 0x03; 0x15; 0x03; 0x24] chip0 _ _ _ _ _)).
  - unfold DS3231_REG_SECONDS. lia.
  - lia.
  - unfold DS3231_REG_SECONDS. lia.
  - cbn. lia.
  - constructor.
Defined.

(** X4: when the transfer for register [reg + k] is the first to fail
    ([k < len]), [ds3231_write_block_data] returns the errno of that
    transfer and stops: the [k] registers before it hold the new bytes,
    and every other register, those from [reg + k] on included, is as
    before. *)
Theorem write_block_data_failure (r len : Z) (buf : list Z) (s : chip)
        (k : nat) (e : Z) :
  0 <= r -> r + len <= 256 ->
  r + len <= Z.of_nat (List.length (regfile s)) ->
  fails_at k e s -> (k < Z.to_nat len)%nat ->
  let res := ds3231_write_block_data r len buf s in
  fst res = e /\
  (forall j, 0 <= j < Z.of_nat k -> reg (regfile (snd res)) (r + j) = reg buf j) /\
  (forall q, 0 <= q -> (q < r \/ r + Z.of_nat k <= q) ->
             reg (regfile (snd res)) q = reg (regfile s) q) /\
  plan (snd res) = skipn (S k) (plan s).
Proof.
  intros Hr Hwrap Hrf Hf Hk. unfold ds3231_write_block_data.
  destruct (write_block_loop_fail k (Z.to_nat len) r 0 buf s e Hr ltac:(lia)
                                  ltac:(lia) ltac:(lia) Hf Hk)
    as (H1 & H2 & H3 & H4).
  split; [exact H1 |]. split; [| split; [| exact H4]].
  - intros j Hj. apply H2. lia.
  - intros q Hq Hout. apply H3; lia.
Qed.

Lemma write_block_data_failure_witness :
  let res := ds3231_write_block_data DS3231_REG_SECONDS 7
               [0x45; 0x30; 0x12; 0x03; 0x15; 0x03; 0x24]
               (mk_chip (regfile chip0) [0; 0; - EIO] []) in
  fst res = - EIO /\ reg (regfile (snd res)) 1 = 0x30 /\
  reg (regfile (snd res)) 2 = 0x09.
Proof.
  destruct (write_block_data_failure DS3231_REG_SECONDS 7
              [0x45; 0x30; 0x12; 0x03; 0x15; 0x03; 0x24]
              (mk_chip (regfile chip0) [0; 0; - EIO] []) 2 (- EIO))
    as (H1 & H2 & H3 & _).
  - unfold DS3231_REG_SECONDS. lia.
  - unfold DS3231_REG_SECONDS. lia.
  - cbn. lia.
  - exists [0; 0], []. cbn. repeat split; try lia. repeat constructor; lia.
  - cbn. lia.
  - split; [exact H1 |]. split.
    + exact (H2 1 ltac:(lia)).
    + exact (H3 2 ltac:(lia) ltac:(unfold DS3231_REG_SECONDS; lia)).
Defined.

(** ** Reading the time *)

Lemma read_date_regfile (d : rtc_time) (s : chip) :
  regfile (snd (ds3231_read_date d s)) = regfile s.
Proof.
  unfold ds3231_read_date, bind, mutex_lock, mutex_unlock, log,
    ds3231_read_block_data.
  match goal with
  | |- context [read_block_loop ?n ?r ?i ?b ?s1] =>
      pose proof (read_block_loop_regfile n r i b s1) as H;
      destruct (read_block_loop n r i b s1) as [[rc regs] s2]
  end.
  cbn [fst snd regfile] in *.
  destruct (rc <? 0); cbn; exact H.
Qed.

(** X5: reading the time never changes a register of the chip, whatever
    the bus does: [ds3231_read_date], text read and the structured get
    leave the register file as it was. *)
Theorem get_time_is_read_only (d arg : rtc_time) (count : nat) (offset : Z)
        (uok : bool) (s : chip) :
  regfile (snd (ds3231_read_date d s)) = regfile s /\
  regfile (snd (ds3231_dev_read count offset d uok s)) = regfile s /\
  regfile (snd (ds3231_dev_ioctl RTC_RD_TIME arg uok s)) = regfile s.
Proof.
  split; [apply read_date_regfile |]. split.
  - unfold ds3231_dev_read, bind.
    destruct (negb (offset =? 0)); [reflexivity |].
    pose proof (read_date_regfile d s) as H.
    destruct (ds3231_read_date d s) as [[rc d'] s1]. cbn [fst snd] in *.
    destruct (rc <? 0); [exact H |]. destruct uok; exact H.
  - unfold ds3231_dev_ioctl, bind.
    pose proof (read_date_regfile zero_time s) as H.
    destruct (ds3231_read_date zero_time s) as [[rc d'] s1]. cbn [fst snd] in *.
    destruct (rc <? 0); [exact H |]. destruct uok; exact H.
Qed.

Lemma read_date_failure (d : rtc_time) (s : chip) (k : nat) (e : Z) :
  fails_at k e s -> (k < 7)%nat ->
  fst (ds3231_read_date d s) = (e, d).
Proof.
  intros (ok & rest & Hp & Hlen & Hok & He) Hk.
  unfold ds3231_read_date, bind, mutex_lock, mutex_unlock, log.
  match goal with
  | |- context [ds3231_read_block_data ?r ?n ?b ?s1] =>
      destruct (read_block_data_failure_aux r n b s1 k e) as (H1 & _)
  end.
  - exists ok, rest. cbn [plan]. auto.
  - cbn. lia.
  - match goal with
    | |- context [ds3231_read_block_data ?r ?n ?b ?s1] =>
        destruct (ds3231_read_block_data r n b s1) as [[rc regs] s2]
    end.
    cbn [fst snd] in *. subst rc.
    replace (e <? 0) with true by (symmetry; apply Z.ltb_lt; exact He).
    reflexivity.
Qed.

(** X6: when one of the seven register reads fails, text read returns
    [-EIO] with nothing copied and the file position still 0, and the
    structured get returns [-EIO] and leaves the caller's structure
    alone. *)
Theorem transport_read_failure_is_eio (d arg : rtc_time) (count : nat)
        (uok : bool) (s : chip) (k : nat) (e : Z) :
  fails_at k e s -> (k < 7)%nat ->
  fst (ds3231_dev_read count fresh_offset d uok s) = (- EIO, 0, EmptyString) /\
  fst (ds3231_dev_ioctl RTC_RD_TIME arg uok s) = (- EIO, arg).
Proof.
  intros Hf Hk.
  assert (He : e < 0) by (destruct Hf as (? & ? & _ & _ & _ & He); exact He).
  split.
  - unfold ds3231_dev_read, fresh_offset, bind. cbn [Z.eqb negb].
    pose proof (read_date_failure d s k e Hf Hk) as H.
    destruct (ds3231_read_date d s) as [[rc d'] s1]. cbn [fst snd] in *.
    inversion H; subst.
    replace (e <? 0) with true by (symmetry; apply Z.ltb_lt; exact He).
    reflexivity.
  - unfold ds3231_dev_ioctl, bind.
    pose proof (read_date_failure zero_time s k e Hf Hk) as H.
    destruct (ds3231_read_date zero_time s) as [[rc d'] s1]. cbn [fst snd] in *.
    inversion H; subst.
    replace (e <? 0) with true by (symmetry; apply Z.ltb_lt; exact He).
    reflexivity.
Qed.

Lemma transport_read_failure_is_eio_witness :
  fst (ds3231_dev_read 64 fresh_offset zero_time true
         (mk_chip (regfile chip0) [0; 0; 0; -121] [])) = (- EIO, 0, EmptyString).
Proof.
  refine (proj1 (transport_read_failure_is_eio zero_time zero_time 64 true
                   (mk_chip (regfile chip0) [0; 0; 0; -121] []) 3 (-121) _ _)).
  - exists [0; 0; 0], []. cbn. repeat split; try lia. repeat constructor; lia.
  - lia.
Defined.

(** ** Setting the time *)

Lemma write_date_cases (d : rtc_time) (s : chip) :
  (fst (ds3231_write_date d s) < 0 /\
   regfile (snd (ds3231_write_date d s)) = regfile s) \/
  fst (ds3231_write_date d s) = 0.
Proof.
  unfold ds3231_write_date, bind, mutex_lock, mutex_unlock, log,
    ds3231_read_block_data.
  match goal with
  | |- context [read_block_loop ?n ?r ?i ?b ?s1] =>
      pose proof (read_block_loop_regfile n r i b s1) as H;
      destruct (read_block_loop n r i b s1) as [[rc regs] s2]
  end.
  cbn [fst snd regfile] in *.
  destruct (Z.ltb_spec rc 0) as [Hneg | Hpos].
  - left. cbn. auto.
  - right.
    match goal with
    | |- context [ds3231_write_block_data ?r ?n ?b ?s3] =>
        destruct (ds3231_write_block_data r n b s3) as [w s4]
    end.
    reflexivity.
Qed.

(** X7: a call of text write overruns the kernel stack exactly when the
    input is longer than the room the stack has left for [date_str];
    otherwise it returns the byte count or a negative value.  The
    structured set returns 0 or a negative value.  Whenever either
    returns a negative value no register of the chip has changed. *)
Theorem set_time_error_leaves_chip (room : nat) (buf adjacent : string)
        (stack arg : rtc_time) (uok : bool) (s : chip) :
  let i := ds3231_dev_ioctl RTC_SET_TIME arg uok s in
  match ds3231_dev_write_call room buf adjacent stack uok s with
  | StackOverrun => (room < String.length buf)%nat
  | Returned w =>
      (String.length buf <= room)%nat /\
      (fst w = Z.of_nat (String.length buf) \/ fst w < 0) /\
      (fst w < 0 -> regfile (snd w) = regfile s)
  end /\
  (fst (fst i) = 0 \/ fst (fst i) < 0) /\
  (fst (fst i) < 0 -> regfile (snd i) = regfile s).
Proof.
  cbv zeta.
  assert (Hcheck : forall d, s32 (ds3231_check_date d) = 0 \/
                             s32 (ds3231_check_date d) = -22).
  { intros d. destruct (check_date_values d) as [H | H]; rewrite H; auto. }
  assert (Hw :
    (fst (ds3231_dev_write buf adjacent stack uok s) = Z.of_nat (String.length buf)
     \/ (fst (ds3231_dev_write buf adjacent stack uok s) < 0 /\
         regfile (snd (ds3231_dev_write buf adjacent stack uok s)) = regfile s))).
  { unfold ds3231_dev_write.
    destruct (20 <? String.length buf)%nat; [right; cbn; split; [lia | auto] |].
    destruct uok; cbn [negb]; [| right; cbn; split; [lia | auto]].
    destruct (fst (layout_check (buf ++ adjacent) layout)); cbn [negb];
      [| right; cbn; split; [lia | auto]].
    destruct (Hcheck (parse_date (buf ++ adjacent) stack)) as [-> | ->];
      cbn [Z.eqb negb]; [| right; cbn; split; [lia | auto]].
    unfold bind.
    destruct (write_date_cases (parse_date (buf ++ adjacent) stack) s)
      as [[Hneg Hrf] | Hz];
      destruct (ds3231_write_date (parse_date (buf ++ adjacent) stack) s)
        as [rc s1]; cbn [fst snd] in *.
    - right. replace (rc =? 0) with false by (symmetry; apply Z.eqb_neq; lia).
      cbn. auto.
    - left. subst rc. reflexivity. }
  assert (Hi :
    (fst (fst (ds3231_dev_ioctl RTC_SET_TIME arg uok s)) = 0
     \/ (fst (fst (ds3231_dev_ioctl RTC_SET_TIME arg uok s)) < 0 /\
         regfile (snd (ds3231_dev_ioctl RTC_SET_TIME arg uok s)) = regfile s))).
  { unfold ds3231_dev_ioctl.
    destruct uok; cbn [negb]; [| right; cbn; split; [lia | auto]].
    destruct (Hcheck arg) as [-> | ->];
      cbn [Z.eqb negb]; [| right; cbn; split; [lia | auto]].
    unfold bind.
    destruct (write_date_cases arg s) as [[Hneg Hrf] | Hz];
      destruct (ds3231_write_date arg s) as [rc s1]; cbn [fst snd] in *.
    - right. replace (rc =? 0) with false by (symmetry; apply Z.eqb_neq; lia).
      cbn. auto.
    - left. subst rc. reflexivity. }
  split; [| split].
  - unfold ds3231_dev_write_call.
    destruct (room <? String.length buf)%nat eqn:Hroom.
    + apply Nat.ltb_lt. exact Hroom.
    + apply Nat.ltb_ge in Hroom. split; [exact Hroom |]. split.
      * destruct Hw as [H | [H _]]; auto.
      * intros Hneg. destruct Hw as [H | [_ H]]; [lia | exact H].
  - destruct Hi as [H | [H _]]; auto.
  - intros Hneg. destruct Hi as [H | [_ H]]; [lia | exact H].
Qed.

Lemma set_time_error_leaves_chip_witness :
  regfile (snd (ds3231_dev_write "2024-02-30 12:30:45" EmptyString zero_time
                                 true chip0)) = regfile chip0 /\
  regfile (snd (ds3231_dev_ioctl RTC_SET_TIME (mk_rtc_time 45 30 12 30 1 124 0 0 0)
                                 true chip0)) = regfile chip0.
Proof.
  pose proof (set_time_error_leaves_chip 64 "2024-02-30 12:30:45" EmptyString
                zero_time (mk_rtc_time 45 30 12 30 1 124 0 0 0) true chip0) as H.
  cbv zeta in H.
  change (ds3231_dev_write_call 64 "2024-02-30 12:30:45" EmptyString zero_time
                                true chip0)
    with (Returned (ds3231_dev_write "2024-02-30 12:30:45" EmptyString zero_time
                                     true chip0)) in H.
  destruct H as ((_ & _ & Hw) & _ & Hi).
  split.
  - apply Hw. vm_compute. reflexivity.
  - apply Hi. vm_compute. reflexivity.
Defined.

(** ** More on the register codec *)

Lemma hours_reg_byte (old hour : Z) : 0 <= hours_reg old hour < 256.
Proof.
  unfold hours_reg.
  cbv - [bin2bcd u8 Z.land Z.lor Z.lnot Z.rem Z.ltb Z.leb Z.eqb Z.sub Z.add negb].
  change (199 <? 100) with false. cbv iota.
  destruct (negb (Z.land old 64 =? 0)); [destruct (12 <=? hour) |];
    cbv - [bin2bcd u8 Z.land Z.lor Z.lnot Z.rem Z.ltb Z.leb Z.eqb Z.sub Z.add negb];
    apply u8_range.
Qed.

Lemma month_reg_byte (old mon year : Z) : 0 <= month_reg old mon year < 256.
Proof.
  unfold month_reg.
  cbv - [bin2bcd u8 Z.land Z.lor Z.lnot Z.rem Z.ltb Z.leb Z.eqb Z.sub Z.add negb].
  change (negb (Z.land 0 64 =? 0)) with false. cbv iota.
  destruct (199 <? year);
    cbv - [bin2bcd u8 Z.land Z.lor Z.lnot Z.rem Z.ltb Z.leb Z.eqb Z.sub Z.add negb];
    apply u8_range.
Qed.

Lemma bin2bcd_byte (v : Z) : 0 <= bin2bcd v < 256.
Proof. unfold bin2bcd. apply u8_range. Qed.

Lemma block_inv (regs : list Z) :
  is_block regs ->
  exists r0 r1 r2 r3 r4 r5 r6,
    regs = [r0; r1; r2; r3; r4; r5; r6] /\
    0 <= r2 < 256 /\ 0 <= r3 < 256 /\ 0 <= r5 < 256.
Proof.
  intros [Hlen Hb].
  destruct regs as [| r0 [| r1 [| r2 [| r3 [| r4 [| r5 [| r6 [| ? ?]]]]]]]];
    try discriminate Hlen.
  exists r0, r1, r2, r3, r4, r5, r6.
  repeat match goal with
         | H : Forall _ (_ :: _) |- _ => inversion H; clear H; subst
         end.
  auto.
Qed.

Lemma encode_is_block (regs : list Z) (t : rtc_time) :
  is_block regs -> is_block (encode regs t).
Proof.
  intros Hb. destruct (block_inv regs Hb) as
    (r0 & r1 & r2 & r3 & r4 & r5 & r6 & -> & H2 & H3 & H5).
  rewrite encode_regs.
  split; [reflexivity |].
  repeat constructor;
    try (apply bin2bcd_byte); try (apply hours_reg_byte);
    try (apply month_reg_byte); lia.
Qed.

(** X8: whatever the time, [encode] turns a register block into a
    register block (seven bytes) and passes the weekday register
    through. *)
Theorem encode_keeps_block (regs : list Z) (t : rtc_time) :
  is_block regs ->
  is_block (encode regs t) /\
  reg (encode regs t) DS3231_REG_DAY = reg regs DS3231_REG_DAY.
Proof.
  intros Hb. split; [now apply encode_is_block |].
  destruct (block_inv regs Hb) as
    (r0 & r1 & r2 & r3 & r4 & r5 & r6 & -> & H2 & H3 & H5).
  rewrite encode_regs. reflexivity.
Qed.

Lemma encode_keeps_block_witness :
  is_block (encode [0x07; 0x02; 0x09; 0x03; 0x05; 0x07; 0x23] sample_time).
Proof.
  refine (proj1 (encode_keeps_block [0x07; 0x02; 0x09; 0x03; 0x05; 0x07; 0x23]
                   sample_time _)).
  split; [reflexivity | repeat constructor; lia].
Defined.

Lemma hours_reg_bits (old hour : Z) :
  0 <= old < 256 -> 0 <= hour <= 23 ->
  Z.land (hours_reg old hour) 0xc0 = Z.land old 0xc0 /\
  (Z.land old DS3231_BIT_12H <> 0 ->
   Z.land (hours_reg old hour) 0x1f = bin2bcd (hour mod 12) /\
   (Z.land (hours_reg old hour) DS3231_BIT_nAM <> 0 <-> 12 <= hour)) /\
  (Z.land old DS3231_BIT_12H = 0 ->
   Z.land (hours_reg old hour) 0x3f = bin2bcd hour).
Proof.
  intros Ho Hh.
  pose (P := fun o =>
    forallb (fun h =>
      let x := hours_reg o h in
      (Z.land x 0xc0 =? Z.land o 0xc0) &&
      (if Z.land o DS3231_BIT_12H =? 0
       then Z.land x 0x3f =? bin2bcd h
       else (Z.land x 0x1f =? bin2bcd (h mod 12)) &&
            Bool.eqb (negb (Z.land x DS3231_BIT_nAM =? 0)) (12 <=? h)))
      (range 24)).
  assert (HP : P old = true)
    by (apply (range_forallb P 256); [vm_compute; reflexivity | lia]).
  unfold P in HP.
  pose proof (range_forallb _ 24 HP hour ltac:(lia)) as Hq.
  cbv beta zeta in Hq.
  apply andb_true_iff in Hq. destruct Hq as [Hmode Hrest].
  apply Z.eqb_eq in Hmode. split; [exact Hmode |].
  destruct (Z.eqb_spec (Z.land old DS3231_BIT_12H) 0) as [H24 | H12].
  - split; [intros Hc; contradiction |]. intros _. now apply Z.eqb_eq.
  - split; [| intros Hc; contradiction]. intros _.
    apply andb_true_iff in Hrest. destruct Hrest as [Hlow Hpm].
    apply Z.eqb_eq in Hlow. split; [exact Hlow |].
    apply Bool.eqb_prop in Hpm.
    destruct (Z.eqb_spec (Z.land (hours_reg old hour) DS3231_BIT_nAM) 0)
      as [Hz | Hnz]; cbn [negb] in Hpm; symmetry in Hpm.
    + apply Z.leb_gt in Hpm. split; [intros Hc; contradiction | lia].
    + apply Z.leb_le in Hpm. split; auto.
Qed.

(** X9: for an hour in 0..23, [encode] leaves the hour-format bit (and
    bit 7) of the hours register as it found them.  In 24-hour mode the
    low six bits are the BCD hour; in 12-hour mode the low five bits are
    the BCD of the hour modulo 12 (midnight and noon are stored as 0, not
    as 12) and the PM bit is set exactly for hours from 12 on. *)
Theorem encode_hours_register (regs : list Z) (t : rtc_time) :
  is_block regs -> 0 <= tm_hour t <= 23 ->
  let old := reg regs DS3231_REG_HOURS in
  let new := reg (encode regs t) DS3231_REG_HOURS in
  Z.land new 0xc0 = Z.land old 0xc0 /\
  (Z.land old DS3231_BIT_12H <> 0 ->
   Z.land new 0x1f = bin2bcd (tm_hour t mod 12) /\
   (Z.land new DS3231_BIT_nAM <> 0 <-> 12 <= tm_hour t)) /\
  (Z.land old DS3231_BIT_12H = 0 -> Z.land new 0x3f = bin2bcd (tm_hour t)).
Proof.
  intros Hb Hh. destruct (block_inv regs Hb) as
    (r0 & r1 & r2 & r3 & r4 & r5 & r6 & -> & H2 & H3 & H5).
  rewrite encode_regs. cbv zeta.
  change (reg [r0; r1; r2; r3; r4; r5; r6] DS3231_REG_HOURS) with r2.
  match goal with
  | |- context [reg ?l DS3231_REG_HOURS] =>
      change (reg l DS3231_REG_HOURS) with (hours_reg r2 (tm_hour t))
  end.
  apply hours_reg_bits; assumption.
Qed.

Lemma encode_hours_register_witness :
  Z.land (reg (encode [0; 0; 0x52; 0; 0; 0; 0] sample_time) DS3231_REG_HOURS) 0x1f
  = bin2bcd (12 mod 12).
Proof.
  destruct (encode_hours_register [0; 0; 0x52; 0; 0; 0; 0] sample_time)
    as (_ & H12 & _).
  - split; [reflexivity | repeat constructor; lia].
  - cbn. lia.
  - refine (proj1 (H12 _)). vm_compute. discriminate.
Defined.

Lemma month_reg_next_century (old mon year : Z) :
  199 < year -> month_reg old mon year = month_reg old mon 200.
Proof.
  intros Hy. unfold month_reg, encode.
  cbn [tm_sec tm_min tm_hour tm_mday tm_mon tm_year].
  replace (199 <? year) with true by (symmetry; apply Z.ltb_lt; lia).
  reflexivity.
Qed.

Lemma month_reg_century_bit (old mon : Z) :
  0 <= old < 256 -> 0 <= mon <= 11 ->
  Z.land (month_reg old mon 200) DS3231_BIT_CENTURY <> 0.
Proof.
  intros Ho Hm.
  pose (P := fun o =>
    forallb (fun m => negb (Z.land (month_reg o m 200) DS3231_BIT_CENTURY =? 0))
            (range 12)).
  assert (HP : P old = true)
    by (apply (range_forallb P 256); [vm_compute; reflexivity | lia]).
  unfold P in HP.
  pose proof (range_forallb _ 12 HP mon ltac:(lia)) as Hq.
  cbv beta in Hq. apply negb_true_iff in Hq. now apply Z.eqb_neq.
Qed.

(** X10: a time in the years 2100..2199 passes the validator, and
    [encode] then sets the century bit, so decoding the block it produced
    fails with [EINVAL]: such a time can be set but not read back. *)
Theorem next_century_cannot_be_read_back (regs : list Z) (t d0 : rtc_time) :
  is_block regs ->
  ds3231_check_date t = 0 ->
  2100 <= tm_year t + 1900 ->
  Z.land (reg (encode regs t) DS3231_REG_MONTH) DS3231_BIT_CENTURY <> 0 /\
  fst (decode (encode regs t) d0) = EINVAL.
Proof.
  intros Hb Hvalid Hy.
  apply check_date_spec in Hvalid.
  destruct Hvalid as (_ & _ & _ & _ & Hmon & _).
  destruct (block_inv regs Hb) as
    (r0 & r1 & r2 & r3 & r4 & r5 & r6 & -> & H2 & H3 & H5).
  assert (Hc : Z.land (reg (encode [r0; r1; r2; r3; r4; r5; r6] t)
                           DS3231_REG_MONTH) DS3231_BIT_CENTURY <> 0).
  { rewrite encode_regs.
    match goal with
    | |- context [reg ?l DS3231_REG_MONTH] =>
        change (reg l DS3231_REG_MONTH)
          with (month_reg r5 (tm_mon t) (tm_year t))
    end.
    rewrite month_reg_next_century by lia.
    apply month_reg_century_bit; lia. }
  split; [exact Hc |]. now apply decode_century_bit.
Qed.

Lemma next_century_cannot_be_read_back_witness :
  fst (decode (encode [0x07; 0x02; 0x09; 0x03; 0x05; 0x07; 0x23]
                      (mk_rtc_time 0 0 0 1 0 200 0 0 0)) zero_time) = EINVAL.
Proof.
  refine (proj2 (next_century_cannot_be_read_back
                   [0x07; 0x02; 0x09; 0x03; 0x05; 0x07; 0x23]
                   (mk_rtc_time 0 0 0 1 0 200 0 0 0) zero_time _ _ _)).
  - split; [reflexivity | repeat constructor; lia].
  - reflexivity.
  - cbn. lia.
Defined.

(** X11: in 12-hour mode the decoded hour is the stored hour plus 12 when
    the PM bit is set; 12 is not mapped to 0.  For the hours 1..12 a chip
    in 12-hour mode holds, the result is right except at 12: 12 AM
    decodes to 12 and 12 PM to 24. *)
Theorem decode_twelve_hour (regs : list Z) (d0 : rtc_time) (h : Z) (pm : bool) :
  is_block regs ->
  Z.land (reg regs DS3231_REG_MONTH) DS3231_BIT_CENTURY = 0 ->
  1 <= h <= 12 ->
  reg regs DS3231_REG_HOURS =
  DS3231_BIT_12H + (if pm then DS3231_BIT_nAM else 0) + bin2bcd h ->
  fst (decode regs d0) = 0 /\
  tm_hour (snd (decode regs d0)) = h + (if pm then 12 else 0).
Proof.
  intros Hb Hc Hh Hreg.
  destruct (block_inv regs Hb) as
    (r0 & r1 & r2 & r3 & r4 & r5 & r6 & -> & H2 & H3 & H5).
  change (reg [r0; r1; r2; r3; r4; r5; r6] DS3231_REG_MONTH) with r5 in Hc.
  change (reg [r0; r1; r2; r3; r4; r5; r6] DS3231_REG_HOURS) with r2 in Hreg.
  rewrite decode_regs by exact Hc. cbn [fst snd tm_hour].
  split; [reflexivity |]. subst r2.
  pose (P := fun x =>
    (decoded_hour (DS3231_BIT_12H + DS3231_BIT_nAM + bin2bcd (1 + x))
     =? 1 + x + 12) &&
    (decoded_hour (DS3231_BIT_12H + 0 + bin2bcd (1 + x)) =? 1 + x + 0)).
  pose proof (range_forallb P 12 ltac:(vm_compute; reflexivity) (h - 1)
                            ltac:(lia)) as Hq.
  unfold P in Hq. replace (1 + (h - 1)) with h in Hq by lia.
  apply andb_true_iff in Hq. destruct Hq as [Hpm Ham].
  destruct pm; now apply Z.eqb_eq.
Qed.

Lemma decode_twelve_hour_witness :
  tm_hour (snd (decode [0; 0; 0x72; 0; 1; 1; 0] zero_time)) = 12 + 12.
Proof.
  refine (proj2 (decode_twelve_hour [0; 0; 0x72; 0; 1; 1; 0] zero_time 12 true
                   _ _ _ _)).
  - split; [reflexivity | repeat constructor; lia].
  - reflexivity.
  - lia.
  - reflexivity.
Defined.

(** X12: within the accepted years 2000..2199, a 29th of February with a
    valid time of day is accepted exactly in the years divisible by 4
    other than 2100. *)
Theorem leap_day_accepted (d : rtc_time) :
  0 <= tm_sec d <= 59 -> 0 <= tm_min d <= 59 -> 0 <= tm_hour d <= 23 ->
  2000 <= tm_year d + 1900 <= 2199 ->
  tm_mon d = 1 -> tm_mday d = 29 ->
  (ds3231_check_date d = 0 <->
   (tm_year d + 1900) mod 4 = 0 /\ tm_year d + 1900 <> 2100).
Proof.
  intros Hs Hm Hh Hy Hmon Hday.
  rewrite check_date_spec. unfold calendar_valid, days_in_month, leap_year.
  rewrite Hmon, Hday. cbn [Z.add Pos.add existsb Z.eqb Pos.eqb orb].
  set (y := tm_year d + 1900) in *.
  destruct (Z.eqb_spec (y mod 4) 0) as [H4 | H4];
    destruct (Z.eqb_spec (y mod 100) 0) as [H100 | H100];
    destruct (Z.eqb_spec (y mod 400) 0) as [H400 | H400];
    cbn [andb orb negb]; split; intros H; try lia;
    repeat split; try lia;
    Z.to_euclidean_division_equations; lia.
Qed.

Lemma leap_day_accepted_witness :
  ds3231_check_date (mk_rtc_time 0 0 0 29 1 200 0 0 0) <> 0.
Proof.
  intros H.
  apply (leap_day_accepted (mk_rtc_time 0 0 0 29 1 200 0 0 0)) in H;
    cbn; try lia.
  cbn in H. lia.
Defined.

(** ** Setting and then reading the time *)

Lemma transfers_ok_skipn (a b : nat) (p : list Z) :
  Forall (fun c => 0 <= c) (firstn (a + b) p) ->
  Forall (fun c => 0 <= c) (firstn b (skipn a p)).
Proof.
  revert p. induction a as [| a IH]; intros p H; [exact H |].
  destruct p as [| c p]; cbn in *.
  - rewrite firstn_nil. constructor.
  - inversion H; subst. now apply IH.
Qed.

Lemma transfers_ok_firstn (a b : nat) (p : list Z) :
  Forall (fun c => 0 <= c) (firstn (a + b) p) ->
  Forall (fun c => 0 <= c) (firstn a p).
Proof.
  revert p. induction a as [| a IH]; intros p H; [constructor |].
  destruct p as [| c p]; cbn in *; [constructor |].
  inversion H; subst. constructor; auto.
Qed.

Lemma reg_firstn (n : nat) (l : list Z) (j : Z) :
  0 <= j < Z.of_nat n -> reg (firstn n l) j = reg l j.
Proof.
  intros Hj. unfold reg.
  assert (Hn : (Z.to_nat j < n)%nat) by lia.
  generalize dependent (Z.to_nat j). clear Hj j.
  revert l. induction n as [| n IH]; intros l k Hk; [lia |].
  destruct l as [| a l]; [destruct k; reflexivity |].
  destruct k as [| k]; cbn; [reflexivity |]. apply IH. lia.
Qed.

Lemma block_ext (a b : list Z) :
  List.length a = 7%nat -> List.length b = 7%nat ->
  (forall j, 0 <= j < 7 -> reg a j = reg b j) -> a = b.
Proof.
  intros Ha Hb H. apply (nth_ext a b 0 0); [congruence |].
  intros n Hn. specialize (H (Z.of_nat n) ltac:(lia)).
  unfold reg in H. now rewrite Nat2Z.id in H.
Qed.

Lemma firstn_bytes (n : nat) (l : list Z) :
  Forall (fun b => 0 <= b < 256) l -> Forall (fun b => 0 <= b < 256) (firstn n l).
Proof.
  intros H. rewrite Forall_forall in *. intros x Hx. apply H.
  rewrite <- (firstn_skipn n l). apply in_or_app. now left.
Qed.

(** What the block read of the time registers delivers on a bus that
    does not fail. *)
Lemma read_time_block (s : chip) :
  transfers_ok 7 s -> byte_regs s -> (7 <= List.length (regfile s))%nat ->
  let res := read_block_loop (Z.to_nat 7) DS3231_REG_SECONDS 0 regs_local s in
  fst res = (7, firstn 7 (regfile s)) /\
  regfile (snd res) = regfile s /\
  plan (snd res) = skipn 7 (plan s).
Proof.
  intros Hok Hb Hlen.
  destruct (read_block_loop_ok (Z.to_nat 7) DS3231_REG_SECONDS 0 regs_local s
              ltac:(lia) ltac:(cbn; lia) Hok) as (H1 & H2 & _ & H4 & H5 & H6).
  cbv zeta.
  destruct (read_block_loop (Z.to_nat 7) DS3231_REG_SECONDS 0 regs_local s)
    as [[rc regs] s1]. cbn [fst snd] in *.
  split; [| split; assumption].
  f_equal; [exact H1 |].
  apply block_ext.
  - exact H2.
  - rewrite length_firstn. lia.
  - intros j Hj. rewrite H4 by (cbn; lia).
    rewrite reg_firstn by lia.
    unfold DS3231_REG_SECONDS. rewrite Z.add_0_l.
    rewrite (u8_byte j) by lia.
    apply u8_byte. now apply reg_byte.
Qed.

Lemma read_date_success (d : rtc_time) (s : chip) :
  transfers_ok 7 s -> byte_regs s -> (7 <= List.length (regfile s))%nat ->
  fst (ds3231_read_date d s) = decode (firstn 7 (regfile s)) d /\
  regfile (snd (ds3231_read_date d s)) = regfile s /\
  plan (snd (ds3231_read_date d s)) = skipn 7 (plan s).
Proof.
  intros Hok Hb Hlen.
  unfold ds3231_read_date, bind, mutex_lock, mutex_unlock, log,
    ds3231_read_block_data.
  match goal with
  | |- context [read_block_loop _ _ _ _ ?s1] =>
      destruct (read_time_block s1 Hok Hb Hlen) as (H1 & H2 & H3);
      destruct (read_block_loop (Z.to_nat 7) DS3231_REG_SECONDS 0 regs_local s1)
        as [[rc regs] s2]
  end.
  cbn [fst snd regfile plan] in *.
  injection H1 as Hrc Hregs. subst rc regs.
  cbn [Z.ltb Z.compare fst snd regfile plan]. unfold ret. cbn [fst snd regfile plan].
  auto.
Qed.

Lemma write_date_success (t : rtc_time) (s : chip) :
  transfers_ok 14 s -> byte_regs s -> (7 <= List.length (regfile s))%nat ->
  let res := ds3231_write_date t s in
  fst res = 0 /\
  firstn 7 (regfile (snd res)) = encode (firstn 7 (regfile s)) t /\
  (forall q, 7 <= q -> reg (regfile (snd res)) q = reg (regfile s) q) /\
  List.length (regfile (snd res)) = List.length (regfile s) /\
  plan (snd res) = skipn 14 (plan s).
Proof.
  intros Hok Hb Hlen.
  assert (Hblk : is_block (encode (firstn 7 (regfile s)) t)).
  { apply encode_is_block. split; [rewrite length_firstn; lia |].
    now apply firstn_bytes. }
  unfold ds3231_write_date, bind, mutex_lock, mutex_unlock, log,
    ds3231_read_block_data, ds3231_write_block_data.
  match goal with
  | |- context [read_block_loop _ _ _ _ ?s1] =>
      destruct (read_time_block s1 (transfers_ok_firstn 7 7 _ Hok) Hb Hlen)
        as (H1 & H2 & H3);
      destruct (read_block_loop (Z.to_nat 7) DS3231_REG_SECONDS 0 regs_local s1)
        as [[rc regs] s2]
  end.
  cbn [fst snd regfile plan] in *.
  injection H1 as Hrc Hregs. subst rc regs.
  cbn [Z.ltb Z.compare regfile plan].
  match goal with
  | |- context [write_block_loop _ _ _ ?b ?s4] =>
      destruct (write_block_loop_ok (Z.to_nat 7) DS3231_REG_SECONDS 0 b s4)
        as (W1 & W2 & W3 & W4 & W5);
      [unfold DS3231_REG_SECONDS; lia | lia
       | unfold DS3231_REG_SECONDS; lia
       | unfold DS3231_REG_SECONDS; cbn [regfile]; rewrite H2; lia
       | unfold transfers_ok; cbn [plan]; rewrite H3;
         apply (transfers_ok_skipn 7 7); exact Hok
       | destruct (write_block_loop (Z.to_nat 7) DS3231_REG_SECONDS 0 b s4)
           as [w s5] ]
  end.
  unfold ret. cbn [fst snd regfile plan] in *.
  rewrite H2 in *. rewrite H3 in *.
  split; [reflexivity |]. split; [| split; [| split]].
  - apply block_ext.
    + rewrite length_firstn, W2. lia.
    + apply Hblk.
    + intros j Hj. rewrite reg_firstn by lia.
      specialize (W3 j ltac:(lia)). unfold DS3231_REG_SECONDS in W3.
      rewrite Z.add_0_l in W3. exact W3.
  - intros q Hq. apply W4; unfold DS3231_REG_SECONDS; lia.
  - exact W2.
  - rewrite W5, skipn_skipn. reflexivity.
Qed.

Lemma codec_roundtrip_fields (existing : list Z) (t d0 : rtc_time) :
  is_block existing ->
  Z.land (reg existing DS3231_REG_HOURS) 0x80 = 0 ->
  Z.land (reg existing DS3231_REG_MONTH) 0x60 = 0 ->
  ds3231_check_date t = 0 ->
  tm_year t + 1900 <= 2099 ->
  fst (decode (encode existing t) d0) = 0 /\
  same_fields (snd (decode (encode existing t) d0)) t.
Proof.
  intros Hb Hh Hm Hvalid Hyear.
  apply check_date_spec in Hvalid.
  destruct Hvalid as (Hsec & Hmin & Hhour & Hyr & Hmon & Hday).
  assert (Hday' : 1 <= tm_mday t <= 31).
  { unfold days_in_month in Hday.
    repeat match type of Hday with
           | context [if ?c then _ else _] => destruct c
           end; lia. }
  destruct (block_inv existing Hb) as
    (r0 & r1 & r2 & r3 & r4 & r5 & r6 & -> & H2 & H3 & H5).
  change (reg [r0; r1; r2; r3; r4; r5; r6] DS3231_REG_HOURS) with r2 in *.
  change (reg [r0; r1; r2; r3; r4; r5; r6] DS3231_REG_MONTH) with r5 in *.
  rewrite encode_regs.
  rewrite (month_reg_this_century r5 (tm_mon t) (tm_year t)) by lia.
  destruct (month_roundtrip r5 (tm_mon t) H5 ltac:(lia) Hm) as [Hcent Hmonth].
  rewrite decode_regs by exact Hcent.
  unfold same_fields. cbn [fst snd tm_sec tm_min tm_hour tm_mday tm_mon tm_year].
  rewrite !byte_roundtrip by lia.
  rewrite mday_roundtrip by lia.
  rewrite hours_roundtrip by (assumption || lia).
  rewrite Hmonth.
  assert (Hy : bcd2bin (bin2bcd (Z.land (u8 (Z.rem (tm_year t) 100)) 0xff)) + 100
               = tm_year t).
  { rewrite Z.rem_mod_nonneg by lia.
    assert (Hmod : tm_year t mod 100 = tm_year t - 100)
      by (Z.to_euclidean_division_equations; lia).
    rewrite Hmod. unfold u8. rewrite Z.mod_small by lia.
    change 0xff with (Z.ones 8). rewrite Z.land_ones by lia.
    change (2 ^ 8) with 256. rewrite Z.mod_small by lia.
    rewrite bcd_roundtrip by lia. lia. }
  rewrite Hy. auto 10.
Qed.

Lemma same_fields_text (a b : rtc_time) :
  same_fields a b -> calendar_text a = calendar_text b.
Proof.
  intros (Hs & Hm & Hh & Hd & Hmo & Hy). unfold calendar_text.
  now rewrite Hs, Hm, Hh, Hd, Hmo, Hy.
Qed.

Lemma set_then_read (t d0 : rtc_time) (count : nat) (s : chip) :
  transfers_ok 21 s ->
  byte_regs s ->
  (7 <= List.length (regfile s))%nat ->
  Z.land (reg (regfile s) DS3231_REG_HOURS) 0x80 = 0 ->
  Z.land (reg (regfile s) DS3231_REG_MONTH) 0x60 = 0 ->
  ds3231_check_date t = 0 ->
  tm_year t + 1900 <= 2099 ->
  (20 <= count)%nat ->
  let s1 := snd (ds3231_write_date t s) in
  fst (ds3231_write_date t s) = 0 /\
  fst (fst (ds3231_read_date d0 s1)) = 0 /\
  same_fields (snd (fst (ds3231_read_date d0 s1))) t /\
  fst (ds3231_dev_read count fresh_offset d0 true s1) = (20, 1, calendar_text t) /\
  (forall q, 7 <= q -> reg (regfile s1) q = reg (regfile s) q).
Proof.
  intros Hok Hb Hlen Hh Hm Hvalid Hyear Hcount. cbv zeta.
  destruct (write_date_success t s (transfers_ok_firstn 14 7 _ Hok) Hb Hlen)
    as (W1 & W2 & W3 & W4 & W5).
  set (s1 := snd (ds3231_write_date t s)) in *.
  assert (Hblk0 : is_block (firstn 7 (regfile s))).
  { split; [rewrite length_firstn; lia | now apply firstn_bytes]. }
  assert (Hblk : is_block (encode (firstn 7 (regfile s)) t))
    by now apply encode_is_block.
  assert (Hb1 : byte_regs s1).
  { unfold byte_regs. rewrite <- (firstn_skipn 7 (regfile s1)).
    apply Forall_app. split; [rewrite W2; apply Hblk |].
    rewrite Forall_forall. intros x Hx.
    apply In_nth with (d := 0) in Hx. destruct Hx as (n & Hn & <-).
    rewrite nth_skipn.
    rewrite length_skipn in Hn.
    specialize (W3 (Z.of_nat (7 + n)) ltac:(lia)).
    unfold reg in W3. rewrite Nat2Z.id in W3. rewrite W3.
    unfold byte_regs in Hb. rewrite Forall_forall in Hb.
    apply Hb. apply nth_In. lia. }
  assert (Hok1 : transfers_ok 7 s1).
  { unfold transfers_ok. rewrite W5. apply (transfers_ok_skipn 14 7). exact Hok. }
  destruct (read_date_success d0 s1 Hok1 Hb1 ltac:(lia)) as (R1 & R2 & R3).
  destruct (codec_roundtrip_fields (firstn 7 (regfile s)) t d0 Hblk0) as [C1 C2];
    try assumption.
  { rewrite reg_firstn by (unfold DS3231_REG_HOURS; lia). exact Hh. }
  { rewrite reg_firstn by (unfold DS3231_REG_MONTH; lia). exact Hm. }
  rewrite W2 in R1.
  split; [exact W1 |].
  split; [rewrite R1; exact C1 |].
  split; [rewrite R1; exact C2 |].
  split; [| exact W3].
  assert (Htwo : two_digit_fields (snd (fst (ds3231_read_date d0 s1)))).
  { rewrite R1. destruct C2 as (Es & Em & Eh & Ed & Emo & Ey).
    apply check_date_spec in Hvalid.
    destruct Hvalid as (Hsec & Hmin & Hhour & Hyr & Hmon & Hday).
    assert (Hday' : 1 <= tm_mday t <= 31).
    { unfold days_in_month in Hday.
      repeat match type of Hday with
             | context [if ?c then _ else _] => destruct c
             end; lia. }
    unfold two_digit_fields. rewrite Es, Em, Eh, Ed, Emo, Ey. lia. }
  rewrite <- R1 in C1, C2.
  unfold ds3231_dev_read, fresh_offset, bind. cbn [Z.eqb negb].
  destruct (ds3231_read_date d0 s1) as [[rc d] s2]. cbn [fst snd] in *.
  subst rc. cbn [Z.ltb Z.compare].
  rewrite (format_date_calendar_text _ Htwo).
  rewrite calendar_text_length.
  replace (count <? 20)%nat with false by (symmetry; apply Nat.ltb_ge; exact Hcount).
  cbn [negb fst]. unfold ret. cbn [fst].
  rewrite (same_fields_text _ _ C2). reflexivity.
Qed.

(** X13: on a bus that does not fail and a chip whose reserved bits are
    clear, setting a valid time of the years 2000..2099 and then reading
    the time gives that time back, in 24-hour and in 12-hour mode alike:
    [ds3231_write_date] returns 0, the following [ds3231_read_date]
    returns 0 with the six fields of the time set, text read shows that
    time, and the registers from the control register on are not
    touched. *)
Theorem set_then_get (t d0 : rtc_time) (count : nat) (s : chip) :
  transfers_ok 21 s ->
  byte_regs s ->
  (7 <= List.length (regfile s))%nat ->
  Z.land (reg (regfile s) DS3231_REG_HOURS) 0x80 = 0 ->
  Z.land (reg (regfile s) DS3231_REG_MONTH) 0x60 = 0 ->
  ds3231_check_date t = 0 ->
  tm_year t + 1900 <= 2099 ->
  (20 <= count)%nat ->
  let s1 := snd (ds3231_write_date t s) in
  fst (ds3231_write_date t s) = 0 /\
  fst (fst (ds3231_read_date d0 s1)) = 0 /\
  same_fields (snd (fst (ds3231_read_date d0 s1))) t /\
  fst (ds3231_dev_read count fresh_offset d0 true s1) = (20, 1, calendar_text t) /\
  (forall q, 7 <= q -> reg (regfile s1) q = reg (regfile s) q).
Proof. exact (set_then_read t d0 count s). Qed.

Lemma set_then_get_witness :
  fst (ds3231_dev_read 64 fresh_offset zero_time true
         (snd (ds3231_write_date sample_time chip0))) =
  (20, 1, calendar_text sample_time).
Proof.
  destruct (set_then_get sample_time zero_time 64 chip0) as (_ & _ & _ & H & _).
  - constructor.
  - unfold byte_regs. cbn. repeat constructor; lia.
  - cbn. lia.
  - reflexivity.
  - reflexivity.
  - reflexivity.
  - cbn. lia.
  - lia.
  - exact H.
Defined.

(** ** Start-up *)

Lemma i2c_read_ok (n : nat) (c : Z) (s : chip) :
  transfers_ok (S n) s ->
  exists s',
    i2c_smbus_read_byte_data c s = (u8 (reg (regfile s) c), s') /\
    regfile s' = regfile s /\ transfers_ok n s'.
Proof.
  intros Hok. destruct (transfers_ok_step n s Hok) as [Hc Hok'].
  unfold i2c_smbus_read_byte_data.
  destruct (next_outcome s) as [code rest]. cbn [fst snd] in *.
  replace (code <? 0) with false by (symmetry; apply Z.ltb_ge; lia).
  eexists. split; [reflexivity |]. split; [reflexivity | apply Hok'].
Qed.

Lemma i2c_write_ok (n : nat) (c v : Z) (s : chip) :
  transfers_ok (S n) s ->
  exists s',
    i2c_smbus_write_byte_data c v s = (0, s') /\
    regfile s' = upd c v (regfile s) /\ transfers_ok n s'.
Proof.
  intros Hok. destruct (transfers_ok_step n s Hok) as [Hc Hok'].
  unfold i2c_smbus_write_byte_data.
  destruct (next_outcome s) as [code rest]. cbn [fst snd] in *.
  replace (code <? 0) with false by (symmetry; apply Z.ltb_ge; lia).
  eexists. split; [reflexivity |]. split; [reflexivity | apply Hok'].
Qed.

Lemma i2c_read_regfile (c : Z) (s : chip) :
  regfile (snd (i2c_smbus_read_byte_data c s)) = regfile s.
Proof.
  unfold i2c_smbus_read_byte_data. destruct (next_outcome s). reflexivity.
Qed.

Lemma i2c_write_regfile (c v : Z) (s : chip) :
  regfile (snd (i2c_smbus_write_byte_data c v s)) = regfile s \/
  regfile (snd (i2c_smbus_write_byte_data c v s)) = upd c v (regfile s).
Proof.
  unfold i2c_smbus_write_byte_data. destruct (next_outcome s) as [code rest].
  destruct (code <? 0); cbn; auto.
Qed.

Lemma control_byte_normalised (c : Z) :
  0 <= c < 256 ->
  u8 (Z.land (if negb (Z.land c DS3231_BIT_nEOSC =? 0)
              then u8 (Z.land c (Z.lnot DS3231_BIT_nEOSC)) else c)
             (Z.lnot (Z.lor (Z.lor DS3231_BIT_INTCN DS3231_BIT_A2IE)
                            DS3231_BIT_A1IE))) = Z.land c 0x78.
Proof.
  intros Hc. apply Z.eqb_eq.
  apply (range_forallb
           (fun c => u8 (Z.land (if negb (Z.land c DS3231_BIT_nEOSC =? 0)
                                 then u8 (Z.land c (Z.lnot DS3231_BIT_nEOSC))
                                 else c)
                                (Z.lnot (Z.lor (Z.lor DS3231_BIT_INTCN
                                                      DS3231_BIT_A2IE)
                                               DS3231_BIT_A1IE)))
                     =? Z.land c 0x78) 256);
    [vm_compute; reflexivity | lia].
Qed.

Lemma status_byte_normalised (c : Z) :
  0 <= c < 256 ->
  (if negb (Z.land c DS3231_BIT_OSF =? 0)
   then u8 (Z.land c (Z.lnot DS3231_BIT_OSF)) else c) = Z.land c 0x7f.
Proof.
  intros Hc. apply Z.eqb_eq.
  apply (range_forallb
           (fun c => (if negb (Z.land c DS3231_BIT_OSF =? 0)
                      then u8 (Z.land c (Z.lnot DS3231_BIT_OSF)) else c)
                     =? Z.land c 0x7f) 256);
    [vm_compute; reflexivity | lia].
Qed.

(** X14: when the transfers of [ds3231_probe] succeed, the control
    register ends with the oscillator-disable, interrupt-control and both
    alarm-enable bits cleared and its other bits as before, the status
    register ends with the oscillator-stop flag cleared and its other bits
    as before, every other register is untouched, and the result is that
    of setting up the character device. *)
Theorem probe_normalises_chip (k : probe_outcomes) (s : chip) :
  transfers_ok 4 s -> byte_regs s ->
  (16 <= List.length (regfile s))%nat ->
  let res := ds3231_probe k s in
  fst res = register_chardev k /\
  reg (regfile (snd res)) DS3231_REG_CONTROL =
  Z.land (reg (regfile s) DS3231_REG_CONTROL) 0x78 /\
  reg (regfile (snd res)) DS3231_REG_STATUS =
  Z.land (reg (regfile s) DS3231_REG_STATUS) 0x7f /\
  (forall q, 0 <= q -> q <> DS3231_REG_CONTROL -> q <> DS3231_REG_STATUS ->
             reg (regfile (snd res)) q = reg (regfile s) q).
Proof.
  intros Hok Hb Hlen. cbv zeta.
  unfold ds3231_probe, bind.
  destruct (i2c_read_ok 3 DS3231_REG_CONTROL s Hok) as (s1 & E1 & R1 & Hok1).
  rewrite E1.
  destruct (i2c_read_ok 2 DS3231_REG_STATUS s1 Hok1) as (s2 & E2 & R2 & Hok2).
  rewrite E2. rewrite R1 in *.
  pose proof (reg_byte (regfile s) DS3231_REG_CONTROL Hb) as Hc.
  pose proof (reg_byte (regfile s) DS3231_REG_STATUS Hb) as Hst.
  rewrite !(u8_byte (reg (regfile s) DS3231_REG_CONTROL)) by exact Hc.
  rewrite !(u8_byte (reg (regfile s) DS3231_REG_STATUS)) by exact Hst.
  set (c := reg (regfile s) DS3231_REG_CONTROL) in *.
  set (st := reg (regfile s) DS3231_REG_STATUS) in *.
  replace (c <? 0) with false by (symmetry; apply Z.ltb_ge; lia).
  replace (st <? 0) with false by (symmetry; apply Z.ltb_ge; lia).
  cbn [orb].
  rewrite (control_byte_normalised c Hc).
  destruct (i2c_write_ok 1 DS3231_REG_CONTROL (Z.land c 0x78) s2 Hok2)
    as (s3 & E3 & R3 & Hok3).
  rewrite E3. rewrite R2 in R3.
  pose proof (status_byte_normalised st Hst) as Hsn.
  destruct (negb (Z.land st DS3231_BIT_OSF =? 0)).
  - destruct (i2c_write_ok 0 DS3231_REG_STATUS
                (u8 (Z.land st (Z.lnot DS3231_BIT_OSF))) s3 Hok3)
      as (s4 & E4 & R4 & _).
    rewrite E4. unfold ret. cbn [fst snd]. rewrite R4, R3, Hsn.
    split; [reflexivity |]. split; [| split].
    + rewrite reg_upd_other by (unfold DS3231_REG_STATUS, DS3231_REG_CONTROL; lia).
      apply reg_upd_same. unfold DS3231_REG_CONTROL. lia.
    + apply reg_upd_same. rewrite upd_length. unfold DS3231_REG_STATUS. lia.
    + intros q Hq Hq1 Hq2.
      rewrite !reg_upd_other
        by (unfold DS3231_REG_STATUS, DS3231_REG_CONTROL in *; lia).
      reflexivity.
  - unfold ret. cbn [fst snd]. rewrite R3.
    split; [reflexivity |]. split; [| split].
    + apply reg_upd_same. unfold DS3231_REG_CONTROL. lia.
    + rewrite reg_upd_other by (unfold DS3231_REG_STATUS, DS3231_REG_CONTROL; lia).
      fold st. exact Hsn.
    + intros q Hq Hq1 Hq2.
      rewrite !reg_upd_other
        by (unfold DS3231_REG_STATUS, DS3231_REG_CONTROL in *; lia).
      reflexivity.
Qed.

Lemma probe_normalises_chip_witness :
  reg (regfile (snd (ds3231_probe (mk_probe_outcomes 0 0 KValid KValid) chip0)))
      DS3231_REG_CONTROL = Z.land 0x1c 0x78.
Proof.
  destruct (probe_normalises_chip (mk_probe_outcomes 0 0 KValid KValid) chip0)
    as (_ & H & _).
  - constructor.
  - unfold byte_regs. cbn. repeat constructor; lia.
  - cbn. lia.
  - exact H.
Defined.

(** X15: when the read of the control register or of the status register
    fails, [ds3231_probe] returns [-ENODEV] without asking the kernel for
    anything and without writing to the chip. *)
Theorem probe_read_failure (k : probe_outcomes) (s : chip) (e : Z) :
  fails_at 0 e s \/ fails_at 1 e s ->
  fst (ds3231_probe k s) = (- ENODEV, []) /\
  regfile (snd (ds3231_probe k s)) = regfile s.
Proof.
  intros Hf.
  assert (H : exists s', ds3231_probe k s = ((- ENODEV, []), s') /\
                         regfile s' = regfile s).
  { destruct Hf as [Hf | Hf]; unfold ds3231_probe, bind.
    - destruct (fails_at_zero e s Hf) as (rest & Hn & _ & He).
      unfold i2c_smbus_read_byte_data at 1. rewrite Hn.
      replace (e <? 0) with true by (symmetry; apply Z.ltb_lt; exact He).
      match goal with
      | |- context [i2c_smbus_read_byte_data DS3231_REG_STATUS ?s1] =>
          pose proof (i2c_read_regfile DS3231_REG_STATUS s1) as R;
          destruct (i2c_smbus_read_byte_data DS3231_REG_STATUS s1) as [reg1 s2]
      end.
      replace (e <? 0) with true by (symmetry; apply Z.ltb_lt; exact He).
      cbn [orb fst snd regfile] in *. unfold ret. eauto.
    - destruct (fails_at_succ 0 e s Hf) as (c & rest & Hn & Hc & Hf').
      unfold i2c_smbus_read_byte_data at 1. rewrite Hn.
      replace (c <? 0) with false by (symmetry; apply Z.ltb_ge; lia).
      match goal with
      | |- context [i2c_smbus_read_byte_data DS3231_REG_STATUS ?s1] =>
          destruct (fails_at_zero e s1 (Hf' _ _)) as (rest' & Hn' & _ & He);
          unfold i2c_smbus_read_byte_data; rewrite Hn'
      end.
      replace (e <? 0) with true by (symmetry; apply Z.ltb_lt; exact He).
      replace (e <? 0) with true by (symmetry; apply Z.ltb_lt; exact He).
      rewrite orb_true_r. unfold ret. eexists. split; reflexivity. }
  destruct H as (s' & -> & Hr). auto.
Qed.

Lemma probe_read_failure_witness :
  fst (ds3231_probe (mk_probe_outcomes 0 0 KValid KValid)
         (mk_chip (regfile chip0) [0; -121] [])) = (- ENODEV, []).
Proof.
  refine (proj1 (probe_read_failure (mk_probe_outcomes 0 0 KValid KValid)
                   (mk_chip (regfile chip0) [0; -121] []) (-121) _)).
  right. exists [0], []. cbn. repeat split; try lia. repeat constructor; lia.
Defined.

(** X16: whatever the bus and the kernel do, [ds3231_probe] changes no
    register other than the control and the status register; the time
    registers are never written at start-up. *)
Theorem probe_keeps_time_registers (k : probe_outcomes) (s : chip) (q : Z) :
  0 <= q -> q <> DS3231_REG_CONTROL -> q <> DS3231_REG_STATUS ->
  reg (regfile (snd (ds3231_probe k s))) q = reg (regfile s) q.
Proof.
  intros Hq Hq1 Hq2. unfold ds3231_probe, bind.
  pose proof (i2c_read_regfile DS3231_REG_CONTROL s) as R1.
  destruct (i2c_smbus_read_byte_data DS3231_REG_CONTROL s) as [reg0 s1].
  pose proof (i2c_read_regfile DS3231_REG_STATUS s1) as R2.
  destruct (i2c_smbus_read_byte_data DS3231_REG_STATUS s1) as [reg1 s2].
  cbn [fst snd] in *.
  destruct ((reg0 <? 0) || (reg1 <? 0)); [cbn; now rewrite R2, R1 |].
  match goal with
  | |- context [i2c_smbus_write_byte_data DS3231_REG_CONTROL ?v s2] =>
      pose proof (i2c_write_regfile DS3231_REG_CONTROL v s2) as R3;
      destruct (i2c_smbus_write_byte_data DS3231_REG_CONTROL v s2) as [w3 s3]
  end.
  cbn [fst snd] in *.
  assert (H3 : reg (regfile s3) q = reg (regfile s) q).
  { destruct R3 as [-> | ->]; rewrite ?reg_upd_other, R2, R1;
      unfold DS3231_REG_CONTROL in *; auto; lia. }
  destruct (negb (Z.land (u8 reg1) DS3231_BIT_OSF =? 0)).
  - match goal with
    | |- context [i2c_smbus_write_byte_data DS3231_REG_STATUS ?v s3] =>
        pose proof (i2c_write_regfile DS3231_REG_STATUS v s3) as R4;
        destruct (i2c_smbus_write_byte_data DS3231_REG_STATUS v s3) as [w4 s4]
    end.
    cbn [fst snd] in *. unfold ret. cbn [snd].
    destruct R4 as [-> | ->]; rewrite ?reg_upd_other;
      unfold DS3231_REG_STATUS in *; auto; lia.
  - unfold ret. cbn [snd]. exact H3.
Qed.

Lemma probe_keeps_time_registers_witness :
  reg (regfile (snd (ds3231_probe (mk_probe_outcomes 0 0 KValid KValid) chip0)))
      DS3231_REG_HOURS = reg (regfile chip0) DS3231_REG_HOURS.
Proof.
  apply probe_keeps_time_registers;
    unfold DS3231_REG_HOURS, DS3231_REG_CONTROL, DS3231_REG_STATUS; lia.
Defined.


(** X18: [ds3231_module_init] returns a negative value only with
    [ds3231_client] cleared and neither the I2C device nor the driver
    registered, so that [ds3231_module_exit] then does nothing; when it
    returns 0 or more, [ds3231_client] is set and [ds3231_module_exit]
    removes the driver and the device. *)
Theorem module_init_exit (adapter_null client_null : bool) (add_ret : Z) :
  let ret_ := fst (fst (ds3231_module_init adapter_null client_null add_ret)) in
  let client := snd (fst (ds3231_module_init adapter_null client_null add_ret)) in
  let calls := snd (ds3231_module_init adapter_null client_null add_ret) in
  (ret_ < 0 ->
   client = false /\ held calls = [] /\ ds3231_module_exit client = []) /\
  (0 <= ret_ ->
   client = true /\ held calls = [I2cDriver; I2cClient] /\
   held (calls ++ ds3231_module_exit client) = []).
Proof.
  cbv zeta. unfold ds3231_module_init.
  destruct adapter_null; [cbn; split; [auto | lia] |].
  destruct client_null; cbn [negb]; [cbn; split; [auto | lia] |].
  destruct (Z.ltb_spec add_ret 0); cbn [fst snd]; split; intros; try lia;
    cbn; auto.
Qed.

Lemma module_init_exit_witness :
  held (snd (ds3231_module_init false false (-16))) = [].
Proof.
  destruct (module_init_exit false false (-16)) as [Hneg _].
  destruct (Hneg ltac:(cbn; lia)) as (_ & H & _). exact H.
Defined.

(** X19: a text read into a buffer shorter than the 20 bytes of the text
    returns [count], copies only the first [count] bytes, and still marks
    the file as read, so the rest of the text is not delivered by the
    next read. *)
Theorem text_read_short_buffer (count : nat) (stack d : rtc_time) (s s' : chip) :
  ds3231_read_date stack s = ((0, d), s') ->
  two_digit_fields d ->
  (count < 20)%nat ->
  ds3231_dev_read count fresh_offset stack true s =
  ((Z.of_nat count, 1, substring 0 count (calendar_text d)), s').
Proof.
  intros Hread Hd Hcount.
  unfold ds3231_dev_read, fresh_offset, bind. cbn [Z.eqb negb].
  rewrite Hread. cbn [fst snd Z.ltb Z.compare].
  rewrite (format_date_calendar_text d Hd).
  rewrite calendar_text_length.
  replace (count <? 20)%nat with true by (symmetry; apply Nat.ltb_lt; exact Hcount).
  reflexivity.
Qed.

Lemma text_read_short_buffer_witness :
  ds3231_dev_read 5 fresh_offset zero_time true chip0 =
  ((5, 1, "05.07"%string), snd (ds3231_read_date zero_time chip0)).
Proof.
  refine (text_read_short_buffer 5 zero_time (mk_rtc_time 7 2 9 5 6 123 0 0 0)
            chip0 (snd (ds3231_read_date zero_time chip0)) _ _ _).
  - reflexivity.
  - unfold two_digit_fields. cbn. lia.
  - lia.
Defined.

(** ** Parsing the text written to the device *)

Lemma digit_char_spec (k : Z) :
  0 <= k <= 9 ->
  isdigit (digit_char k) = true /\ digit_val (digit_char k) = k.
Proof.
  intros Hk.
  assert (H : k = 0 \/ k = 1 \/ k = 2 \/ k = 3 \/ k = 4 \/ k = 5 \/ k = 6 \/
              k = 7 \/ k = 8 \/ k = 9) by lia.
  repeat (destruct H as [-> | H]; [split; reflexivity |]).
  subst. split; reflexivity.
Qed.

Lemma isdigit_facts (c : ascii) :
  isdigit c = true ->
  isspace c = false /\ (nat_of_ascii c =? 0)%nat = false /\
  0 <= digit_val c <= 9 /\
  forall (w : option nat) (rest : string) (fmt : list directive),
    vsscanf (String c rest) (DInt w :: fmt) =
    s32 (fst (parse_digits w (String c rest) 0))
        :: vsscanf (snd (parse_digits w (String c rest) 0)) fmt.
Proof.
  destruct c as [[] [] [] [] [] [] [] []]; intros H;
    try discriminate H;
    (split; [reflexivity |]; split; [reflexivity |];
     split; [vm_compute; split; discriminate |]);
    intros w rest fmt; cbn [vsscanf skip_spaces];
    match goal with
    | |- context [isspace ?c] => change (isspace c) with false
    end;
    cbv iota; cbn [first_char];
    match goal with
    | |- context [isdigit ?c] => change (isdigit c) with true
    end;
    cbv iota; unfold simple_strntoll;
    destruct (parse_digits w _ 0); reflexivity.
Qed.

Lemma c_string_cons (c : ascii) (rest : string) :
  (nat_of_ascii c =? 0)%nat = false ->
  c_string (String c rest) = String c (c_string rest).
Proof. intros H. cbn [c_string]. now rewrite H. Qed.

Lemma parse_digits_digit (w : option nat) (c : ascii) (rest : string) (acc : Z) :
  isdigit c = true -> width_left w = true ->
  parse_digits w (String c rest) acc =
  parse_digits (width_pred w) rest (acc * 10 + digit_val c).
Proof. intros Hc Hw. cbn [parse_digits]. now rewrite Hc, Hw. Qed.

Lemma parse_digits_stop (w : option nat) (c : ascii) (rest : string) (acc : Z) :
  isdigit c = false ->
  parse_digits w (String c rest) acc = (acc, String c rest).
Proof. intros Hc. cbn [parse_digits]. now rewrite Hc. Qed.

Lemma parse_digits_width0 (s : string) (acc : Z) :
  parse_digits (Some 0%nat) s acc = (acc, s).
Proof.
  destruct s as [| c rest]; [reflexivity |].
  cbn [parse_digits width_left]. now rewrite andb_false_r.
Qed.

Lemma skip_spaces_digit (c : ascii) (rest : string) :
  isspace c = false -> skip_spaces (String c rest) = String c rest.
Proof. intros H. cbn [skip_spaces]. now rewrite H. Qed.

Lemma vsscanf_char (c : ascii) (rest : string) (fmt : list directive) :
  vsscanf (String c rest) (DChar c :: fmt) = vsscanf rest fmt.
Proof. cbn [vsscanf]. now rewrite Ascii.eqb_refl. Qed.

Lemma vsscanf_space (c : ascii) (rest : string) (fmt : list directive) :
  isspace c = true ->
  vsscanf (String c rest) (DSpace :: fmt) = vsscanf (skip_spaces rest) fmt.
Proof. intros H. cbn [vsscanf skip_spaces]. now rewrite H. Qed.

Lemma s32_small (x : Z) : 0 <= x < 10000 -> s32 x = x.
Proof. intros Hx. unfold s32. rewrite Z.mod_small by lia. lia. Qed.

Lemma scan_date_text (y1 y2 y3 y4 m1 m2 d1 d2 h1 h2 n1 n2 s1 s2 : ascii)
      (adjacent : string) :
  isdigit y1 = true -> isdigit y2 = true -> isdigit y3 = true ->
  isdigit y4 = true -> isdigit m1 = true -> isdigit m2 = true ->
  isdigit d1 = true -> isdigit d2 = true -> isdigit h1 = true ->
  isdigit h2 = true -> isdigit n1 = true -> isdigit n2 = true ->
  isdigit s1 = true -> isdigit s2 = true ->
  vsscanf
    (c_string
       (String y1 (String y2 (String y3 (String y4 (String "-"
       (String m1 (String m2 (String "-"
       (String d1 (String d2 (String " "
       (String h1 (String h2 (String ":"
       (String n1 (String n2 (String ":"
       (String s1 (String s2 (String LF adjacent)))))))))))))))))))))
    date_fmt =
  [((digit_val y1 * 10 + digit_val y2) * 10 + digit_val y3) * 10 + digit_val y4;
   digit_val m1 * 10 + digit_val m2;
   digit_val d1 * 10 + digit_val d2;
   digit_val h1 * 10 + digit_val h2;
   digit_val n1 * 10 + digit_val n2;
   digit_val s1 * 10 + digit_val s2].
Proof.
  intros Hy1 Hy2 Hy3 Hy4 Hm1 Hm2 Hd1 Hd2 Hh1 Hh2 Hn1 Hn2 Hs1 Hs2.
  destruct (isdigit_facts y1 Hy1) as (_ & Zy1 & By1 & Sy).
  destruct (isdigit_facts y2 Hy2) as (_ & Zy2 & By2 & _).
  destruct (isdigit_facts y3 Hy3) as (_ & Zy3 & By3 & _).
  destruct (isdigit_facts y4 Hy4) as (_ & Zy4 & By4 & _).
  destruct (isdigit_facts m1 Hm1) as (_ & Zm1 & Bm1 & Sm).
  destruct (isdigit_facts m2 Hm2) as (_ & Zm2 & Bm2 & _).
  destruct (isdigit_facts d1 Hd1) as (_ & Zd1 & Bd1 & Sd).
  destruct (isdigit_facts d2 Hd2) as (_ & Zd2 & Bd2 & _).
  destruct (isdigit_facts h1 Hh1) as (Ph1 & Zh1 & Bh1 & Sh).
  destruct (isdigit_facts h2 Hh2) as (_ & Zh2 & Bh2 & _).
  destruct (isdigit_facts n1 Hn1) as (_ & Zn1 & Bn1 & Sn).
  destruct (isdigit_facts n2 Hn2) as (_ & Zn2 & Bn2 & _).
  destruct (isdigit_facts s1 Hs1) as (_ & Zs1 & Bs1 & Ss).
  destruct (isdigit_facts s2 Hs2) as (_ & Zs2 & Bs2 & _).
  rewrite !c_string_cons by (assumption || reflexivity).
  unfold date_fmt.
  rewrite Sy.
  rewrite !parse_digits_digit by (assumption || reflexivity).
  cbn [width_pred Nat.pred]. rewrite parse_digits_width0. cbn [fst snd].
  rewrite vsscanf_char, Sm.
  rewrite !parse_digits_digit by (assumption || reflexivity).
  cbn [width_pred Nat.pred]. rewrite parse_digits_width0. cbn [fst snd].
  rewrite vsscanf_char, Sd.
  rewrite !parse_digits_digit by (assumption || reflexivity).
  cbn [width_pred]. rewrite parse_digits_stop by reflexivity. cbn [fst snd].
  rewrite vsscanf_space by reflexivity.
  rewrite (skip_spaces_digit h1) by exact Ph1.
  rewrite Sh.
  rewrite !parse_digits_digit by (assumption || reflexivity).
  cbn [width_pred]. rewrite parse_digits_stop by reflexivity. cbn [fst snd].
  rewrite vsscanf_char, Sn.
  rewrite !parse_digits_digit by (assumption || reflexivity).
  cbn [width_pred]. rewrite parse_digits_stop by reflexivity. cbn [fst snd].
  rewrite vsscanf_char, Ss.
  rewrite !parse_digits_digit by (assumption || reflexivity).
  cbn [width_pred]. rewrite parse_digits_stop by reflexivity. cbn [fst snd].
  cbn [vsscanf].
  rewrite !s32_small by lia.
  repeat f_equal; lia.
Qed.

Lemma two_digits_chars (v : Z) :
  0 <= v <= 99 ->
  isdigit (digit_char (v / 10)) = true /\
  isdigit (digit_char (v mod 10)) = true /\
  digit_val (digit_char (v / 10)) * 10 + digit_val (digit_char (v mod 10)) = v.
Proof.
  intros Hv.
  destruct (digit_char_spec (v / 10)) as [H1 V1];
    [Z.to_euclidean_division_equations; lia |].
  destruct (digit_char_spec (v mod 10)) as [H2 V2];
    [Z.to_euclidean_division_equations; lia |].
  rewrite V1, V2. repeat split; auto.
  Z.to_euclidean_division_equations; lia.
Qed.

Lemma parse_write_text (t stack : rtc_time) (adjacent : string) :
  two_digit_fields t ->
  same_fields (parse_date (write_text t ++ adjacent) stack) t.
Proof.
  intros (Hs & Hm & Hh & Hd & Hmo & Hy).
  set (y := tm_year t + 1900) in *.
  destruct (digit_char_spec (y / 1000)) as [Y1 V1];
    [Z.to_euclidean_division_equations; lia |].
  destruct (digit_char_spec (y / 100 mod 10)) as [Y2 V2];
    [Z.to_euclidean_division_equations; lia |].
  destruct (two_digits_chars (y mod 100)) as (Y3 & Y4 & V34);
    [Z.to_euclidean_division_equations; lia |].
  destruct (two_digits_chars (tm_mon t + 1) Hmo) as (M1 & M2 & VM).
  destruct (two_digits_chars (tm_mday t) Hd) as (D1 & D2 & VD).
  destruct (two_digits_chars (tm_hour t) Hh) as (H1 & H2 & VH).
  destruct (two_digits_chars (tm_min t) Hm) as (N1 & N2 & VN).
  destruct (two_digits_chars (tm_sec t) Hs) as (S1 & S2 & VS).
  unfold parse_date, sscanf_date, write_text, four_digits, two_digits.
  fold y. cbn [append].
  rewrite scan_date_text by assumption.
  cbn [store_fields set_tm_year set_tm_mon set_tm_mday set_tm_hour set_tm_min
       set_tm_sec tm_sec tm_min tm_hour tm_mday tm_mon tm_year].
  unfold same_fields.
  cbn [tm_sec tm_min tm_hour tm_mday tm_mon tm_year].
  rewrite VM, VD, VH, VN, VS, V1, V2.
  cbn [set_tm_year set_tm_mon set_tm_mday set_tm_hour set_tm_min
       set_tm_sec tm_sec tm_min tm_hour tm_mday tm_mon tm_year].
  assert (Hy' : y / 1000 * 1000 + (y / 100) mod 10 * 100 + y mod 100 = y)
    by (Z.to_euclidean_division_equations; lia).
  assert (Hq : 0 <= y / 1000 <= 9 /\ 0 <= (y / 100) mod 10 <= 9)
    by (Z.to_euclidean_division_equations; lia).
  rewrite !s32_int by (unfold y in *; lia).
  unfold y in *. repeat split; lia.
Qed.

Lemma same_fields_check (a b : rtc_time) :
  same_fields a b -> ds3231_check_date a = 0 -> ds3231_check_date b = 0.
Proof.
  intros (Hs & Hm & Hh & Hd & Hmo & Hy) Ha.
  apply check_date_spec. apply check_date_spec in Ha.
  unfold calendar_valid in *. now rewrite <- Hs, <- Hm, <- Hh, <- Hd, <- Hmo, <- Hy.
Qed.

Lemma same_fields_sym (a b : rtc_time) : same_fields a b -> same_fields b a.
Proof. unfold same_fields. intuition congruence. Qed.

Lemma valid_two_digit_fields (t : rtc_time) :
  ds3231_check_date t = 0 -> two_digit_fields t.
Proof.
  intros Hv. apply check_date_spec in Hv.
  destruct Hv as (Hsec & Hmin & Hhour & Hyr & Hmon & Hday).
  assert (Hday' : 1 <= tm_mday t <= 31).
  { unfold days_in_month in Hday.
    repeat match type of Hday with
           | context [if ?c then _ else _] => destruct c
           end; lia. }
  unfold two_digit_fields. lia.
Qed.

(** X20: for every time with two-digit fields and a four-digit year
    (every valid time among them), the 20 bytes [YYYY-MM-DD HH:MM:SS] and
    a line feed pass the delimiter test of text write and are parsed into
    exactly that time, whatever lies in memory after the buffer. *)
Theorem text_write_parses_layout (t stack : rtc_time) (adjacent : string) :
  two_digit_fields t ->
  String.length (write_text t) = 20%nat /\
  fst (layout_check (write_text t ++ adjacent) layout) = true /\
  same_fields (parse_date (write_text t ++ adjacent) stack) t.
Proof.
  intros Ht. split; [reflexivity |]. split; [reflexivity |].
  now apply parse_write_text.
Qed.

Lemma text_write_parses_layout_witness :
  same_fields (parse_date (write_text sample_time ++ EmptyString) zero_time)
              sample_time.
Proof.
  refine (proj2 (proj2 (text_write_parses_layout sample_time zero_time
                          EmptyString _))).
  unfold two_digit_fields. cbn. lia.
Defined.

(** X21: on a bus that does not fail and a chip whose reserved bits are
    clear, writing the text of a valid time of the years 2000..2099 to the
    device returns 20, and the text read that follows returns that time as
    [DD.MM.YYYY HH:MM:SS] and a line feed. *)
Theorem text_write_then_text_read (t stack d0 : rtc_time) (adjacent : string)
        (count : nat) (s : chip) :
  transfers_ok 21 s ->
  byte_regs s ->
  (7 <= List.length (regfile s))%nat ->
  Z.land (reg (regfile s) DS3231_REG_HOURS) 0x80 = 0 ->
  Z.land (reg (regfile s) DS3231_REG_MONTH) 0x60 = 0 ->
  ds3231_check_date t = 0 ->
  tm_year t + 1900 <= 2099 ->
  (20 <= count)%nat ->
  let w := ds3231_dev_write (write_text t) adjacent stack true s in
  fst w = 20 /\
  fst (ds3231_dev_read count fresh_offset d0 true (snd w)) =
  (20, 1, calendar_text t).
Proof.
  intros Hok Hb Hlen Hh Hm Hvalid Hyear Hcount. cbv zeta.
  pose proof (parse_write_text t stack adjacent (valid_two_digit_fields t Hvalid))
    as Hp.
  set (p := parse_date (write_text t ++ adjacent) stack) in *.
  assert (Hpv : ds3231_check_date p = 0)
    by (apply (same_fields_check t p); [now apply same_fields_sym | exact Hvalid]).
  assert (Hpy : tm_year p + 1900 <= 2099)
    by (destruct Hp as (_ & _ & _ & _ & _ & ->); exact Hyear).
  destruct (set_then_read p d0 count s Hok Hb Hlen Hh Hm Hpv Hpy Hcount)
    as (W1 & _ & _ & R & _).
  assert (Hw : ds3231_dev_write (write_text t) adjacent stack true s =
               (20, snd (ds3231_write_date p s))).
  { unfold ds3231_dev_write.
    change (20 <? String.length (write_text t))%nat with false.
    change (fst (layout_check (write_text t ++ adjacent) layout)) with true.
    cbn [negb]. fold p. rewrite Hpv. cbn [s32 Z.eqb negb].
    change (s32 0 =? 0) with true. cbn [negb].
    unfold bind. destruct (ds3231_write_date p s) as [r s1]. cbn [fst snd] in *.
    subst r. reflexivity. }
  rewrite Hw. cbn [fst snd]. split; [reflexivity |].
  rewrite R. now rewrite (same_fields_text p t Hp).
Qed.

Lemma text_write_then_text_read_witness :
  fst (ds3231_dev_read 64 fresh_offset zero_time true
         (snd (ds3231_dev_write (write_text sample_time) EmptyString zero_time
                                true chip0))) =
  (20, 1, calendar_text sample_time).
Proof.
  refine (proj2 (text_write_then_text_read sample_time zero_time zero_time
                   EmptyString 64 chip0 _ _ _ _ _ _ _ _)).
  - constructor.
  - unfold byte_regs. cbn. repeat constructor; lia.
  - cbn. lia.
  - reflexivity.
  - reflexivity.
  - reflexivity.
  - cbn. lia.
  - lia.
Defined.

(** ** A write that fails inside a set-time transaction *)

Lemma fails_at_after (a k : nat) (e : Z) (s s1 : chip) :
  fails_at (a + k) e s -> plan s1 = skipn a (plan s) ->
  transfers_ok a s /\ fails_at k e s1.
Proof.
  intros (ok & rest & Hp & Hlen & Hok & He) Hs1.
  assert (Hfirst : firstn a (plan s) = firstn a ok).
  { rewrite Hp, firstn_app.
    replace (a - List.length ok)%nat with 0%nat by lia.
    cbn. apply app_nil_r. }
  split.
  - unfold transfers_ok. rewrite Hfirst.
    rewrite Forall_forall in *. intros x Hx. apply Hok.
    rewrite <- (firstn_skipn a ok). apply in_or_app. now left.
  - exists (skipn a ok), rest. repeat split.
    + rewrite Hs1, Hp, skipn_app.
      replace (a - List.length ok)%nat with 0%nat by lia. reflexivity.
    + rewrite length_skipn. lia.
    + rewrite Forall_forall in *. intros x Hx. apply Hok.
      rewrite <- (firstn_skipn a ok). apply in_or_app. now right.
    + exact He.
Qed.

(** X22: when the seven reads of a set-time transaction succeed and the
    write of register [k] is the first transfer to fail,
    [ds3231_write_date] still returns 0, and the chip is left with a mixed
    time: registers 0 to [k-1] hold the new bytes, registers from [k] on
    the old ones. *)
Theorem set_time_partial_write (t : rtc_time) (s : chip) (k : nat) (e : Z) :
  fails_at (7 + k) e s -> (k < 7)%nat ->
  byte_regs s -> (7 <= List.length (regfile s))%nat ->
  let res := ds3231_write_date t s in
  fst res = 0 /\
  (forall j, 0 <= j < Z.of_nat k ->
             reg (regfile (snd res)) j = reg (encode (firstn 7 (regfile s)) t) j) /\
  (forall q, Z.of_nat k <= q -> reg (regfile (snd res)) q = reg (regfile s) q).
Proof.
  intros Hf Hk Hb Hlen. cbv zeta.
  unfold ds3231_write_date, bind, mutex_lock, mutex_unlock, log,
    ds3231_read_block_data, ds3231_write_block_data.
  destruct (fails_at_after 7 k e s (mk_chip [] (skipn 7 (plan s)) []) Hf eq_refl)
    as [Hok _].
  match goal with
  | |- context [read_block_loop _ _ _ _ ?s1] =>
      destruct (read_time_block s1 Hok Hb Hlen) as (H1 & H2 & H3);
      destruct (read_block_loop (Z.to_nat 7) DS3231_REG_SECONDS 0 regs_local s1)
        as [[rc regs] s2]
  end.
  cbn [fst snd regfile plan] in *.
  injection H1 as Hrc Hregs. subst rc regs.
  cbn [Z.ltb Z.compare regfile plan].
  match goal with
  | |- context [write_block_loop _ _ _ ?b ?s4] =>
      destruct (fails_at_after 7 k e s s4 Hf H3) as [_ Hf4];
      destruct (write_block_loop_fail k (Z.to_nat 7) DS3231_REG_SECONDS 0 b s4 e)
        as (W1 & W2 & W3 & _);
      [unfold DS3231_REG_SECONDS; lia | lia
       | unfold DS3231_REG_SECONDS; lia
       | unfold DS3231_REG_SECONDS; cbn [regfile]; rewrite H2; lia
       | exact Hf4 | lia
       | destruct (write_block_loop (Z.to_nat 7) DS3231_REG_SECONDS 0 b s4)
           as [w s5] ]
  end.
  unfold ret. cbn [fst snd regfile plan] in *. rewrite H2 in *.
  unfold DS3231_REG_SECONDS in *.
  split; [reflexivity |]. split.
  - intros j Hj. specialize (W2 j ltac:(lia)).
    rewrite Z.add_0_l in W2. exact W2.
  - intros q Hq. apply W3; lia.
Qed.

Lemma set_time_partial_write_witness :
  let res := ds3231_write_date sample_time
               (mk_chip (regfile chip0) [0; 0; 0; 0; 0; 0; 0; 0; 0; - EIO] []) in
  fst res = 0 /\ reg (regfile (snd res)) 1 = 0x30 /\
  reg (regfile (snd res)) 2 = 0x09.
Proof.
  destruct (set_time_partial_write sample_time
              (mk_chip (regfile chip0) [0; 0; 0; 0; 0; 0; 0; 0; 0; - EIO] [])
              2 (- EIO)) as (H1 & H2 & H3).
  - exists [0; 0; 0; 0; 0; 0; 0; 0; 0], []. cbn.
    repeat split; try lia. repeat constructor; lia.
  - lia.
  - unfold byte_regs. cbn. repeat constructor; lia.
  - cbn. lia.
  - split; [exact H1 |]. split.
    + exact (H2 1 ltac:(lia)).
    + exact (H3 2 ltac:(lia)).
Defined.

(** ** Structured set followed by structured get *)

Lemma decode_keeps_rest (regs : list Z) (d : rtc_time) :
  tm_wday (snd (decode regs d)) = tm_wday d /\
  tm_yday (snd (decode regs d)) = tm_yday d /\
  tm_isdst (snd (decode regs d)) = tm_isdst d.
Proof.
  unfold decode.
  destruct (negb (Z.land (reg regs DS3231_REG_MONTH) DS3231_BIT_CENTURY =? 0));
    [cbn; auto |].
  destruct (negb (Z.land (reg regs DS3231_REG_HOURS) DS3231_BIT_12H =? 0));
    [| cbn; auto].
  match goal with
  | |- context [if ?c then _ else _] => destruct c
  end; cbn; auto.
Qed.

Lemma read_date_keeps_rest (d : rtc_time) (s : chip) :
  tm_wday (snd (fst (ds3231_read_date d s))) = tm_wday d /\
  tm_yday (snd (fst (ds3231_read_date d s))) = tm_yday d /\
  tm_isdst (snd (fst (ds3231_read_date d s))) = tm_isdst d.
Proof.
  unfold ds3231_read_date, bind, mutex_lock, mutex_unlock, log.
  match goal with
  | |- context [ds3231_read_block_data ?r ?n ?b ?s2] =>
      destruct (ds3231_read_block_data r n b s2) as [[rc regs] s3]
  end.
  cbn [fst snd]. destruct (rc <? 0); unfold ret; cbn [fst snd]; auto.
  apply decode_keeps_rest.
Qed.

(** X23: on a bus that does not fail and a chip whose reserved bits are
    clear, a structured set of a valid time of the years 2000..2099
    returns 0, and the structured get that follows returns 0 and a time
    with the six fields that were set and with weekday, day of the year
    and daylight-saving flag zero. *)
Theorem ioctl_set_then_get (arg user : rtc_time) (s : chip) :
  transfers_ok 21 s ->
  byte_regs s ->
  (7 <= List.length (regfile s))%nat ->
  Z.land (reg (regfile s) DS3231_REG_HOURS) 0x80 = 0 ->
  Z.land (reg (regfile s) DS3231_REG_MONTH) 0x60 = 0 ->
  ds3231_check_date arg = 0 ->
  tm_year arg + 1900 <= 2099 ->
  let i := ds3231_dev_ioctl RTC_SET_TIME arg true s in
  let g := fst (ds3231_dev_ioctl RTC_RD_TIME user true (snd i)) in
  fst i = (0, arg) /\ fst g = 0 /\ same_fields (snd g) arg /\
  tm_wday (snd g) = 0 /\ tm_yday (snd g) = 0 /\ tm_isdst (snd g) = 0.
Proof.
  intros Hok Hb Hlen Hh Hm Hvalid Hyear. cbv zeta.
  destruct (set_then_read arg zero_time 20 s Hok Hb Hlen Hh Hm Hvalid Hyear
                          (Nat.le_refl 20)) as (W1 & R1 & R2 & _ & _).
  assert (Hi : ds3231_dev_ioctl RTC_SET_TIME arg true s =
               ((0, arg), snd (ds3231_write_date arg s))).
  { unfold ds3231_dev_ioctl. cbn [negb]. rewrite Hvalid.
    change (s32 0 =? 0) with true. cbn [negb].
    unfold bind. destruct (ds3231_write_date arg s) as [r s1].
    cbn [fst snd] in *. subst r. reflexivity. }
  rewrite Hi. cbn [fst snd]. split; [reflexivity |].
  set (s1 := snd (ds3231_write_date arg s)) in *.
  destruct (read_date_keeps_rest zero_time s1) as (Hw & Hyd & Hdst).
  cbn [zero_time tm_wday tm_yday tm_isdst] in Hw, Hyd, Hdst.
  unfold ds3231_dev_ioctl, bind.
  destruct (ds3231_read_date zero_time s1) as [[rc d] s2]. cbn [fst snd] in *.
  subst rc. cbn [Z.ltb Z.compare negb]. unfold ret. cbn [fst snd]. auto.
Qed.

Lemma ioctl_set_then_get_witness :
  same_fields
    (snd (fst (ds3231_dev_ioctl RTC_RD_TIME zero_time true
                 (snd (ds3231_dev_ioctl RTC_SET_TIME sample_time true chip0)))))
    sample_time.
Proof.
  destruct (ioctl_set_then_get sample_time zero_time chip0)
    as (_ & _ & H & _).
  - constructor.
  - unfold byte_regs. cbn. repeat constructor; lia.
  - cbn. lia.
  - reflexivity.
  - reflexivity.
  - reflexivity.
  - cbn. lia.
  - exact H.
Defined.

(** ** What the decoder delivers to the text read *)

Lemma read_block_loop_bytes (n : nat) :
  forall (r i : Z) (buf : list Z) (s : chip),
    Forall (fun b => 0 <= b < 256) buf ->
    List.length (snd (fst (read_block_loop n r i buf s))) = List.length buf /\
    Forall (fun b => 0 <= b < 256) (snd (fst (read_block_loop n r i buf s))).
Proof.
  induction n as [| n IH]; intros r i buf s Hb.
  - cbn. auto.
  - cbn [read_block_loop]. unfold bind.
    destruct (i2c_smbus_read_byte_data (u8 (r + i)) s) as [data s1].
    destruct (data <? 0).
    + cbn. auto.
    + destruct (IH r (i + 1) (upd i (u8 data) buf) s1
                  (upd_bytes i (u8 data) buf (u8_range data) Hb)) as [Hl Hf].
      split; [rewrite Hl; apply upd_length | exact Hf].
Qed.

Lemma read_date_decoded (stack d : rtc_time) (s s' : chip) :
  ds3231_read_date stack s = ((0, d), s') ->
  exists regs, is_block regs /\ decode regs stack = (0, d).
Proof.
  unfold ds3231_read_date, bind, mutex_lock, mutex_unlock, log,
    ds3231_read_block_data.
  set (s1 := mk_chip (regfile s) (plan s) (trace s ++ [EvLock])).
  assert (Hregs : Forall (fun b => 0 <= b < 256) regs_local)
    by (repeat constructor; lia).
  destruct (read_block_loop_bytes (Z.to_nat 7) DS3231_REG_SECONDS 0 regs_local s1
              Hregs) as [Hlen Hbytes].
  destruct (read_block_loop (Z.to_nat 7) DS3231_REG_SECONDS 0 regs_local s1)
    as [[rc regs] s2].
  cbn [fst snd] in *.
  destruct (rc <? 0) eqn:Hrc; unfold ret; intros H.
  - injection H as H0 _ _. apply Z.ltb_lt in Hrc. lia.
  - injection H as Hd _. exists regs. split; [split; assumption | exact Hd].
Qed.

Lemma bcd2bin_byte (v : Z) : 0 <= v < 256 -> 0 <= bcd2bin v <= 165.
Proof.
  intros Hv.
  pose proof (range_forallb
                (fun z => (0 <=? bcd2bin z) && (bcd2bin z <=? 165)) 256
                ltac:(vm_compute; reflexivity) v ltac:(lia)) as H.
  cbv beta in H. apply andb_true_iff in H. lia.
Qed.

Lemma bcd2bin_month (v : Z) :
  0 <= v < 256 -> Z.land v DS3231_BIT_CENTURY = 0 -> 0 <= bcd2bin v <= 85.
Proof.
  intros Hv Hc.
  pose proof (range_forallb
                (fun z => negb (Z.land z DS3231_BIT_CENTURY =? 0) ||
                          ((0 <=? bcd2bin z) && (bcd2bin z <=? 85))) 256
                ltac:(vm_compute; reflexivity) v ltac:(lia)) as H.
  cbv beta in H. rewrite Hc in H. cbn [Z.eqb negb orb] in H.
  apply andb_true_iff in H. lia.
Qed.

Lemma decoded_hour_byte (v : Z) : 0 <= v < 256 -> 0 <= decoded_hour v <= 177.
Proof.
  intros Hv.
  pose proof (range_forallb
                (fun z => (0 <=? decoded_hour z) && (decoded_hour z <=? 177)) 256
                ltac:(vm_compute; reflexivity) v ltac:(lia)) as H.
  cbv beta in H. apply andb_true_iff in H. lia.
Qed.

(** The fields of a time the decoder delivers with return value 0: the
    month and the year always print with two and four digits, the other
    four fields can exceed 99. *)
Lemma decode_ranges (regs : list Z) (d0 d : rtc_time) :
  is_block regs -> decode regs d0 = (0, d) ->
  0 <= tm_sec d <= 165 /\ 0 <= tm_min d <= 165 /\ 0 <= tm_hour d <= 177 /\
  0 <= tm_mday d <= 165 /\ 0 <= tm_mon d + 1 <= 85 /\
  100 <= tm_year d <= 265.
Proof.
  intros Hb Hd.
  destruct (block_inv regs Hb) as (r0 & r1 & r2 & r3 & r4 & r5 & r6 & -> & _).
  destruct Hb as [_ Hall].
  pose proof (reg_byte _ 0 Hall) as H0. pose proof (reg_byte _ 1 Hall) as H1.
  pose proof (reg_byte _ 2 Hall) as H2. pose proof (reg_byte _ 4 Hall) as H4.
  pose proof (reg_byte _ 5 Hall) as H5. pose proof (reg_byte _ 6 Hall) as H6.
  cbn in H0, H1, H2, H4, H5, H6.
  destruct (Z.eq_dec (Z.land r5 DS3231_BIT_CENTURY) 0) as [Hc | Hc].
  - rewrite (decode_regs r0 r1 r2 r3 r4 r5 r6 d0 Hc) in Hd.
    injection Hd as <-. cbn [tm_sec tm_min tm_hour tm_mday tm_mon tm_year].
    pose proof (bcd2bin_byte r0 H0). pose proof (bcd2bin_byte r1 H1).
    pose proof (decoded_hour_byte r2 H2). pose proof (bcd2bin_byte r4 H4).
    pose proof (bcd2bin_month r5 H5 Hc). pose proof (bcd2bin_byte r6 H6).
    lia.
  - pose proof (decode_century_bit [r0; r1; r2; r3; r4; r5; r6] d0 Hc) as He.
    rewrite Hd in He. discriminate He.
Qed.

Lemma string_length_app (a b : string) :
  String.length (a ++ b) = (String.length a + String.length b)%nat.
Proof. induction a as [| c a IH]; cbn; [reflexivity | now rewrite IH]. Qed.

Lemma substring_whole (s : string) :
  forall n : nat, (String.length s <= n)%nat -> substring 0 n s = s.
Proof.
  induction s as [| c s IH]; intros [| n] Hn; cbn in *;
    try reflexivity; try lia.
  rewrite IH by lia. reflexivity.
Qed.

Lemma fmt_two_length (v : Z) :
  0 <= v <= 177 ->
  String.length (fmt_0d 2 v) = if v <=? 99 then 2%nat else 3%nat.
Proof.
  intros Hv.
  pose proof (range_forallb
                (fun z => Nat.eqb (String.length (fmt_0d 2 z))
                                  (if z <=? 99 then 2 else 3)) 178
                ltac:(vm_compute; reflexivity) v ltac:(lia)) as H.
  now apply Nat.eqb_eq.
Qed.

Lemma four_digits_length (v : Z) : String.length (four_digits v) = 4%nat.
Proof. reflexivity. Qed.

(** The length of the text for a time the decoder delivers. *)
Lemma format_date_length (d : rtc_time) :
  0 <= tm_sec d <= 165 -> 0 <= tm_min d <= 165 -> 0 <= tm_hour d <= 177 ->
  0 <= tm_mday d <= 165 -> 0 <= tm_mon d + 1 <= 85 ->
  100 <= tm_year d <= 265 ->
  String.length (format_date d) =
  (20 + (if (tm_sec d <=? 99)%Z then 0 else 1) +
   (if (tm_min d <=? 99)%Z then 0 else 1) +
   (if (tm_hour d <=? 99)%Z then 0 else 1) +
   (if (tm_mday d <=? 99)%Z then 0 else 1))%nat.
Proof.
  intros Hs Hm Hh Hd Hmo Hy.
  assert (Hlen : String.length
                   (fmt_0d 2 (tm_mday d) ++ "." ++
                    fmt_0d 2 (s32 (tm_mon d + 1)) ++ "." ++
                    fmt_0d 4 (s32 (tm_year d + 1900)) ++ " " ++
                    fmt_0d 2 (tm_hour d) ++ ":" ++
                    fmt_0d 2 (tm_min d) ++ ":" ++
                    fmt_0d 2 (tm_sec d) ++ String LF EmptyString)%string =
                 (20 + (if (tm_sec d <=? 99)%Z then 0 else 1) +
                  (if (tm_min d <=? 99)%Z then 0 else 1) +
                  (if (tm_hour d <=? 99)%Z then 0 else 1) +
                  (if (tm_mday d <=? 99)%Z then 0 else 1))%nat).
  { rewrite !s32_int by lia.
    rewrite fmt_four_digits by lia.
    rewrite !string_length_app.
    rewrite !fmt_two_length by lia. rewrite four_digits_length.
    replace (tm_mon d + 1 <=? 99) with true by (symmetry; apply Z.leb_le; lia).
    cbn [String.length].
    destruct (tm_sec d <=? 99), (tm_min d <=? 99), (tm_hour d <=? 99),
      (tm_mday d <=? 99); reflexivity. }
  unfold format_date. rewrite substring_whole; [exact Hlen |].
  rewrite Hlen.
  destruct (tm_sec d <=? 99), (tm_min d <=? 99), (tm_hour d <=? 99),
    (tm_mday d <=? 99); cbn; lia.
Qed.

(** C7 (as amended): for a time [ds3231_read_date] delivers with return
    value 0, the text has 20 bytes exactly when second, minute, hour and
    day of month are at most 99 (month and year always print with two and
    four digits); in that case, with a user buffer of at least 20 bytes
    and a copy to the user that succeeds, text read returns 20 and the
    bytes [DD.MM.YYYY HH:MM:SS] and a line feed, every field zero-padded
    to two digits and the year to four.  Day 5, month 7, year 2023,
    09:02:07 gives [05.07.2023 09:02:07] and a line feed. *)
Theorem text_read_format (count : nat) (stack d : rtc_time) (s s' : chip) :
  ds3231_read_date stack s = ((0, d), s') ->
  (String.length (format_date d) = 20%nat <->
   tm_sec d <= 99 /\ tm_min d <= 99 /\ tm_hour d <= 99 /\ tm_mday d <= 99) /\
  (tm_sec d <= 99 -> tm_min d <= 99 -> tm_hour d <= 99 -> tm_mday d <= 99 ->
   (20 <= count)%nat ->
   ds3231_dev_read count fresh_offset stack true s =
   ((20, 1, calendar_text d), s') /\
   String.length (calendar_text d) = 20%nat) /\
  format_date (mk_rtc_time 7 2 9 5 6 123 0 0 0) =
  ("05.07.2023 09:02:07" ++ String LF EmptyString)%string.
Proof.
  intros Hread.
  destruct (read_date_decoded stack d s s' Hread) as (regs & Hb & Hd).
  destruct (decode_ranges regs stack d Hb Hd) as (Hs & Hm & Hh & Hday & Hmo & Hy).
  split; [| split; [| reflexivity]].
  - rewrite (format_date_length d Hs Hm Hh Hday Hmo Hy).
    destruct (tm_sec d <=? 99) eqn:E1, (tm_min d <=? 99) eqn:E2,
      (tm_hour d <=? 99) eqn:E3, (tm_mday d <=? 99) eqn:E4;
      try apply Z.leb_le in E1; try apply Z.leb_le in E2;
      try apply Z.leb_le in E3; try apply Z.leb_le in E4;
      try apply Z.leb_gt in E1; try apply Z.leb_gt in E2;
      try apply Z.leb_gt in E3; try apply Z.leb_gt in E4;
      split; intros H; try lia; cbn in H; lia.
  - intros Hs' Hm' Hh' Hday' Hcount.
    split; [| apply calendar_text_length].
    assert (Hfields : two_digit_fields d) by (unfold two_digit_fields; lia).
    unfold ds3231_dev_read, fresh_offset, bind. cbn [Z.eqb negb].
    rewrite Hread. cbn [fst snd Z.ltb Z.compare].
    rewrite (format_date_calendar_text d Hfields).
    rewrite calendar_text_length.
    replace (count <? 20)%nat with false
      by (symmetry; apply Nat.ltb_ge; exact Hcount).
    cbn [negb]. reflexivity.
Qed.

Lemma text_read_format_witness :
  ds3231_dev_read 64 fresh_offset zero_time true chip0 =
  ((20, 1, ("05.07.2023 09:02:07" ++ String LF EmptyString)%string),
   snd (ds3231_read_date zero_time chip0)).
Proof.
  refine (proj1 (proj1 (proj2 (text_read_format 64 zero_time
                                 (mk_rtc_time 7 2 9 5 6 123 0 0 0) chip0
                                 (snd (ds3231_read_date zero_time chip0)) _))
                       _ _ _ _ _)).
  - reflexivity.
  - cbn. lia.
  - cbn. lia.
  - cbn. lia.
  - cbn. lia.
  - lia.
Defined.

(** C7, counterexample: with the byte [0xa0] in the seconds register the
    decoder returns 0 and delivers second 100; text read then returns 21
    bytes, the seconds printed with three digits.  And with a user buffer
    of 5 bytes text read returns the first 5 bytes only. *)
Lemma text_read_three_digit_seconds :
  fst (ds3231_read_date zero_time chip_seconds_a0) =
  (0, mk_rtc_time 100 2 9 5 6 123 0 0 0) /\
  fst (ds3231_dev_read 64 fresh_offset zero_time true chip_seconds_a0) =
  (21, 1, ("05.07.2023 09:02:100" ++ String LF EmptyString)%string) /\
  fst (ds3231_dev_read 5 fresh_offset zero_time true chip0) =
  (5, 1, "05.07"%string).
Proof. repeat split; reflexivity. Qed.

(** ** Reads on one open file *)

Lemma decode_result (regs : list Z) (d : rtc_time) :
  fst (decode regs d) = 0 \/ fst (decode regs d) = EINVAL.
Proof.
  unfold decode.
  destruct (negb (Z.land (reg regs DS3231_REG_MONTH) DS3231_BIT_CENTURY =? 0));
    [right; reflexivity |].
  left.
  destruct (negb (Z.land (reg regs DS3231_REG_HOURS) DS3231_BIT_12H =? 0));
    [| reflexivity].
  match goal with
  | |- context [if ?c then _ else _] => destruct c
  end; reflexivity.
Qed.

Lemma plan_ok_firstn (n : nat) (p : list Z) :
  Forall (fun c => 0 <= c) p -> Forall (fun c => 0 <= c) (firstn n p).
Proof.
  intros H. revert n.
  induction H as [| c p Hc Hp IH]; intros [| n]; cbn; constructor; auto.
Qed.

Lemma plan_ok_skipn (n : nat) (p : list Z) :
  Forall (fun c => 0 <= c) p -> Forall (fun c => 0 <= c) (skipn n p).
Proof.
  intros H. revert n.
  induction H as [| c p Hc Hp IH]; intros [| n]; cbn; auto.
Qed.

(** A read that finds the read-done state clear, on a bus that does not
    fail: the text of the decoded registers, cut to the user buffer. *)
Lemma dev_read_data (count : nat) (stack : rtc_time) (s : chip) :
  Forall (fun c => 0 <= c) (plan s) -> byte_regs s ->
  (7 <= List.length (regfile s))%nat ->
  let text := format_date (snd (decode (firstn 7 (regfile s)) stack)) in
  let n := Nat.min count (String.length text) in
  ds3231_dev_read count fresh_offset stack true s =
  ((Z.of_nat n, 1, substring 0 n text), snd (ds3231_read_date stack s)).
Proof.
  intros Hplan Hbytes Hlen text n.
  destruct (read_date_success stack s (plan_ok_firstn 7 _ Hplan) Hbytes Hlen)
    as (Hres & _ & _).
  unfold ds3231_dev_read, fresh_offset, bind. cbn [Z.eqb negb].
  destruct (ds3231_read_date stack s) as [r s1]. cbn [fst snd] in *.
  subst r.
  replace (fst (decode (firstn 7 (regfile s)) stack) <? 0) with false
    by (symmetry; apply Z.ltb_ge;
        destruct (decode_result (firstn 7 (regfile s)) stack) as [-> | ->];
        unfold EINVAL; lia).
  cbn [negb]. fold text. unfold ret.
  assert (Hn : (if (count <? String.length text)%nat then count
                else String.length text) = n).
  { unfold n. destruct (count <? String.length text)%nat eqn:E.
    - apply Nat.ltb_lt in E. lia.
    - apply Nat.ltb_ge in E. lia. }
  rewrite Hn. reflexivity.
Qed.

Lemma dev_read_done (count : nat) (offset : Z) (stack : rtc_time) (uok : bool)
      (s : chip) :
  offset <> 0 ->
  ds3231_dev_read count offset stack uok s = ((0, 0, EmptyString), s).
Proof.
  intros Hoff. unfold ds3231_dev_read.
  replace (offset =? 0) with false by (symmetry; apply Z.eqb_neq; exact Hoff).
  reflexivity.
Qed.

Lemma read_session_pattern (stack : rtc_time) (reqs : list nat) :
  forall s : chip,
    Forall (fun c => 0 <= c) (plan s) -> byte_regs s ->
    (7 <= List.length (regfile s))%nat ->
    let len :=
      String.length (format_date (snd (decode (firstn 7 (regfile s)) stack))) in
    fst (read_session reqs fresh_offset stack s) = session_pattern len true reqs /\
    fst (read_session reqs 1 stack s) = session_pattern len false reqs.
Proof.
  induction reqs as [| count reqs IH]; intros s Hplan Hbytes Hlen len.
  - split; reflexivity.
  - split.
    + cbn [read_session session_pattern]. unfold bind.
      rewrite (dev_read_data count stack s Hplan Hbytes Hlen).
      cbn [fst snd].
      destruct (read_date_success stack s (plan_ok_firstn 7 _ Hplan) Hbytes Hlen)
        as (_ & Hrf & Hpl).
      set (s1 := snd (ds3231_read_date stack s)) in *.
      assert (Hplan1 : Forall (fun c => 0 <= c) (plan s1))
        by (rewrite Hpl; apply plan_ok_skipn; exact Hplan).
      assert (Hbytes1 : byte_regs s1) by (unfold byte_regs; rewrite Hrf; exact Hbytes).
      assert (Hlen1 : (7 <= List.length (regfile s1))%nat) by (rewrite Hrf; exact Hlen).
      destruct (IH s1 Hplan1 Hbytes1 Hlen1) as [_ Hnext].
      rewrite Hrf in Hnext.
      destruct (read_session reqs 1 stack s1) as [rs s2].
      cbn [fst snd] in *. unfold ret. cbn [fst]. rewrite Hnext. reflexivity.
    + cbn [read_session session_pattern]. unfold bind.
      rewrite (dev_read_done count 1 stack true s) by discriminate.
      cbn [fst snd].
      destruct (IH s Hplan Hbytes Hlen) as [Hnext _].
      unfold fresh_offset in Hnext.
      destruct (read_session reqs 0 stack s) as [rs s2].
      cbn [fst snd] in *. unfold ret. cbn [fst]. rewrite Hnext. reflexivity.
Qed.

(** C8 (as amended): a read that finds the read-done state set returns
    end-of-stream (zero bytes) without touching the chip and clears the
    state; a read that finds it clear sets it exactly when it succeeds.
    On a bus that does not fail, a read that finds the state clear
    returns the text of the decoded registers, cut to the user buffer,
    and sets the state; the return values of any sequence of reads on one
    open file therefore alternate between data and end-of-stream,
    beginning with data. *)
Theorem read_done_state_alternates (reqs : list nat) (count : nat) (offset : Z)
        (stack : rtc_time) (uok : bool) (s : chip) :
  (offset <> 0 ->
   ds3231_dev_read count offset stack uok s = ((0, 0, EmptyString), s)) /\
  (offset = 0 ->
   let r := fst (ds3231_dev_read count offset stack uok s) in
   snd (fst r) = if fst (fst r) <? 0 then 0 else 1) /\
  (Forall (fun c => 0 <= c) (plan s) -> byte_regs s ->
   (7 <= List.length (regfile s))%nat ->
   let text := format_date (snd (decode (firstn 7 (regfile s)) stack)) in
   let n := Nat.min count (String.length text) in
   fst (ds3231_dev_read count fresh_offset stack true s) =
   (Z.of_nat n, 1, substring 0 n text) /\
   fst (read_session reqs fresh_offset stack s) =
   session_pattern (String.length text) true reqs).
Proof.
  split; [| split].
  - apply dev_read_done.
  - intros ->. unfold ds3231_dev_read, bind. cbn [Z.eqb negb].
    destruct (ds3231_read_date stack s) as [[rc d] s1]. cbn [fst snd].
    destruct (rc <? 0); [reflexivity |].
    destruct uok; cbn [negb fst snd]; [| reflexivity].
    unfold ret. cbn [fst snd].
    match goal with
    | |- context [Z.of_nat ?w <? 0] =>
        replace (Z.of_nat w <? 0) with false by (symmetry; apply Z.ltb_ge; lia)
    end.
    reflexivity.
  - intros Hplan Hbytes Hlen text n. split.
    + unfold n, text. rewrite (dev_read_data count stack s Hplan Hbytes Hlen).
      reflexivity.
    + apply (read_session_pattern stack reqs s Hplan Hbytes Hlen).
Qed.

Lemma read_done_state_alternates_witness :
  ds3231_dev_read 64 1 zero_time true chip0 = ((0, 0, EmptyString), chip0) /\
  snd (fst (fst (ds3231_dev_read 64 0 zero_time true chip0))) = 1 /\
  fst (ds3231_dev_read 64 fresh_offset zero_time true chip0) =
  (20, 1, ("05.07.2023 09:02:07" ++ String LF EmptyString)%string) /\
  fst (read_session [64; 5; 64; 0; 64]%nat fresh_offset zero_time chip0) =
  [20; 0; 20; 0; 20].
Proof.
  destruct (read_done_state_alternates [64; 5; 64; 0; 64]%nat 64 1 zero_time true
              chip0) as (Hset & _ & _).
  destruct (read_done_state_alternates [64; 5; 64; 0; 64]%nat 64 0 zero_time true
              chip0) as (_ & Hclear & Hdata).
  assert (Hplan : Forall (fun c => 0 <= c) (plan chip0)) by constructor.
  assert (Hbytes : byte_regs chip0)
    by (unfold byte_regs, chip0; cbn [regfile]; repeat constructor; lia).
  assert (Hlen : (7 <= List.length (regfile chip0))%nat) by (cbn; lia).
  destruct (Hdata Hplan Hbytes Hlen) as [Hfirst Hsession].
  split; [apply Hset; discriminate |].
  split; [exact (Hclear eq_refl) |].
  split; [exact Hfirst | exact Hsession].
Defined.

(** ** The lock in a set-time transaction *)

Lemma read_block_loop_events (n : nat) :
  forall (r i : Z) (buf : list Z) (s : chip),
  exists evs,
    trace (snd (read_block_loop n r i buf s)) = trace s ++ evs /\
    forallb is_read evs = true /\
    (List.length evs <= n)%nat /\
    (n <> 0%nat -> evs <> []) /\
    (0 <= i -> (fst (fst (read_block_loop n r i buf s)) <? 0) = false ->
     List.length evs = n).
Proof.
  induction n as [| n IH]; intros r i buf s.
  - exists []. cbn. rewrite app_nil_r.
    split; [reflexivity |]. split; [reflexivity |]. split; [lia |].
    split; [intros H; now contradiction H | reflexivity].
  - cbn [read_block_loop]. unfold bind, i2c_smbus_read_byte_data.
    destruct (next_outcome s) as [code rest].
    set (result := if code <? 0 then code else u8 (reg (regfile s) (u8 (r + i)))).
    destruct (result <? 0) eqn:Hres.
    + exists [EvRead (u8 (r + i)) result]. unfold ret. cbn [fst snd trace].
      split; [reflexivity |]. split; [reflexivity |]. split; [cbn; lia |].
      split; [discriminate |]. intros _ H. congruence.
    + destruct (IH r (i + 1) (upd i (u8 result) buf)
                  (mk_chip (regfile s) rest
                           (trace s ++ [EvRead (u8 (r + i)) result])))
        as (evs & Htr & Hall & Hle & _ & Hfull).
      exists (EvRead (u8 (r + i)) result :: evs).
      rewrite Htr. cbn [trace].
      split; [rewrite <- app_assoc; reflexivity |].
      split; [exact Hall |]. split; [cbn [List.length]; lia |].
      split; [discriminate |].
      intros Hi H. cbn [List.length]. f_equal. apply Hfull; [lia | exact H].
Qed.

Lemma write_block_loop_events (n : nat) :
  forall (r i : Z) (buf : list Z) (s : chip),
  exists evs,
    trace (snd (write_block_loop n r i buf s)) = trace s ++ evs /\
    forallb is_write evs = true /\
    (List.length evs <= n)%nat /\
    (n <> 0%nat -> evs <> []).
Proof.
  induction n as [| n IH]; intros r i buf s.
  - exists []. cbn. rewrite app_nil_r.
    split; [reflexivity |]. split; [reflexivity |]. split; [lia |].
    intros H; now contradiction H.
  - cbn [write_block_loop]. unfold bind, i2c_smbus_write_byte_data.
    destruct (next_outcome s) as [code rest].
    destruct (code <? 0) eqn:Hcode.
    + rewrite Hcode. exists [EvWrite (u8 (r + i)) (reg buf i) code].
      unfold ret. cbn [fst snd trace].
      split; [reflexivity |]. split; [reflexivity |]. split; [cbn; lia |].
      discriminate.
    + cbn [Z.ltb Z.compare].
      destruct (IH r (i + 1) buf
                  (mk_chip (upd (u8 (r + i)) (reg buf i) (regfile s)) rest
                           (trace s ++ [EvWrite (u8 (r + i)) (reg buf i) 0])))
        as (evs & Htr & Hall & Hle & _).
      exists (EvWrite (u8 (r + i)) (reg buf i) 0 :: evs).
      rewrite Htr. cbn [trace].
      split; [rewrite <- app_assoc; reflexivity |].
      split; [exact Hall |]. split; [cbn [List.length]; lia |].
      discriminate.
Qed.

(** The events of a block transfer on a bus that does not fail. *)
Lemma read_block_loop_exact (n : nat) :
  forall (r i : Z) (buf : list Z) (s : chip),
    transfers_ok n s ->
    trace (snd (read_block_loop n r i buf s)) =
    trace s ++
    map (fun k => EvRead (u8 (r + (i + Z.of_nat k)))
                         (u8 (reg (regfile s) (u8 (r + (i + Z.of_nat k))))))
        (seq 0 n).
Proof.
  induction n as [| n IH]; intros r i buf s Hok.
  - cbn. now rewrite app_nil_r.
  - destruct (transfers_ok_step n s Hok) as [Hcode Hrest].
    cbn [read_block_loop]. unfold bind, i2c_smbus_read_byte_data.
    destruct (next_outcome s) as [code rest]. cbn [fst snd] in *.
    replace (code <? 0) with false by (symmetry; apply Z.ltb_ge; lia).
    replace (u8 (reg (regfile s) (u8 (r + i))) <? 0) with false
      by (symmetry; apply Z.ltb_ge; apply u8_range).
    rewrite IH by apply Hrest.
    cbn [trace regfile]. rewrite <- app_assoc. f_equal.
    cbn [seq map]. rewrite <- seq_shift, map_map.
    change (Z.of_nat 0) with 0. rewrite Z.add_0_r.
    cbn [app]. f_equal.
    apply map_ext. intros k.
    replace (i + 1 + Z.of_nat k) with (i + Z.of_nat (S k)) by lia.
    reflexivity.
Qed.

Lemma write_block_loop_exact (n : nat) :
  forall (r i : Z) (buf : list Z) (s : chip),
    transfers_ok n s ->
    trace (snd (write_block_loop n r i buf s)) =
    trace s ++
    map (fun k => EvWrite (u8 (r + (i + Z.of_nat k))) (reg buf (i + Z.of_nat k)) 0)
        (seq 0 n).
Proof.
  induction n as [| n IH]; intros r i buf s Hok.
  - cbn. now rewrite app_nil_r.
  - destruct (transfers_ok_step n s Hok) as [Hcode Hrest].
    cbn [write_block_loop]. unfold bind, i2c_smbus_write_byte_data.
    destruct (next_outcome s) as [code rest]. cbn [fst snd] in *.
    replace (code <? 0) with false by (symmetry; apply Z.ltb_ge; lia).
    cbn [Z.ltb Z.compare].
    rewrite IH by apply Hrest.
    cbn [trace]. rewrite <- app_assoc. f_equal.
    cbn [seq map]. rewrite <- seq_shift, map_map.
    change (Z.of_nat 0) with 0. rewrite Z.add_0_r.
    cbn [app]. f_equal.
    apply map_ext. intros k.
    replace (i + 1 + Z.of_nat k) with (i + Z.of_nat (S k)) by lia.
    reflexivity.
Qed.

Lemma time_read_events (rf : list Z) :
  Forall (fun b => 0 <= b < 256) rf ->
  map (fun k => EvRead (u8 (DS3231_REG_SECONDS + (0 + Z.of_nat k)))
                       (u8 (reg rf (u8 (DS3231_REG_SECONDS + (0 + Z.of_nat k))))))
      (seq 0 7) =
  read_events rf.
Proof.
  intros Hb.
  rewrite (map_ext_in _ (fun k => EvRead (Z.of_nat k) (reg rf (Z.of_nat k)))).
  - reflexivity.
  - intros k Hk. apply in_seq in Hk. unfold DS3231_REG_SECONDS.
    rewrite !Z.add_0_l. rewrite (u8_byte (Z.of_nat k)) by lia.
    rewrite u8_byte by (apply reg_byte; exact Hb). reflexivity.
Qed.

Lemma time_write_events (block : list Z) :
  map (fun k => EvWrite (u8 (DS3231_REG_SECONDS + (0 + Z.of_nat k)))
                        (reg block (0 + Z.of_nat k)) 0)
      (seq 0 7) =
  write_events block.
Proof.
  rewrite (map_ext_in _ (fun k => EvWrite (Z.of_nat k) (reg block (Z.of_nat k)) 0)).
  - reflexivity.
  - intros k Hk. apply in_seq in Hk. unfold DS3231_REG_SECONDS.
    rewrite !Z.add_0_l. rewrite (u8_byte (Z.of_nat k)) by lia. reflexivity.
Qed.

Lemma lock_replay_held (body rest : list event) :
  forallb is_transfer body = true ->
  lock_replay true (body ++ rest) = lock_replay true rest.
Proof.
  induction body as [| e body IH]; intros H; [reflexivity |].
  cbn [forallb] in H. apply andb_true_iff in H. destruct H as [He Hb].
  destruct e; try discriminate He; cbn [app lock_replay]; apply IH; exact Hb.
Qed.

Lemma reads_are_transfers (l : list event) :
  forallb is_read l = true -> forallb is_transfer l = true.
Proof.
  induction l as [| e l IH]; [reflexivity |].
  cbn [forallb]. intros H. apply andb_true_iff in H. destruct H as [He Hl].
  unfold is_transfer at 1. rewrite He, (IH Hl). reflexivity.
Qed.

Lemma writes_are_transfers (l : list event) :
  forallb is_write l = true -> forallb is_transfer l = true.
Proof.
  induction l as [| e l IH]; [reflexivity |].
  cbn [forallb]. intros H. apply andb_true_iff in H. destruct H as [He Hl].
  unfold is_transfer at 1. rewrite He, (IH Hl). apply andb_true_iff.
  split; [apply orb_true_r | reflexivity].
Qed.

(** Replay of the lock over the events of a set-time transaction. *)
Lemma lock_replay_sections (rd wr : list event) :
  forallb is_read rd = true -> forallb is_write wr = true ->
  lock_replay false (EvLock :: rd ++ [EvUnlock]) = Some false /\
  lock_replay false (EvLock :: rd ++ EvUnlock :: EvLock :: wr ++ [EvUnlock]) =
  Some false.
Proof.
  intros Hrd Hwr. cbn [lock_replay].
  rewrite !(lock_replay_held rd) by (apply reads_are_transfers; exact Hrd).
  cbn [lock_replay].
  rewrite (lock_replay_held wr) by (apply writes_are_transfers; exact Hwr).
  split; reflexivity.
Qed.

Lemma two_sections_not_one (rd wr : list event) :
  one_critical_section (EvLock :: rd ++ EvUnlock :: EvLock :: wr ++ [EvUnlock]) =
  false.
Proof.
  unfold one_critical_section.
  replace (rd ++ EvUnlock :: EvLock :: wr ++ [EvUnlock])
    with ((rd ++ EvUnlock :: EvLock :: wr) ++ [EvUnlock])
    by (rewrite <- app_assoc; reflexivity).
  rewrite rev_app_distr. cbn [rev app].
  rewrite rev_app_distr. cbn [rev].
  rewrite !forallb_app. cbn [forallb is_transfer is_read is_write orb andb].
  rewrite !andb_false_r. reflexivity.
Qed.

(** C9 (as amended): a set-time transaction takes the lock, makes between
    one and seven register reads, and releases the lock; when all seven
    reads succeeded it takes the lock again, makes between one and seven
    register writes, and releases it, and then returns 0.  Every transfer
    lies between a lock and its unlock and the lock is free at the end,
    but it is also free between the reads and the writes, so the
    transaction is two critical sections and not one.  On a bus that does
    not fail the events are exactly: lock, the reads of registers 0 to 6,
    unlock, lock, the writes of the encoded block to registers 0 to 6,
    unlock. *)
Theorem write_date_lock_sections (d : rtc_time) (s : chip) :
  (exists rd wr,
      let ret_ := fst (ds3231_write_date d s) in
      let evs :=
        EvLock :: rd ++ EvUnlock ::
               (if ret_ <? 0 then [] else EvLock :: wr ++ [EvUnlock]) in
      trace (snd (ds3231_write_date d s)) = trace s ++ evs /\
      forallb is_read rd = true /\
      forallb is_write wr = true /\
      (1 <= List.length rd <= 7)%nat /\
      (ret_ < 0 \/
       ret_ = 0 /\ List.length rd = 7%nat /\ (1 <= List.length wr <= 7)%nat /\
       one_critical_section evs = false) /\
      lock_replay false (EvLock :: rd ++ [EvUnlock]) = Some false /\
      lock_replay false evs = Some false) /\
  (transfers_ok 14 s -> byte_regs s -> (7 <= List.length (regfile s))%nat ->
   fst (ds3231_write_date d s) = 0 /\
   trace (snd (ds3231_write_date d s)) =
   trace s ++ [EvLock] ++ read_events (regfile s) ++ [EvUnlock; EvLock] ++
   write_events (encode (firstn 7 (regfile s)) d) ++ [EvUnlock]).
Proof.
  split.
  - unfold ds3231_write_date, bind, mutex_lock, mutex_unlock, log,
      ds3231_read_block_data, ds3231_write_block_data.
    set (s1 := mk_chip (regfile s) (plan s) (trace s ++ [EvLock])).
    destruct (read_block_loop_events (Z.to_nat 7) DS3231_REG_SECONDS 0 regs_local s1)
      as (rd & Hrd & Hrd_all & Hrd_le & Hrd_ne & Hrd_full).
    destruct (read_block_loop (Z.to_nat 7) DS3231_REG_SECONDS 0 regs_local s1)
      as [[rc regs] s2].
    cbn [fst snd] in *. cbn [trace] in Hrd.
    change (Z.to_nat 7) with 7%nat in *.
    assert (Hrd_len : (1 <= List.length rd <= 7)%nat).
    { split; [| exact Hrd_le].
      destruct rd; [exfalso; apply Hrd_ne; [discriminate | reflexivity] |].
      cbn [List.length]. lia. }
    destruct (rc <? 0) eqn:Hrc.
    + exists rd, []. unfold ret. cbn [fst snd trace]. cbv zeta. rewrite Hrc, Hrd.
      subst s1. cbn [trace].
      split; [rewrite <- !app_assoc; reflexivity |].
      split; [exact Hrd_all |]. split; [reflexivity |].
      split; [exact Hrd_len |].
      split; [left; apply Z.ltb_lt; exact Hrc |].
      destruct (lock_replay_sections rd [] Hrd_all eq_refl) as [Hfree _].
      split; exact Hfree.
    + cbn [regfile plan trace].
      set (s3 := mk_chip (regfile s2) (plan s2)
                         ((trace s2 ++ [EvUnlock]) ++ [EvLock])).
      destruct (write_block_loop_events 7 DS3231_REG_SECONDS 0 (encode regs d) s3)
        as (wr & Hwr & Hwr_all & Hwr_le & Hwr_ne).
      destruct (write_block_loop 7 DS3231_REG_SECONDS 0 (encode regs d) s3)
        as [w s4].
      cbn [fst snd] in *. cbn [trace] in Hwr.
      exists rd, wr. unfold ret. cbn [fst snd trace Z.ltb Z.compare]. cbv zeta.
      rewrite Hwr. subst s3. cbn [trace]. rewrite Hrd. subst s1. cbn [trace].
      destruct (lock_replay_sections rd wr Hrd_all Hwr_all) as [Hfree Hend].
      split; [rewrite <- !app_assoc; reflexivity |].
      split; [exact Hrd_all |]. split; [exact Hwr_all |].
      split; [exact Hrd_len |].
      split; [| split; [exact Hfree | exact Hend]].
      right. split; [reflexivity |].
      split; [apply Hrd_full; [lia | reflexivity] |].
      split; [| apply two_sections_not_one].
      split; [| exact Hwr_le].
      destruct wr; [exfalso; apply Hwr_ne; [discriminate | reflexivity] |].
      cbn [List.length]. lia.
  - intros Hok Hb Hlen.
    unfold ds3231_write_date, bind, mutex_lock, mutex_unlock, log,
      ds3231_read_block_data, ds3231_write_block_data.
    set (s1 := mk_chip (regfile s) (plan s) (trace s ++ [EvLock])).
    assert (Hok1 : transfers_ok 7 s1) by exact (transfers_ok_firstn 7 7 _ Hok).
    destruct (read_time_block s1 Hok1 Hb Hlen) as (H1 & H2 & H3).
    pose proof (read_block_loop_exact 7 DS3231_REG_SECONDS 0 regs_local s1 Hok1)
      as Hrd.
    change (Z.to_nat 7) with 7%nat in *.
    destruct (read_block_loop 7 DS3231_REG_SECONDS 0 regs_local s1)
      as [[rc regs] s2].
    cbn [fst snd regfile plan trace] in *.
    injection H1 as Hrc Hregs. subst rc regs.
    cbn [Z.ltb Z.compare].
    match goal with
    | |- context [write_block_loop _ _ _ ?b ?s3] =>
        assert (Hok3 : transfers_ok 7 s3)
          by (unfold transfers_ok; cbn [plan]; rewrite H3;
              apply (transfers_ok_skipn 7 7); exact Hok);
        pose proof (write_block_loop_exact 7 DS3231_REG_SECONDS 0 b s3 Hok3)
          as Hwr;
        destruct (write_block_loop 7 DS3231_REG_SECONDS 0 b s3) as [w s4]
    end.
    cbn [fst snd trace] in Hwr. unfold ret. cbn [fst snd trace].
    split; [reflexivity |].
    rewrite Hwr, Hrd. subst s1. cbn [trace regfile].
    rewrite (time_read_events (regfile s) Hb).
    rewrite time_write_events.
    rewrite <- !app_assoc. reflexivity.
Qed.

Lemma write_date_lock_sections_witness :
  fst (ds3231_write_date sample_time chip0) = 0 /\
  trace (snd (ds3231_write_date sample_time chip0)) =
  trace chip0 ++ [EvLock] ++ read_events (regfile chip0) ++ [EvUnlock; EvLock] ++
  write_events (encode (firstn 7 (regfile chip0)) sample_time) ++ [EvUnlock].
Proof.
  apply (proj2 (write_date_lock_sections sample_time chip0)).
  - unfold transfers_ok. cbn. constructor.
  - unfold byte_regs, chip0. cbn [regfile]. repeat constructor; lia.
  - cbn. lia.
Defined.
